(** * Cache readers and script substitution of the Mantaflow bridge

    A shallow embedding of the file readers, the configuration snapshot
    and the script-variable substitution of
    [intern/mantaflow/intern/MANTA_main.cpp].

    Conventions of the embedding
    - a C [int] is a [Z]; where the source relies on a conversion to
      [unsigned] or [size_t] the wrap-around is written out;
    - a [float] is never computed with by the readers, only copied, so a
      [float] value is its 32-bit pattern, a [Z] in [0, 2^32); the one
      place that does arithmetic on floats, the number of chunks, uses the
      IEEE-754 binary32 operations of [SpecFloat];
    - memory that [gzread] fills is a [list byte]; typed views decode
      little-endian, as on the platforms the bridge is built for;
    - a [gzFile] opened for reading is the list of decompressed bytes that
      are still to be delivered, with the status [gzclose] will report;
    - locals that the source declares without an initialiser hold
      indeterminate bytes: they are arguments of the embedded function;
    - [std::cout]/[std::cerr] diagnostics are left out of the readers (they
      do not influence control flow); [getRealValue] and [parseLine] carry
      their [std::cerr] lines, since callers are told about them. *)

From Stdlib Require Import ZArith Lia Strings.Ascii Strings.Byte Floats.SpecFloat.
From stdpp Require Import base list strings pretty.

Local Open Scope Z_scope.

(** ** Bytes and little-endian words *)

Abbreviation byte := Byte.byte.

#[global] Instance byte_eq_dec : EqDecision byte := Byte.byte_eq_dec.

Definition byte_to_Z (b : byte) : Z := Z.of_N (Byte.to_N b).

Definition byte_of_Z (z : Z) : byte :=
  match Byte.of_N (Z.to_N (z mod 256)) with
  | Some b => b
  | None => Byte.x00
  end.

(** The unsigned value of a little-endian byte string. *)
Fixpoint le_decode (bs : list byte) : Z :=
  match bs with
  | [] => 0
  | b :: bs' => byte_to_Z b + 256 * le_decode bs'
  end.

(** The [n] low-order bytes of [v], least significant first. *)
Fixpoint le_encode (n : nat) (v : Z) : list byte :=
  match n with
  | O => []
  | S n' => byte_of_Z v :: le_encode n' (v / 256)
  end.

(** Two's complement reading of an unsigned 32-bit value. *)
Definition to_int32 (u : Z) : Z :=
  let u' := u mod 2 ^ 32 in
  if u' <? 2 ^ 31 then u' else u' - 2 ^ 32.

(** [buf] seen as [int buf[]]: element [k]. *)
Definition int_at (buf : list byte) (k : Z) : Z :=
  to_int32 (le_decode (take 4 (drop (Z.to_nat (4 * k)) buf))).

(** [buf] seen as [float buf[]]: the bit pattern of element [k]. *)
Definition float_at (buf : list byte) (k : Z) : Z :=
  le_decode (take 4 (drop (Z.to_nat (4 * k)) buf)).

Definition encode_int (v : Z) : list byte := le_encode 4 v.
Definition encode_float (v : Z) : list byte := le_encode 4 v.

Definition is_int32 (v : Z) : bool := (- 2 ^ 31 <=? v) && (v <? 2 ^ 31).
Definition is_float32 (v : Z) : bool := (0 <=? v) && (v <? 2 ^ 32).

(** ** zlib streams *)

Definition Z_OK : Z := 0.

Record gzFile := mk_gzFile {
  gz_rest : list byte;   (* decompressed bytes not yet delivered *)
  gz_status : Z          (* what gzclose returns for this stream *)
}.

(** [overwrite got buf]: [buf] after its first bytes were replaced by [got]. *)
Definition overwrite (got buf : list byte) : list byte :=
  got ++ drop (length got) buf.

(** [int gzread(gzFile, voidp buf, unsigned len)]: delivers up to [len]
    bytes into the front of [buf] and returns how many; a length that does
    not fit an [int] is refused with -1.  The result is the stream, the
    buffer and the returned count. *)
Definition gzread (f : gzFile) (buf : list byte) (len : Z)
  : gzFile * list byte * Z :=
  let len32 := len mod 2 ^ 32 in
  if 2 ^ 31 <=? len32 then (f, buf, -1)
  else
    let got := take (Z.to_nat len32) (gz_rest f) in
    (mk_gzFile (drop (Z.to_nat len32) (gz_rest f)) (gz_status f),
     overwrite got buf,
     Z.of_nat (length got)).

Definition gzclose (f : gzFile) : Z := gz_status f.

(** The bytes of a C string up to its terminator. *)
Fixpoint cstr (bs : list byte) : list byte :=
  match bs with
  | [] => []
  | b :: bs' => if Byte.eqb b Byte.x00 then [] else b :: cstr bs'
  end.

(** [!strcmp(a, lit)] for a string literal [lit]. *)
Definition streq (a : list byte) (lit : string) : bool :=
  bool_decide (cstr a = cstr (String.list_byte_of_string lit)).

(** [char file_magic[5] = {0,0,0,0,0}] *)
Definition file_magic_init : list byte :=
  [Byte.x00; Byte.x00; Byte.x00; Byte.x00; Byte.x00].

(** Modelled from the spec: the macro [CLAMP(a, b, c)] is defined in
    BLI_utildefines.h, which is not among the sources.  It limits [a] to the
    range from [b] to [c]; the result is the value left in [a]. *)
Definition CLAMP (a b c : Z) : Z :=
  if a <? b then b else if c <? a then c else a.

(** ** The solver object *)

(** Modelled from the spec: the declarations of [Node], [Triangle],
    [pData] and [pVel] are in MANTA_main.h, which is not among the sources.
    The spec gives a vertex and a normal as three floats each, a triangle
    as three ints, and a particle record as a 3D position and an integer
    flag; the fields below are the ones MANTA_main.cpp accesses, and
    [sizeof(pData)] is the 16 that the sanity check of the readers expects.
    Of the solver object, only the members the embedded functions touch
    are kept. *)

Definition float3 : Type := Z * Z * Z.

Record Node := mk_Node { pos : float3; normal : float3 }.
Record Triangle := mk_Triangle { c : Z * Z * Z }.
Record pData := mk_pData { pd_pos : float3; pd_flag : Z }.
Record pVel := mk_pVel { pv_pos : float3 }.

Definition float3_zero : float3 := (0, 0, 0).
Definition Node_zero : Node := mk_Node float3_zero float3_zero.
Definition Triangle_zero : Triangle := mk_Triangle (0, 0, 0).
Definition pData_zero : pData := mk_pData float3_zero 0.
Definition pVel_zero : pVel := mk_pVel float3_zero.

Record MANTA := mk_MANTA {
  mCurrentID : Z;
  mResX : Z; mResY : Z; mResZ : Z;
  mResXNoise : Z; mResYNoise : Z; mResZNoise : Z;
  mMeshNodes : list Node;
  mMeshTriangles : list Triangle;
  mMeshVelocities : option (list pVel);
  mFlipParticleData : list pData;
  mFlipParticleVelocity : list pVel;
  mSndParticleData : list pData;
  mSndParticleVelocity : list pVel;
  mSndParticleLife : list Z
}.

(** ** updateGridFromUni *)

(** [opened] is what [BLI_gzopen] returned, [grid] the memory behind the
    [float *grid] argument, [ibuffer] the indeterminate initial content of
    the local [int ibuffer[4]].  Returns the boolean and the grid memory. *)
Definition updateGridFromUni (m : MANTA) (opened : option gzFile)
    (grid : list byte) (isNoise : bool) (ibuffer : list byte)
  : bool * list byte :=
  match opened with
  | None => (false, grid)
  | Some gzf =>
    let '(gzf, file_magic, readBytes) := gzread gzf file_magic_init 4 in
    if readBytes =? 0 then (false, grid)
    else if streq file_magic "DDF2" then (false, grid)
    else if streq file_magic "MNT1" then (false, grid)
    else if streq file_magic "MNT2" then (false, grid)
    else
      (* grid uni header *)
      let '(gzf, ibuffer, _) := gzread gzf ibuffer (4 * 4) in
      let '(gzf, _, _) := gzread gzf [] 4 in       (* elementType *)
      let '(gzf, _, _) := gzread gzf [] 4 in       (* bytesPerElement *)
      let '(gzf, _, _) := gzread gzf [] 252 in     (* info *)
      let '(gzf, _, _) := gzread gzf [] 4 in       (* dimT *)
      let '(gzf, _, _) := gzread gzf [] 8 in       (* timestamp *)
      let resX := if isNoise then mResXNoise m else mResX m in
      let resY := if isNoise then mResYNoise m else mResY m in
      let resZ := if isNoise then mResZNoise m else mResZ m in
      if negb (int_at ibuffer 0 =? resX) || negb (int_at ibuffer 1 =? resY)
         || negb (int_at ibuffer 2 =? resZ)
      then (false, grid)
      else
        let '(gzf, grid) :=
          if streq file_magic "MNT3" then
            let '(gzf, grid, _) :=
              gzread gzf grid
                (4 * int_at ibuffer 0 * int_at ibuffer 1 * int_at ibuffer 2) in
            (gzf, grid)
          else (gzf, grid) in
        (gzclose gzf =? Z_OK, grid)
  end.

(** *** What a grid snapshot holds, read off the bytes of the file *)

(** The magic as [file_magic] holds it after the first read. *)
Definition file_magic_of (f : gzFile) : list byte :=
  overwrite (take 4 (gz_rest f)) file_magic_init.

Definition has_magic (f : gzFile) (lit : string) : Prop :=
  streq (file_magic_of f) lit = true.

(** The four header integers that follow the magic, laid over whatever
    [ibuffer] held when the file is too short to supply them all. *)
Definition header_ibuffer (f : gzFile) (ibuffer : list byte) : list byte :=
  overwrite (take 16 (drop 4 (gz_rest f))) ibuffer.

Definition grid_header_dims (f : gzFile) (ibuffer : list byte) : Z * Z * Z :=
  let ib := header_ibuffer f ibuffer in
  (int_at ib 0, int_at ib 1, int_at ib 2).

Definition expected_res (m : MANTA) (isNoise : bool) : Z * Z * Z :=
  if isNoise then (mResXNoise m, mResYNoise m, mResZNoise m)
  else (mResX m, mResY m, mResZ m).

(** ** Control flow of the readers *)

Inductive thrown :=
  | OutOfRange         (* std::vector::at past the end *)
  | LengthError        (* std::vector::resize beyond max_size *)
  | NullPointer        (* a member called through a null pointer *)
  | AssertionFailure.  (* assert, in a build without NDEBUG *)

(** How a call ends: [return b] in state [s], or abnormally. *)
Inductive outcome (S : Type) :=
  | Returned (b : bool) (s : S)
  | Thrown (e : thrown).

Arguments Returned {S} b s.
Arguments Thrown {S} e.

(** How a chunk loop ends. *)
Inductive loop_result (T : Type) :=
  | Completed (gzf : gzFile) (dest : list T)   (* left through its condition *)
  | Aborted (dest : list T)                    (* its body ran [return false] *)
  | Raised (e : thrown).

Arguments Completed {T} gzf dest.
Arguments Aborted {T} dest.
Arguments Raised {T} e.

(** ** Number of chunks *)

Definition PARTICLE_CHUNK : Z := 20000.
Definition NODE_CHUNK : Z := 20000.
Definition TRIANGLE_CHUNK : Z := 20000.

(** IEEE-754 binary32. *)
Definition prec32 : Z := 24.
Definition emax32 : Z := 128.

(** [(float)n] for an [int n]: round to nearest, ties to even. *)
Definition float_of_int (n : Z) : spec_float :=
  binary_normalize prec32 emax32 n 0 false.

Definition float_div (x y : spec_float) : spec_float :=
  SFdiv prec32 emax32 x y.

(** [(int)ceil(x)] for a finite [x]. *)
Definition int_of_ceil (x : spec_float) : Z :=
  match x with
  | S754_finite s mant e =>
      let v := if s then Z.neg mant else Z.pos mant in
      if 0 <=? e then v * 2 ^ e else - ((- v) / 2 ^ (- e))
  | _ => 0
  end.

(** [(int)(ceil((float)n / CHUNK))] *)
Definition numChunksOf (n CHUNK : Z) : Z :=
  int_of_ceil (float_div (float_of_int n) (float_of_int CHUNK)).

(** ** Vectors *)

(** [v->resize(n)] for an [int n]: new elements are value-initialised; a
    negative [n] converts to a size beyond [max_size]. *)
Definition resize {T : Type} (n : Z) (zero : T) (v : list T)
  : option (list T) :=
  if n <? 0 then None
  else Some (take (Z.to_nat n) v ++ replicate (Z.to_nat n - length v) zero).

(** ** The chunk loop

    The six chunked reads of the file share one shape:
<<
    for (int i = 0; i < numChunks && todo > 0; ++i) {
      readLen = CHUNK;
      if (todo < CHUNK) readLen = todo;
      readBytes = gzread(gzf, buffer, readLen * sizeof(record));
      if (!readBytes) { ...; return false; }
      readStart = (N - todo);          CLAMP(readStart, 0, N);
      readEnd = readStart + readLen;   CLAMP(readEnd, 0, N);
      k = 0;
      for (size_type j = readStart; j < readEnd; j++, k += kstep)
        dest->at(j).field = buffer[k ...];
      todo -= readLen;
    }
>>
    They differ in the chunk size, the size of a record, the step of [k]
    and the assignment, which are the parameters of the section. *)

Section ChunkLoop.

Context {T : Type}.
Variable CHUNK : Z.
Variable recSize : Z.
Variable kstep : Z.
Variable store : list byte -> Z -> T -> T.

(** The inner [for]: [n] iterations are left, [j] and [k] as in the source. *)
Fixpoint copy_loop (n : nat) (buffer : list byte) (j k : Z) (dest : list T)
  : thrown + list T :=
  match n with
  | O => inr dest
  | S n' =>
      match dest !! Z.to_nat j with
      | None => inl OutOfRange
      | Some x =>
          copy_loop n' buffer (j + 1) (k + kstep)
            (<[Z.to_nat j := store buffer k x]> dest)
      end
  end.

(** The outer [for]: [n] is [numChunks - i]. *)
Fixpoint chunk_loop (n : nat) (N todo : Z) (gzf : gzFile)
    (buffer : list byte) (dest : list T) : loop_result T :=
  match n with
  | O => Completed gzf dest
  | S n' =>
      if 0 <? todo then
        let readLen := if todo <? CHUNK then todo else CHUNK in
        let '(gzf, buffer, readBytes) := gzread gzf buffer (readLen * recSize) in
        if readBytes =? 0 then Aborted dest
        else
          let readStart := CLAMP (N - todo) 0 N in
          let readEnd := CLAMP (readStart + readLen) 0 N in
          match copy_loop (Z.to_nat (readEnd - readStart)) buffer readStart 0 dest with
          | inl e => Raised e
          | inr dest => chunk_loop n' N (todo - readLen) gzf buffer dest
          end
      else Completed gzf dest
  end.

End ChunkLoop.

(** The assignments of the six loops. *)

Definition store_vertex (buffer : list byte) (k : Z) (x : Node) : Node :=
  mk_Node (float_at buffer k, float_at buffer (k + 1), float_at buffer (k + 2))
          (normal x).

Definition store_normal (buffer : list byte) (k : Z) (x : Node) : Node :=
  mk_Node (pos x)
          (float_at buffer k, float_at buffer (k + 1), float_at buffer (k + 2)).

Definition store_triangle (buffer : list byte) (k : Z) (x : Triangle) : Triangle :=
  mk_Triangle (int_at buffer k, int_at buffer (k + 1), int_at buffer (k + 2)).

(** [sizeof(pData)] is 16: [bufferPData[k]] starts at float index [4 * k]. *)
Definition store_pData (buffer : list byte) (k : Z) (x : pData) : pData :=
  mk_pData (float_at buffer (4 * k), float_at buffer (4 * k + 1),
            float_at buffer (4 * k + 2))
           (int_at buffer (4 * k + 3)).

(** [sizeof(pVel)] is 12. *)
Definition store_pVel (buffer : list byte) (k : Z) (x : pVel) : pVel :=
  mk_pVel (float_at buffer (3 * k), float_at buffer (3 * k + 1),
           float_at buffer (3 * k + 2)).

Definition store_life (buffer : list byte) (k : Z) (x : Z) : Z :=
  float_at buffer k.

(** ** Updating the vectors of the solver object *)

Definition set_mMeshNodes (v : list Node) (m : MANTA) : MANTA :=
  mk_MANTA (mCurrentID m) (mResX m) (mResY m) (mResZ m)
    (mResXNoise m) (mResYNoise m) (mResZNoise m)
    v (mMeshTriangles m) (mMeshVelocities m)
    (mFlipParticleData m) (mFlipParticleVelocity m)
    (mSndParticleData m) (mSndParticleVelocity m) (mSndParticleLife m).

Definition set_mMeshTriangles (v : list Triangle) (m : MANTA) : MANTA :=
  mk_MANTA (mCurrentID m) (mResX m) (mResY m) (mResZ m)
    (mResXNoise m) (mResYNoise m) (mResZNoise m)
    (mMeshNodes m) v (mMeshVelocities m)
    (mFlipParticleData m) (mFlipParticleVelocity m)
    (mSndParticleData m) (mSndParticleVelocity m) (mSndParticleLife m).

Definition set_mMeshVelocities (v : option (list pVel)) (m : MANTA) : MANTA :=
  mk_MANTA (mCurrentID m) (mResX m) (mResY m) (mResZ m)
    (mResXNoise m) (mResYNoise m) (mResZNoise m)
    (mMeshNodes m) (mMeshTriangles m) v
    (mFlipParticleData m) (mFlipParticleVelocity m)
    (mSndParticleData m) (mSndParticleVelocity m) (mSndParticleLife m).

Definition set_mFlipParticleData (v : list pData) (m : MANTA) : MANTA :=
  mk_MANTA (mCurrentID m) (mResX m) (mResY m) (mResZ m)
    (mResXNoise m) (mResYNoise m) (mResZNoise m)
    (mMeshNodes m) (mMeshTriangles m) (mMeshVelocities m)
    v (mFlipParticleVelocity m)
    (mSndParticleData m) (mSndParticleVelocity m) (mSndParticleLife m).

Definition set_mFlipParticleVelocity (v : list pVel) (m : MANTA) : MANTA :=
  mk_MANTA (mCurrentID m) (mResX m) (mResY m) (mResZ m)
    (mResXNoise m) (mResYNoise m) (mResZNoise m)
    (mMeshNodes m) (mMeshTriangles m) (mMeshVelocities m)
    (mFlipParticleData m) v
    (mSndParticleData m) (mSndParticleVelocity m) (mSndParticleLife m).

Definition set_mSndParticleData (v : list pData) (m : MANTA) : MANTA :=
  mk_MANTA (mCurrentID m) (mResX m) (mResY m) (mResZ m)
    (mResXNoise m) (mResYNoise m) (mResZNoise m)
    (mMeshNodes m) (mMeshTriangles m) (mMeshVelocities m)
    (mFlipParticleData m) (mFlipParticleVelocity m)
    v (mSndParticleVelocity m) (mSndParticleLife m).

Definition set_mSndParticleVelocity (v : list pVel) (m : MANTA) : MANTA :=
  mk_MANTA (mCurrentID m) (mResX m) (mResY m) (mResZ m)
    (mResXNoise m) (mResYNoise m) (mResZNoise m)
    (mMeshNodes m) (mMeshTriangles m) (mMeshVelocities m)
    (mFlipParticleData m) (mFlipParticleVelocity m)
    (mSndParticleData m) v (mSndParticleLife m).

Definition set_mSndParticleLife (v : list Z) (m : MANTA) : MANTA :=
  mk_MANTA (mCurrentID m) (mResX m) (mResY m) (mResZ m)
    (mResXNoise m) (mResYNoise m) (mResZNoise m)
    (mMeshNodes m) (mMeshTriangles m) (mMeshVelocities m)
    (mFlipParticleData m) (mFlipParticleVelocity m)
    (mSndParticleData m) (mSndParticleVelocity m) v.

(** Indeterminate initial contents of the locals and of the memory that
    [MEM_malloc_arrayN] hands out. *)
Record indeterminate := mk_indeterminate {
  i_ibuffer : list byte;           (* int ibuffer[4] *)
  i_fbuffer : list byte;           (* float fbuffer[4] *)
  i_elementType : list byte;       (* int elementType *)
  i_bytesPerElement : list byte;   (* int bytesPerElement *)
  i_chunk : list byte              (* the chunk buffer *)
}.

(** ** updateParticlesFromUni *)

(** [dataPointer], [velocityPointer] and [lifePointer] of the source:
    the vectors of the secondary system or of the FLIP system;
    [lifePointer] stays [nullptr] for the FLIP system. *)
Definition dataPointer (m : MANTA) (isSecondarySys : bool) : list pData :=
  if isSecondarySys then mSndParticleData m else mFlipParticleData m.

Definition velocityPointer (m : MANTA) (isSecondarySys : bool) : list pVel :=
  if isSecondarySys then mSndParticleVelocity m else mFlipParticleVelocity m.

Definition lifePointer (m : MANTA) (isSecondarySys : bool) : option (list Z) :=
  if isSecondarySys then Some (mSndParticleLife m) else None.

Definition set_dataPointer (isSecondarySys : bool) (v : list pData) (m : MANTA) : MANTA :=
  if isSecondarySys then set_mSndParticleData v m else set_mFlipParticleData v m.

Definition set_velocityPointer (isSecondarySys : bool) (v : list pVel) (m : MANTA) : MANTA :=
  if isSecondarySys then set_mSndParticleVelocity v m else set_mFlipParticleVelocity v m.

(** What a chunk loop leaves to the function around it: the loops are
    followed by [return (gzclose(gzf) == Z_OK)] at once. *)
Definition finish_loop {T : Type} (set : list T -> MANTA -> MANTA) (m : MANTA)
    (r : loop_result T) : outcome MANTA :=
  match r with
  | Completed gzf dest => Returned (gzclose gzf =? Z_OK) (set dest m)
  | Aborted dest => Returned false (set dest m)
  | Raised e => Thrown e
  end.

Definition updateParticlesFromUni (m : MANTA) (opened : option gzFile)
    (isSecondarySys isVelData : bool) (u : indeterminate) : outcome MANTA :=
  match opened with
  | None => Returned false m
  | Some gzf =>
    let '(gzf, file_magic, readBytes) := gzread gzf file_magic_init 4 in
    if readBytes =? 0 then Returned false m
    else if streq file_magic "PB01" then Returned false m
    else
      (* read particle header *)
      let '(gzf, ibuffer, _) := gzread gzf (i_ibuffer u) (4 * 4) in
      let '(gzf, elementType, _) := gzread gzf (i_elementType u) 4 in
      let '(gzf, bytesPerElement, _) := gzread gzf (i_bytesPerElement u) 4 in
      let '(gzf, _, _) := gzread gzf [] 256 in   (* info *)
      let '(gzf, _, _) := gzread gzf [] 8 in     (* timestamp *)
      (* Sanity checks *)
      let partSysSize := 4 * 3 + 4 in
      if negb (int_at bytesPerElement 0 =? partSysSize)
         && (int_at elementType 0 =? 0)
      then Returned false m
      else if int_at ibuffer 0 =? 0 then Returned true m
      else
        let numParticles := int_at ibuffer 0 in
        let numChunks := numChunksOf numParticles PARTICLE_CHUNK in
        if streq file_magic "PB02" then
          match resize numParticles pData_zero (dataPointer m isSecondarySys) with
          | None => Thrown LengthError
          | Some data =>
              finish_loop (set_dataPointer isSecondarySys) m
                (chunk_loop PARTICLE_CHUNK 16 1 store_pData
                   (Z.to_nat numChunks) numParticles numParticles
                   gzf (i_chunk u) data)
          end
        else if streq file_magic "PD01" && isVelData then
          match resize numParticles pVel_zero (velocityPointer m isSecondarySys) with
          | None => Thrown LengthError
          | Some vel =>
              finish_loop (set_velocityPointer isSecondarySys) m
                (chunk_loop PARTICLE_CHUNK 12 1 store_pVel
                   (Z.to_nat numChunks) numParticles numParticles
                   gzf (i_chunk u) vel)
          end
        else if streq file_magic "PD01" then
          match lifePointer m isSecondarySys with
          | None => Thrown NullPointer
          | Some life0 =>
              match resize numParticles 0 life0 with
              | None => Thrown LengthError
              | Some life =>
                  finish_loop set_mSndParticleLife m
                    (chunk_loop PARTICLE_CHUNK 4 1 store_life
                       (Z.to_nat numChunks) numParticles numParticles
                       gzf (i_chunk u) life)
              end
          end
        else Returned (gzclose gzf =? Z_OK) m
  end.

(** ** updateMeshFromBobj *)

(** Modelled from the spec: [getNumVertices()] is defined in MANTA_main.h,
    which is not among the sources; it is the number of mesh vertices, the
    size of [mMeshNodes]. *)
Definition getNumVertices (m : MANTA) : Z := Z.of_nat (length (mMeshNodes m)).

(** [bufferVerts], [bufferNormals] and [bufferTriangles] are the
    indeterminate contents of the three chunk buffers.  [numChunks] is
    computed from the vertex count, used by the vertex and the normal loop,
    and computed anew from the triangle count. *)
Definition updateMeshFromBobj (m : MANTA) (opened : option gzFile)
    (bufferVerts bufferNormals bufferTriangles : list byte) : outcome MANTA :=
  match opened with
  | None => Returned false m
  | Some gzf =>
    let numBuffer := encode_int 0 in
    (* Num vertices *)
    let '(gzf, numBuffer, readBytes) := gzread gzf numBuffer 4 in
    if readBytes =? 0 then Returned false m
    else
    let numChunks := numChunksOf (int_at numBuffer 0) NODE_CHUNK in
    match
      (if int_at numBuffer 0 =? 0 then Completed gzf (mMeshNodes m)
       else
         (* Vertices *)
         match resize (int_at numBuffer 0) Node_zero (mMeshNodes m) with
         | None => Raised LengthError
         | Some nodes =>
             chunk_loop NODE_CHUNK 12 3 store_vertex (Z.to_nat numChunks)
               (int_at numBuffer 0) (int_at numBuffer 0) gzf bufferVerts nodes
         end)
    with
    | Raised e => Thrown e
    | Aborted nodes => Returned false (set_mMeshNodes nodes m)
    | Completed gzf nodes =>
    let m := set_mMeshNodes nodes m in
    (* Num normals *)
    let '(gzf, numBuffer, readBytes) := gzread gzf numBuffer 4 in
    if readBytes =? 0 then Returned false m
    else
    match
      (if int_at numBuffer 0 =? 0 then Completed gzf (mMeshNodes m)
       else
         (* Normals *)
         match
           (if getNumVertices m =? 0
            then resize (int_at numBuffer 0) Node_zero (mMeshNodes m)
            else Some (mMeshNodes m))
         with
         | None => Raised LengthError
         | Some nodes =>
             chunk_loop NODE_CHUNK 12 3 store_normal (Z.to_nat numChunks)
               (int_at numBuffer 0) (int_at numBuffer 0) gzf bufferNormals nodes
         end)
    with
    | Raised e => Thrown e
    | Aborted nodes => Returned false (set_mMeshNodes nodes m)
    | Completed gzf nodes =>
    let m := set_mMeshNodes nodes m in
    (* Num triangles *)
    let '(gzf, numBuffer, readBytes) := gzread gzf numBuffer 4 in
    if readBytes =? 0 then Returned false m
    else
    let numChunks := numChunksOf (int_at numBuffer 0) TRIANGLE_CHUNK in
    match
      (if int_at numBuffer 0 =? 0 then Completed gzf (mMeshTriangles m)
       else
         (* Triangles *)
         match resize (int_at numBuffer 0) Triangle_zero (mMeshTriangles m) with
         | None => Raised LengthError
         | Some tris =>
             chunk_loop TRIANGLE_CHUNK 12 3 store_triangle (Z.to_nat numChunks)
               (int_at numBuffer 0) (int_at numBuffer 0) gzf bufferTriangles tris
         end)
    with
    | Raised e => Thrown e
    | Aborted tris => Returned false (set_mMeshTriangles tris m)
    | Completed gzf tris =>
        Returned (gzclose gzf =? Z_OK) (set_mMeshTriangles tris m)
    end
    end
    end
  end.

(** ** updateMeshFromUni *)

(** The loop over [velocityPointer] of the MD01 branch: each element takes
    the next [3 * sizeof(float)] bytes, read through [fbuffer]; the count
    that [gzread] returns is not looked at. *)
Fixpoint read_mesh_velocities (vs : list pVel) (gzf : gzFile) (fbuffer : list byte)
  : gzFile * list pVel :=
  match vs with
  | [] => (gzf, [])
  | _ :: vs' =>
      let '(gzf, fbuffer, _) := gzread gzf fbuffer (4 * 3) in
      let v := mk_pVel (float_at fbuffer 0, float_at fbuffer 1, float_at fbuffer 2) in
      let '(gzf, rest) := read_mesh_velocities vs' gzf fbuffer in
      (gzf, v :: rest)
  end.

Definition updateMeshFromUni (m : MANTA) (opened : option gzFile)
    (u : indeterminate) : outcome MANTA :=
  match opened with
  | None => Returned false m
  | Some gzf =>
    let '(gzf, file_magic, readBytes) := gzread gzf file_magic_init 4 in
    if readBytes =? 0 then Returned false m
    else
      (* read mesh header *)
      let '(gzf, ibuffer, _) := gzread gzf (i_ibuffer u) (4 * 4) in
      let '(gzf, elementType, _) := gzread gzf (i_elementType u) 4 in
      let '(gzf, bytesPerElement, _) := gzread gzf (i_bytesPerElement u) 4 in
      let '(gzf, _, _) := gzread gzf [] 256 in   (* info *)
      let '(gzf, _, _) := gzread gzf [] 8 in     (* timestamp *)
      (* Sanity checks *)
      let meshSize := 4 * 3 + 4 in
      if negb (int_at bytesPerElement 0 =? meshSize)
         && (int_at elementType 0 =? 0)
      then Returned false m
      else if int_at ibuffer 0 =? 0 then Returned false m
      else if streq file_magic "MB01" then Returned (gzclose gzf =? Z_OK) m
      else if streq file_magic "MD01" then
        let numParticles := int_at ibuffer 0 in
        match mMeshVelocities m with
        | None => Thrown NullPointer
        | Some vel0 =>
            match resize numParticles pVel_zero vel0 with
            | None => Thrown LengthError
            | Some vel =>
                let '(gzf, vel) := read_mesh_velocities vel gzf (i_fbuffer u) in
                Returned (gzclose gzf =? Z_OK) (set_mMeshVelocities (Some vel) m)
            end
        end
      else Returned (gzclose gzf =? Z_OK) m
  end.

(** ** updateGridFromRaw *)

(** [ndebug] tells whether the build defines NDEBUG, which removes the
    [assert]. *)
Definition updateGridFromRaw (ndebug : bool) (m : MANTA) (opened : option gzFile)
    (grid : list byte) (isNoise : bool) : outcome (list byte) :=
  match opened with
  | None => Returned false grid
  | Some gzf =>
    let resX := if isNoise then mResXNoise m else mResX m in
    let resY := if isNoise then mResYNoise m else mResY m in
    let resZ := if isNoise then mResZNoise m else mResZ m in
    let expectedBytes := to_int32 (4 * resX * resY * resZ) in
    let '(gzf, grid, readBytes) := gzread gzf grid expectedBytes in
    if readBytes =? 0 then Returned false grid
    else if negb ndebug && negb (expectedBytes =? readBytes)
    then Thrown AssertionFailure
    else Returned (gzclose gzf =? Z_OK) grid
  end.

(** ** Script variables: getRealValue and parseLine *)

(** [std::string::substr(pos, len)] with [int] arguments converted to
    [size_t]: throws when [pos] is past the end, and stops at the end. *)
Definition substr (s : string) (pos len : Z) : thrown + string :=
  let pos := pos mod 2 ^ 64 in
  let len := len mod 2 ^ 64 in
  let size := Z.of_nat (String.length s) in
  if size <? pos then inl OutOfRange
  else inr (String.substring (Z.to_nat pos) (Z.to_nat (Z.min len (size - pos))) s).

(** [line[i]] *)
Definition char_at (line : string) (i : Z) : ascii :=
  default Ascii.zero (String.get (Z.to_nat i) line).

Definition delimiter : ascii := "$"%char.

(** The names the [else if] chain of [getRealValue] compares [varName]
    with, after "ID", in the order of the source. *)
Definition known_names : list string :=
  ["USING_SMOKE"; "USING_LIQUID"; "USING_COLORS"; "USING_HEAT"; "USING_FIRE";
   "USING_NOISE"; "USING_OBSTACLE"; "USING_GUIDING"; "USING_INVEL";
   "USING_OUTFLOW"; "USING_LOG_DISSOLVE"; "USING_DISSOLVE"; "SOLVER_DIM";
   "DO_OPEN"; "BOUND_CONDITIONS"; "BOUNDARY_WIDTH"; "RES"; "RESX"; "RESY";
   "RESZ"; "FRAME_LENGTH"; "CFL"; "DT"; "TIMESTEPS_MIN"; "TIMESTEPS_MAX";
   "TIME_TOTAL"; "TIME_PER_FRAME"; "VORTICITY"; "FLAME_VORTICITY";
   "NOISE_SCALE"; "MESH_SCALE"; "PARTICLE_SCALE"; "NOISE_RESX"; "NOISE_RESY";
   "NOISE_RESZ"; "MESH_RESX"; "MESH_RESY"; "MESH_RESZ"; "PARTICLE_RESX";
   "PARTICLE_RESY"; "PARTICLE_RESZ"; "GUIDING_RESX"; "GUIDING_RESY";
   "GUIDING_RESZ"; "MIN_RESX"; "MIN_RESY"; "MIN_RESZ"; "BASE_RESX";
   "BASE_RESY"; "BASE_RESZ"; "WLT_STR"; "NOISE_POSSCALE"; "NOISE_TIMEANIM";
   "COLOR_R"; "COLOR_G"; "COLOR_B"; "BUOYANCY_ALPHA"; "BUOYANCY_BETA";
   "DISSOLVE_SPEED"; "BURNING_RATE"; "FLAME_SMOKE"; "IGNITION_TEMP";
   "MAX_TEMP"; "FLAME_SMOKE_COLOR_X"; "FLAME_SMOKE_COLOR_Y";
   "FLAME_SMOKE_COLOR_Z"; "CURRENT_FRAME"; "START_FRAME"; "END_FRAME";
   "CACHE_DATA_FORMAT"; "CACHE_MESH_FORMAT"; "CACHE_NOISE_FORMAT";
   "CACHE_PARTICLE_FORMAT"; "SIMULATION_METHOD"; "FLIP_RATIO";
   "PARTICLE_RANDOMNESS"; "PARTICLE_NUMBER"; "PARTICLE_MINIMUM";
   "PARTICLE_MAXIMUM"; "PARTICLE_RADIUS"; "FRACTIONS_THRESHOLD";
   "MESH_CONCAVE_UPPER"; "MESH_CONCAVE_LOWER"; "MESH_PARTICLE_RADIUS";
   "MESH_SMOOTHEN_POS"; "MESH_SMOOTHEN_NEG"; "USING_MESH";
   "USING_IMPROVED_MESH"; "PARTICLE_BAND_WIDTH"; "SNDPARTICLE_TAU_MIN_WC";
   "SNDPARTICLE_TAU_MAX_WC"; "SNDPARTICLE_TAU_MIN_TA";
   "SNDPARTICLE_TAU_MAX_TA"; "SNDPARTICLE_TAU_MIN_K";
   "SNDPARTICLE_TAU_MAX_K"; "SNDPARTICLE_K_WC"; "SNDPARTICLE_K_TA";
   "SNDPARTICLE_K_B"; "SNDPARTICLE_K_D"; "SNDPARTICLE_L_MIN";
   "SNDPARTICLE_L_MAX"; "SNDPARTICLE_BOUNDARY_DELETE";
   "SNDPARTICLE_BOUNDARY_PUSHOUT"; "SNDPARTICLE_POTENTIAL_RADIUS";
   "SNDPARTICLE_UPDATE_RADIUS"; "LIQUID_SURFACE_TENSION"; "FLUID_VISCOSITY";
   "FLUID_DOMAIN_SIZE"; "SNDPARTICLE_TYPES"; "USING_SNDPARTS";
   "GUIDING_ALPHA"; "GUIDING_BETA"; "GUIDING_FACTOR"; "GRAVITY_X";
   "GRAVITY_Y"; "GRAVITY_Z"; "CACHE_DIR"; "CACHE_RESUMABLE";
   "USING_ADAPTIVETIME"; "USING_SPEEDVECTORS"; "USING_FRACTIONS";
   "DELETE_IN_OBSTACLE"; "USING_DIFFUSION"]
.

Section ScriptVariables.

(** [FluidModifierData] is declared in DNA_modifier_types.h, which is not
    among the sources: it is a parameter.  So is what the branch of a
    recognised name streams into [ss], which depends on fields of the
    domain settings and on the formatting of floats by [std::ostream]. *)
Variable FluidModifierData : Type.
Variable known_value : MANTA -> FluidModifierData -> string -> string.

(** Returns the string and the lines written to [std::cerr]. *)
Definition getRealValue (m : MANTA) (varName : string)
    (mmd : option FluidModifierData) : string * list string :=
  if bool_decide (varName = "ID") then (pretty (mCurrentID m), [])
  else
    match mmd with
    | None =>
        ("ERROR - INVALID MODIFIER DATA", ["Fluid Error -- Invalid modifier data."])
    | Some d =>
        if bool_decide (varName ∈ known_names) then (known_value m d varName, [])
        else ("", ["Fluid Error -- Unknown option: " +:+ varName])
    end.

(** The [while] loop of [parseLine]; [n] is [line.size() - currPos]. *)
Fixpoint parse_loop (m : MANTA) (line : string) (mmd : option FluidModifierData)
    (n : nat) (currPos start_del end_del : Z) (readingVar : bool)
    (res : string) (log : list string) : thrown + (Z * string * list string) :=
  match n with
  | O => inr (end_del, res, log)
  | S n' =>
      if Ascii.eqb (char_at line currPos) delimiter && negb readingVar then
        match substr line (end_del + 1) (currPos - end_del - 1) with
        | inl e => inl e
        | inr piece =>
            parse_loop m line mmd n' (currPos + 1) (currPos + 1) end_del true
              (res +:+ piece) log
        end
      else if Ascii.eqb (char_at line currPos) delimiter && readingVar then
        match substr line start_del (currPos - start_del) with
        | inl e => inl e
        | inr name =>
            let '(value, err) := getRealValue m name mmd in
            parse_loop m line mmd n' (currPos + 1) start_del currPos false
              (res +:+ value) (log ++ err)
        end
      else
        parse_loop m line mmd n' (currPos + 1) start_del end_del readingVar res log
  end.

Definition parseLine (m : MANTA) (line : string) (mmd : option FluidModifierData)
  : thrown + (string * list string) :=
  if (String.length line =? 0)%nat then inr ("", [])
  else
    match parse_loop m line mmd (String.length line) 0 0 (-1) false "" [] with
    | inl e => inl e
    | inr (end_del, res, log) =>
        match substr line (end_del + 1) (Z.of_nat (String.length line) - end_del) with
        | inl e => inl e
        | inr tail => inr (res +:+ tail, log)
        end
    end.

End ScriptVariables.

(** ** Configuration snapshot *)

(** Modelled from the spec: [FluidDomainSettings] is declared in
    DNA_fluid_types.h, which is not among the sources.  These are the domain
    parameters of the configuration snapshot (active-field bitmask,
    resolution, cell size, timestep, bounding box corners, shift, transform
    matrix, base/min/max resolution, active color), under the names
    [writeConfiguration] and [readConfiguration] use, with the element types
    and counts that their [gzwrite]/[gzread] calls give. *)
Record FluidDomainSettings := mk_FluidDomainSettings {
  active_fields : Z;        (* int *)
  res : list Z;             (* int[3] *)
  dx : Z;                   (* float *)
  dt : Z;                   (* float *)
  p0 : list Z;              (* float[3] *)
  p1 : list Z;              (* float[3] *)
  dp0 : list Z;             (* float[3] *)
  shift : list Z;           (* int[3] *)
  obj_shift_f : list Z;     (* float[3] *)
  obmat : list Z;           (* float[4][4] *)
  base_res : list Z;        (* int[3] *)
  res_min : list Z;         (* int[3] *)
  res_max : list Z;         (* int[3] *)
  active_color : list Z;    (* float[3] *)
  total_cells : Z           (* int *)
}.

(** The memory of an array of [int] or [float]. *)
Definition mem_words (vs : list Z) : list byte := vs ≫= le_encode 4.

(** [gzwrite(gzf, &field, n * sizeof(word))]: appends to the file. *)
Definition gzwrite (out : list byte) (field : list Z) (n : Z) : list byte :=
  out ++ take (Z.to_nat (n * 4)) (mem_words field).

(** [gzread(gzf, &field, n * sizeof(int))] into an [int] array. *)
Definition gzread_ints (f : gzFile) (field : list Z) (n : Z) : gzFile * list Z :=
  let '(f, buf, _) := gzread f (mem_words field) (n * 4) in
  (f, int_at buf <$> seqZ 0 (Z.of_nat (length field))).

(** [gzread(gzf, &field, n * sizeof(float))] into a [float] array. *)
Definition gzread_floats (f : gzFile) (field : list Z) (n : Z) : gzFile * list Z :=
  let '(f, buf, _) := gzread f (mem_words field) (n * 4) in
  (f, float_at buf <$> seqZ 0 (Z.of_nat (length field))).

(** [opened] is what [BLI_gzopen(file, "wb1")] returned: the status that
    [gzclose] will report, if the file could be opened.  Returns the
    boolean and the bytes written. *)
Definition writeConfiguration (mds : FluidDomainSettings) (opened : option Z)
  : bool * list byte :=
  match opened with
  | None => (false, [])
  | Some status =>
      let out := [] in
      let out := gzwrite out [active_fields mds] 1 in
      let out := gzwrite out (res mds) 3 in
      let out := gzwrite out [dx mds] 1 in
      let out := gzwrite out [dt mds] 1 in
      let out := gzwrite out (p0 mds) 3 in
      let out := gzwrite out (p1 mds) 3 in
      let out := gzwrite out (dp0 mds) 3 in
      let out := gzwrite out (shift mds) 3 in
      let out := gzwrite out (obj_shift_f mds) 3 in
      let out := gzwrite out (obmat mds) 16 in
      let out := gzwrite out (base_res mds) 3 in
      let out := gzwrite out (res_min mds) 3 in
      let out := gzwrite out (res_max mds) 3 in
      let out := gzwrite out (active_color mds) 3 in
      (status =? Z_OK, out)
  end.

(** [hasConfig] is the result of [hasConfig(mmd, framenr)], [dummy] the
    indeterminate content of the local [float dummy]. *)
Definition readConfiguration (mds : FluidDomainSettings) (hasConfig : bool)
    (opened : option gzFile) (dummy : Z) : bool * FluidDomainSettings :=
  if negb hasConfig then (false, mds)
  else
    match opened with
    | None => (false, mds)
    | Some gzf =>
        let '(gzf, v_active_fields) := gzread_ints gzf [active_fields mds] 1 in
        let '(gzf, v_res) := gzread_ints gzf (res mds) 3 in
        let '(gzf, v_dx) := gzread_floats gzf [dx mds] 1 in
        let '(gzf, _) := gzread_floats gzf [dummy] 1 in (* dt not needed right now *)
        let '(gzf, v_p0) := gzread_floats gzf (p0 mds) 3 in
        let '(gzf, v_p1) := gzread_floats gzf (p1 mds) 3 in
        let '(gzf, v_dp0) := gzread_floats gzf (dp0 mds) 3 in
        let '(gzf, v_shift) := gzread_ints gzf (shift mds) 3 in
        let '(gzf, v_obj_shift_f) := gzread_floats gzf (obj_shift_f mds) 3 in
        let '(gzf, v_obmat) := gzread_floats gzf (obmat mds) 16 in
        let '(gzf, v_base_res) := gzread_ints gzf (base_res mds) 3 in
        let '(gzf, v_res_min) := gzread_ints gzf (res_min mds) 3 in
        let '(gzf, v_res_max) := gzread_ints gzf (res_max mds) 3 in
        let '(gzf, v_active_color) := gzread_floats gzf (active_color mds) 3 in
        let v_total_cells :=
          to_int32 (v_res !!! 0%nat * v_res !!! 1%nat * v_res !!! 2%nat) in
        (gzclose gzf =? Z_OK,
         mk_FluidDomainSettings (v_active_fields !!! 0%nat) v_res (v_dx !!! 0%nat)
           (dt mds) v_p0 v_p1 v_dp0 v_shift v_obj_shift_f v_obmat
           v_base_res v_res_min v_res_max v_active_color v_total_cells)
    end.

(** A domain whose arrays have the declared sizes and whose values fit
    their C types. *)
Definition ints_ok (n : nat) (vs : list Z) : bool :=
  (length vs =? n)%nat && forallb is_int32 vs.

Definition floats_ok (n : nat) (vs : list Z) : bool :=
  (length vs =? n)%nat && forallb is_float32 vs.

Definition domain_ok (mds : FluidDomainSettings) : bool :=
  is_int32 (active_fields mds) && ints_ok 3 (res mds)
  && is_float32 (dx mds) && is_float32 (dt mds)
  && floats_ok 3 (p0 mds) && floats_ok 3 (p1 mds) && floats_ok 3 (dp0 mds)
  && ints_ok 3 (shift mds) && floats_ok 3 (obj_shift_f mds)
  && floats_ok 16 (obmat mds)
  && ints_ok 3 (base_res mds) && ints_ok 3 (res_min mds) && ints_ok 3 (res_max mds)
  && floats_ok 3 (active_color mds) && is_int32 (total_cells mds).

(** ** What the snapshot files hold, read off their bytes *)

Definition deprecated_grid_magic (f : gzFile) : bool :=
  streq (file_magic_of f) "DDF2" || streq (file_magic_of f) "MNT1"
  || streq (file_magic_of f) "MNT2".

(** A magic could be read: the file is not empty. *)
Definition magic_readable (f : gzFile) : bool :=
  negb (Z.of_nat (length (take 4 (gz_rest f))) =? 0).

(** The header of a particle or mesh data file follows the magic: four
    integers (the count first), [elementType], [bytesPerElement], 256
    bytes of build information and an 8-byte time stamp; the payload
    starts at byte 292. *)
Definition header_count (f : gzFile) (u : indeterminate) : Z :=
  int_at (header_ibuffer f (i_ibuffer u)) 0.

Definition header_elementType (f : gzFile) (u : indeterminate) : Z :=
  int_at (overwrite (take 4 (drop 20 (gz_rest f))) (i_elementType u)) 0.

Definition header_bytesPerElement (f : gzFile) (u : indeterminate) : Z :=
  int_at (overwrite (take 4 (drop 24 (gz_rest f))) (i_bytesPerElement u)) 0.

(** The header passes the sanity check of the readers. *)
Definition header_sane (f : gzFile) (u : indeterminate) : bool :=
  negb (negb (header_bytesPerElement f u =? 16) && (header_elementType f u =? 0)).

Definition uni_payload (f : gzFile) : gzFile :=
  mk_gzFile (drop 292 (gz_rest f)) (gz_status f).

(** Record [j] of a payload of records of [recSize] bytes. *)
Definition record_bytes (recSize : Z) (payload : list byte) (j : nat) : list byte :=
  take (Z.to_nat recSize) (drop (j * Z.to_nat recSize) payload).

Definition decode_pData (bs : list byte) : pData :=
  mk_pData (float_at bs 0, float_at bs 1, float_at bs 2) (int_at bs 3).

Definition decode_float3 (bs : list byte) : float3 :=
  (float_at bs 0, float_at bs 1, float_at bs 2).

Definition decode_int3 (bs : list byte) : Z * Z * Z :=
  (int_at bs 0, int_at bs 1, int_at bs 2).

(** The part of [updateParticlesFromUni] after the zero-count test. *)
Definition read_particles (m : MANTA) (file_magic : list byte) (numParticles : Z)
    (gzf : gzFile) (isSecondarySys isVelData : bool) (u : indeterminate)
  : outcome MANTA :=
  let numChunks := numChunksOf numParticles PARTICLE_CHUNK in
  if streq file_magic "PB02" then
    match resize numParticles pData_zero (dataPointer m isSecondarySys) with
    | None => Thrown LengthError
    | Some data =>
        finish_loop (set_dataPointer isSecondarySys) m
          (chunk_loop PARTICLE_CHUNK 16 1 store_pData
             (Z.to_nat numChunks) numParticles numParticles gzf (i_chunk u) data)
    end
  else if streq file_magic "PD01" && isVelData then
    match resize numParticles pVel_zero (velocityPointer m isSecondarySys) with
    | None => Thrown LengthError
    | Some vel =>
        finish_loop (set_velocityPointer isSecondarySys) m
          (chunk_loop PARTICLE_CHUNK 12 1 store_pVel
             (Z.to_nat numChunks) numParticles numParticles gzf (i_chunk u) vel)
    end
  else if streq file_magic "PD01" then
    match lifePointer m isSecondarySys with
    | None => Thrown NullPointer
    | Some life0 =>
        match resize numParticles 0 life0 with
        | None => Thrown LengthError
        | Some life =>
            finish_loop set_mSndParticleLife m
              (chunk_loop PARTICLE_CHUNK 4 1 store_life
                 (Z.to_nat numChunks) numParticles numParticles gzf (i_chunk u) life)
        end
    end
  else Returned (gzclose gzf =? Z_OK) m.

(** ** Concrete inputs used by the examples below *)

Definition bytes_of (s : string) : list byte := String.list_byte_of_string s.

Definition ex_MANTA : MANTA :=
  mk_MANTA 1 1 1 2 2 2 2 [] [] None [] [] [] [] [].

Definition ex_indeterminate : indeterminate :=
  mk_indeterminate (replicate 16 Byte.xff) (replicate 16 Byte.xff)
    (replicate 4 Byte.xff) (replicate 4 Byte.xff) (replicate 64 Byte.xee).

Definition ex_grid : list byte := replicate 8 Byte.x01.

(** A grid snapshot: magic, [dimX, dimY, dimZ, gridType], [elementType],
    [bytesPerElement], 252 bytes of information, [dimT], time stamp,
    payload. *)
Definition grid_file (magic : string) (dims : list Z) (payload : list Z) : gzFile :=
  mk_gzFile
    (bytes_of magic ++ mem_words dims ++ mem_words [1; 4]
     ++ replicate 252 Byte.x00 ++ mem_words [0; 7; 7] ++ mem_words payload)
    Z_OK.

(** A particle or mesh data snapshot: magic, [count, dimX, dimY, dimZ],
    [elementType], [bytesPerElement], 256 bytes of information, time
    stamp, payload. *)
Definition uni_file (magic : string) (count elementType bytesPerElement : Z)
    (payload : list byte) : gzFile :=
  mk_gzFile
    (bytes_of magic ++ mem_words [count; 1; 1; 1]
     ++ mem_words [elementType; bytesPerElement]
     ++ replicate 256 Byte.x00 ++ mem_words [7; 7] ++ payload)
    Z_OK.

(** [line] holds the delimiter somewhere. *)
Fixpoint has_delimiter (line : string) : bool :=
  match line with
  | EmptyString => false
  | String ch rest => Ascii.eqb ch delimiter || has_delimiter rest
  end.

(** The diagnostic of [getRealValue] for a name it does not know. *)
Definition unknown_option (varName : string) : string :=
  "Fluid Error -- Unknown option: " +:+ varName.

(** How the result of [parse_loop] on the rest of a line sits in the
    result for the whole line: positions move by [off], text and
    diagnostics come after those of the part before. *)
Definition shift_result (off : Z) (resA : string) (logA : list string)
    (r : thrown + (Z * string * list string)) : thrown + (Z * string * list string) :=
  match r with
  | inl e => inl e
  | inr (ed, res, log) => inr (ed + off, resA +:+ res, logA ++ log)
  end.

(** The bytes of a configuration snapshot: the fields in the order of the
    [gzwrite] calls, each array in full. *)
Definition config_bytes (mds : FluidDomainSettings) : list byte :=
  mem_words [active_fields mds] ++ mem_words (res mds) ++ mem_words [dx mds]
  ++ mem_words [dt mds] ++ mem_words (p0 mds) ++ mem_words (p1 mds)
  ++ mem_words (dp0 mds) ++ mem_words (shift mds) ++ mem_words (obj_shift_f mds)
  ++ mem_words (obmat mds) ++ mem_words (base_res mds) ++ mem_words (res_min mds)
  ++ mem_words (res_max mds) ++ mem_words (active_color mds).

(** The domain settings [mds0] after a snapshot of [mds] was read into
    them: every written field but [dt] is taken from [mds], [dt] is kept,
    and [total_cells] is computed from the resolution read. *)
Definition restored (mds0 mds : FluidDomainSettings) : FluidDomainSettings :=
  mk_FluidDomainSettings (active_fields mds) (res mds) (dx mds) (dt mds0)
    (p0 mds) (p1 mds) (dp0 mds) (shift mds) (obj_shift_f mds) (obmat mds)
    (base_res mds) (res_min mds) (res_max mds) (active_color mds)
    (to_int32 (res mds !!! 0%nat * res mds !!! 1%nat * res mds !!! 2%nat)).

Definition ex_domain : FluidDomainSettings :=
  mk_FluidDomainSettings 5 [32; 24; 16] 1031798784 1036831949
    [0; 0; 0] [1065353216; 1061158912; 1056964608] [1; 2; 3]
    [-1; 0; 1] [0; 0; 0]
    [1065353216; 0; 0; 0; 0; 1065353216; 0; 0; 0; 0; 1065353216; 0; 0; 0; 0; 1065353216]
    [32; 24; 16] [0; 0; 0] [32; 24; 16] [1065353216; 0; 0] 12288.

Definition ex_domain0 : FluidDomainSettings :=
  mk_FluidDomainSettings 0 [0; 0; 0] 0 1065353216 [0; 0; 0] [0; 0; 0] [0; 0; 0]
    [0; 0; 0] [0; 0; 0] (replicate 16 0) [0; 0; 0] [0; 0; 0] [0; 0; 0]
    [0; 0; 0] 0.

(** What the assignment of each loop makes of an element, given the bytes
    of the record it is assigned from. *)
Definition put_vertex (bs : list byte) (x : Node) : Node :=
  mk_Node (decode_float3 bs) (normal x).

Definition put_normal (bs : list byte) (x : Node) : Node :=
  mk_Node (pos x) (decode_float3 bs).

Definition put_triangle (bs : list byte) (x : Triangle) : Triangle :=
  mk_Triangle (decode_int3 bs).

Definition put_pData (bs : list byte) (x : pData) : pData := decode_pData bs.

Definition put_pVel (bs : list byte) (x : pVel) : pVel :=
  mk_pVel (decode_float3 bs).

Definition put_life (bs : list byte) (x : Z) : Z := float_at bs 0.

(** A particle count just above [2^24], one more than 839 chunks hold. *)
Definition lost_count : Z := 16780001.

(** A PB02 snapshot of [lost_count] particles; every byte of the payload
    is 1, so every record is [(0x01010101, 0x01010101, 0x01010101)] with
    flag [0x01010101]. *)
Definition lost_particles_file : gzFile :=
  uni_file "PB02" lost_count 0 16 (replicate (Z.to_nat (16 * lost_count)) Byte.x01).

(** [expectedBytes] of [updateGridFromRaw]. *)
Definition expectedBytes (m : MANTA) (isNoise : bool) : Z :=
  to_int32 (4 * (if isNoise then mResXNoise m else mResX m)
              * (if isNoise then mResYNoise m else mResY m)
              * (if isNoise then mResZNoise m else mResZ m)).

(** A mesh file of the [bobj.gz] layout: vertex count and vertices, normal
    count and normals, triangle count and triangles. *)
Definition bobj_file (vertices normals triangles : list (list Z)) : gzFile :=
  mk_gzFile
    (mem_words [Z.of_nat (length vertices)] ++ mem_words (concat vertices)
     ++ mem_words [Z.of_nat (length normals)] ++ mem_words (concat normals)
     ++ mem_words [Z.of_nat (length triangles)] ++ mem_words (concat triangles))
    Z_OK.

(** The vertex count of a [bobj.gz] mesh file, as [numBuffer] holds it
    after the first read. *)
Definition bobj_vertex_count (f : gzFile) : Z :=
  int_at (overwrite (take 4 (gz_rest f)) (encode_int 0)) 0.

(** A PB02 snapshot that announces two particles and holds one record and
    one more byte. *)
Definition truncated_particles_file : gzFile :=
  uni_file "PB02" 2 0 16 (mem_words [1; 2; 3; 4] ++ [Byte.x05]).

(** A raw grid file of four bytes. *)
Definition short_raw_file : gzFile := mk_gzFile (mem_words [1]) Z_OK.

(** ** escapeSlashes *)

Definition backslash : ascii := "092"%char.

(** The loop of [escapeSlashes]: [s] is what the iterator has still to
    visit, [result] the string built so far. *)
Fixpoint escapeSlashes_loop (s : string) (result : string) : string :=
  match s with
  | EmptyString => result
  | String c s' =>
      escapeSlashes_loop s'
        (if Ascii.eqb c backslash
         then result +:+ String backslash (String backslash EmptyString)
         else result +:+ String c EmptyString)
  end.

Definition escapeSlashes (s : string) : string := escapeSlashes_loop s "".

(** What the loop appends for the character [c]. *)
Definition escaped (c : ascii) : list ascii :=
  if Ascii.eqb c backslash then [backslash; backslash] else [c].

(** How often [ch] occurs in [s]. *)
Definition count_char (ch : ascii) (s : string) : nat :=
  length (filter (fun c => c = ch) (String.list_ascii_of_string s)).

(** ** parseScript *)

Definition newline : ascii := "010"%char.

(** What [getline] extracts from a stream that is not at its end: the
    characters before the next newline, and the stream after that newline
    (or the empty stream, when there is none). *)
Fixpoint read_line (f : string) : string * string :=
  match f with
  | EmptyString => (EmptyString, EmptyString)
  | String c f' =>
      if Ascii.eqb c newline then (EmptyString, f')
      else let '(line, rest) := read_line f' in (String c line, rest)
  end.

(** [getline(f, line)] as a loop condition: [None] when nothing could be
    extracted because the stream is at its end. *)
Definition getline (f : string) : option (string * string) :=
  match f with
  | EmptyString => None
  | _ => Some (read_line f)
  end.

Section ScriptText.

Variable FluidModifierData : Type.
Variable known_value : MANTA -> FluidModifierData -> string -> string.

(** The [while] loop of [parseScript]; [n] bounds the number of lines still
    to come.  [res] is the output stream, [log] what went to [std::cerr]. *)
Fixpoint parseScript_loop (m : MANTA) (mmd : option FluidModifierData)
    (n : nat) (f : string) (res : string) (log : list string)
  : thrown + (string * list string) :=
  match n with
  | O => inr (res, log)
  | S n' =>
      match getline f with
      | None => inr (res, log)
      | Some (line, f) =>
          match parseLine FluidModifierData known_value m line mmd with
          | inl e => inl e
          | inr (text, err) =>
              parseScript_loop m mmd n' f
                (res +:+ text +:+ String newline EmptyString) (log ++ err)
          end
      end
  end.

(** Every line takes at least one character of the stream, so the loop is
    left through [getline] before [n] runs out. *)
Definition parseScript (m : MANTA) (setup_string : string)
    (mmd : option FluidModifierData) : thrown + (string * list string) :=
  parseScript_loop m mmd (S (String.length setup_string)) setup_string "" [].

End ScriptText.

(** [s] with a newline after its last line, if that has none. *)
Fixpoint terminated (s : string) : string :=
  match s with
  | EmptyString => EmptyString
  | String c EmptyString =>
      if Ascii.eqb c newline then s else String c (String newline EmptyString)
  | String c s' => String c (terminated s')
  end.

(** [s] holds the character [ch] somewhere. *)
Definition has_char (ch : ascii) (s : string) : bool :=
  bool_decide (ch ∈ String.list_ascii_of_string s).
(** ** The files of the cache *)

(** What the functions of the bridge see of the file system: whether
    [BLI_exists] finds a file of a given name, and what [BLI_gzopen] returns
    for it when it is opened for reading ([None] for a null [gzFile]). *)
Record disk := mk_disk {
  BLI_exists : string -> bool;
  BLI_gzopen : string -> option gzFile
}.

(** ** Choosing the reader by the file extension *)

(** [s.rfind(ch)]: the position of the last [ch] in [s]; [None] stands for
    [std::string::npos]. *)
Fixpoint rfind (s : string) (ch : ascii) : option nat :=
  match s with
  | EmptyString => None
  | String c s' =>
      match rfind s' ch with
      | Some i => Some (S i)
      | None => if Ascii.eqb c ch then Some 0%nat else None
      end
  end.

(** [s.substr(pos)] for a [size_t pos]: the rest of [s] from [pos] on;
    throws when [pos] is past the end. *)
Definition substr_from (s : string) (pos : nat) : thrown + string :=
  if (String.length s <? pos)%nat then inl OutOfRange
  else inr (String.substring pos (String.length s - pos) s).

(** The [bool] of [updateGridFromUni] as an outcome. *)
Definition returned {S : Type} (r : bool * S) : outcome S := Returned r.1 r.2.

Definition updateParticlesFromFile (d : disk) (m : MANTA) (filename : string)
    (isSecondarySys isVelData : bool) (u : indeterminate) : outcome MANTA :=
  match rfind filename "." with
  | Some idx =>
      match substr_from filename (idx + 1) with
      | inl e => Thrown e
      | inr extension =>
          if String.eqb extension "uni" then
            updateParticlesFromUni m (BLI_gzopen d filename) isSecondarySys isVelData u
          else Returned false m
      end
  | None => Returned false m
  end.

Section ReadersNotEmbedded.

(** [updateMeshFromObj] reads a text file through [std::ifstream], with the
    number parsing of the C++ library; [updateGridFromVDB] goes through the
    OpenVDB library and is compiled only when [OPENVDB] is 1.  They are
    parameters of the functions that choose among the readers. *)
Variable updateMeshFromObj : MANTA -> string -> outcome MANTA.
Variable OPENVDB : Z.
Variable updateGridFromVDB : MANTA -> string -> list byte -> bool -> outcome (list byte).

(** [bufferVerts], [bufferNormals] and [bufferTriangles] are handed to
    [updateMeshFromBobj], [u] to [updateMeshFromUni]. *)
Definition updateMeshFromFile (d : disk) (m : MANTA) (filename : string)
    (bufferVerts bufferNormals bufferTriangles : list byte) (u : indeterminate)
  : outcome MANTA :=
  match rfind filename "." with
  | Some idx =>
      match substr_from filename (idx + 1) with
      | inl e => Thrown e
      | inr extension =>
          if String.eqb extension "gz" then
            updateMeshFromBobj m (BLI_gzopen d filename)
              bufferVerts bufferNormals bufferTriangles
          else if String.eqb extension "obj" then updateMeshFromObj m filename
          else if String.eqb extension "uni" then
            updateMeshFromUni m (BLI_gzopen d filename) u
          else Returned false m
      end
  | None => Returned false m
  end.

(** [grid] is the memory behind the [float *grid] argument, [None] for a
    null pointer; the result holds it as the call leaves it. *)
Definition updateGridFromFile (ndebug : bool) (d : disk) (m : MANTA)
    (filename : string) (grid : option (list byte)) (isNoise : bool)
    (ibuffer : list byte) : outcome (option (list byte)) :=
  match grid with
  | None => Returned false None
  | Some g =>
      let some (r : outcome (list byte)) : outcome (option (list byte)) :=
        match r with
        | Returned b g => Returned b (Some g)
        | Thrown e => Thrown e
        end in
      match rfind filename "." with
      | Some idx =>
          match substr_from filename (idx + 1) with
          | inl e => Thrown e
          | inr extension =>
              if String.eqb extension "uni" then
                some (returned (updateGridFromUni m (BLI_gzopen d filename) g isNoise ibuffer))
              else if (OPENVDB =? 1) && String.eqb extension "vdb" then
                some (updateGridFromVDB m filename g isNoise)
              else if String.eqb extension "raw" then
                some (updateGridFromRaw ndebug m (BLI_gzopen d filename) g isNoise)
              else Returned false grid
          end
      | None => Returned false grid
      end
  end.

End ReadersNotEmbedded.

(** ** The frame readers: updateFlipStructures and updateParticleStructures *)

(** The step that these functions repeat for every file of a frame:
<<
    expected += 1;
    if (BLI_exists(file.c_str())) {
      result += read(file);
      assert(result == expected);
    }
>>
    [ndebug] tells whether NDEBUG removes the [assert].  The result is
    [result], [expected] and the solver object after the step. *)
Definition count_read (ndebug : bool) (d : disk) (file : string)
    (read : MANTA -> outcome MANTA) (result expected : Z) (m : MANTA)
  : thrown + (Z * Z * MANTA) :=
  let expected := expected + 1 in
  if BLI_exists d file then
    match read m with
    | Thrown e => inl e
    | Returned b m =>
        let result := result + (if b then 1 else 0) in
        if negb ndebug && negb (result =? expected) then inl AssertionFailure
        else inr (result, expected, m)
    end
  else inr (result, expected, m).

(** Which of the vector members of the solver object are null pointers.
    The [MANTA] record holds the vectors behind the members that are not
    null; the frame readers test the members they use before they touch
    them, and return when one is null. *)
Record null_vectors := mk_null_vectors {
  null_mFlipParticleData : bool;
  null_mFlipParticleVelocity : bool;
  null_mSndParticleData : bool;
  null_mSndParticleVelocity : bool;
  null_mSndParticleLife : bool;
  null_mMeshNodes : bool;
  null_mMeshTriangles : bool
}.

(** [mUsingLiquid] is the member of that name and [path_is_rel] the result
    of [BLI_path_is_rel(mmd->domain->cache_directory)]; [file_pp] and
    [file_pvel] are the names that [getFile] builds for the frame, through
    functions of the Blender library that are not among the sources;
    [u_pp] and [u_pvel] are the indeterminate locals of the two reads;
    [p] tells which vector members are null.  The boolean returned is also
    the value left in [mFlipFromFile]. *)
Definition updateFlipStructures (ndebug : bool) (d : disk) (m : MANTA)
    (p : null_vectors) (mUsingLiquid path_is_rel : bool) (file_pp file_pvel : string)
    (u_pp u_pvel : indeterminate) : outcome MANTA :=
  if negb mUsingLiquid then Returned false m
  else if path_is_rel then Returned false m
  else
    let result := 0 in
    let expected := 0 in
    (* Ensure empty data structures at start. *)
    if null_mFlipParticleData p || null_mFlipParticleVelocity p then Returned false m
    else
    let m := set_mFlipParticleData [] m in
    let m := set_mFlipParticleVelocity [] m in
    match count_read ndebug d file_pp
            (fun m => updateParticlesFromFile d m file_pp false false u_pp)
            result expected m with
    | inl e => Thrown e
    | inr (result, expected, m) =>
        match count_read ndebug d file_pvel
                (fun m => updateParticlesFromFile d m file_pvel false true u_pvel)
                result expected m with
        | inl e => Thrown e
        | inr (result, expected, m) => Returned (result =? expected) m
        end
    end.

(** [using_particles] is
    [mUsingDrops || mUsingBubbles || mUsingFloats || mUsingTracers]; the
    three names are those of the position, velocity and life files of the
    secondary particles.  The boolean returned is also the value left in
    [mParticlesFromFile]. *)
Definition updateParticleStructures (ndebug : bool) (d : disk) (m : MANTA)
    (p : null_vectors) (using_particles path_is_rel : bool)
    (file_pp file_pvel file_plife : string)
    (u_pp u_pvel u_plife : indeterminate) : outcome MANTA :=
  if negb using_particles then Returned false m
  else if path_is_rel then Returned false m
  else
    let result := 0 in
    let expected := 0 in
    (* Ensure empty data structures at start. *)
    if null_mSndParticleData p || null_mSndParticleVelocity p
       || null_mSndParticleLife p
    then Returned false m
    else
    let m := set_mSndParticleData [] m in
    let m := set_mSndParticleVelocity [] m in
    let m := set_mSndParticleLife [] m in
    match count_read ndebug d file_pp
            (fun m => updateParticlesFromFile d m file_pp true false u_pp)
            result expected m with
    | inl e => Thrown e
    | inr (result, expected, m) =>
        match count_read ndebug d file_pvel
                (fun m => updateParticlesFromFile d m file_pvel true true u_pvel)
                result expected m with
        | inl e => Thrown e
        | inr (result, expected, m) =>
            match count_read ndebug d file_plife
                    (fun m => updateParticlesFromFile d m file_plife true false u_plife)
                    result expected m with
            | inl e => Thrown e
            | inr (result, expected, m) => Returned (result =? expected) m
            end
        end
    end.

Section MeshStructures.

Variable updateMeshFromObj : MANTA -> string -> outcome MANTA.

(** [mUsingMesh] and [mUsingMVel] are the members of those names; the
    velocity vector of the mesh is null when [mMeshVelocities] is [None];
    [file_mesh] and [file_meshvel] are the names that [getFile] builds for
    the mesh and the mesh velocities of the frame; [b_mesh], [u_mesh],
    [b_vel] and [u_vel] are the indeterminate buffers and locals of the two
    reads.  The boolean returned is also the value left in
    [mMeshFromFile]. *)
Definition updateMeshStructures (ndebug : bool) (d : disk) (m : MANTA)
    (p : null_vectors) (mUsingMesh path_is_rel mUsingMVel : bool)
    (file_mesh file_meshvel : string)
    (b_mesh : list byte * list byte * list byte) (u_mesh : indeterminate)
    (b_vel : list byte * list byte * list byte) (u_vel : indeterminate)
  : outcome MANTA :=
  if negb mUsingMesh then Returned false m
  else if path_is_rel then Returned false m
  else
    let result := 0 in
    let expected := 0 in
    (* Ensure empty data structures at start. *)
    if null_mMeshNodes p || null_mMeshTriangles p then Returned false m
    else
    let m := set_mMeshNodes [] m in
    let m := set_mMeshTriangles [] m in
    let m :=
      match mMeshVelocities m with
      | Some _ => set_mMeshVelocities (Some []) m
      | None => m
      end in
    match count_read ndebug d file_mesh
            (fun m => updateMeshFromFile updateMeshFromObj d m file_mesh
                        b_mesh.1.1 b_mesh.1.2 b_mesh.2 u_mesh)
            result expected m with
    | inl e => Thrown e
    | inr (result, expected, m) =>
        if mUsingMVel then
          match count_read ndebug d file_meshvel
                  (fun m => updateMeshFromFile updateMeshFromObj d m file_meshvel
                              b_vel.1.1 b_vel.1.2 b_vel.2 u_vel)
                  result expected m with
          | inl e => Thrown e
          | inr (result, expected, m) => Returned (result =? expected) m
          end
        else Returned (result =? expected) m
    end.

End MeshStructures.

(** ** Commands for the Python interpreter *)

(** [s.c_str()] as a C function reads it: up to the first null character. *)
Fixpoint c_str (s : string) : string :=
  match s with
  | EmptyString => EmptyString
  | String c s' =>
      if Ascii.eqb c Ascii.zero then EmptyString else String c (c_str s')
  end.

(** What the [ostringstream] holds after
<<
    ss << name << mCurrentID << "('" << escapeSlashes(directory) << "', " << framenr
       << ", '" << format << "', " << resumable_cache << ")";
>>
    the shape of the commands that save or load the data of a frame. *)
Definition frame_command (m : MANTA) (name directory : string) (framenr : Z)
    (format resumable_cache : string) : string :=
  name +:+ pretty (mCurrentID m) +:+ "('" +:+ escapeSlashes directory +:+ "', "
  +:+ pretty framenr +:+ ", '" +:+ format +:+ "', " +:+ resumable_cache +:+ ")".

Section Python.

(** The embedded interpreter is a parameter: its state, and what
    [PyRun_SimpleString] makes of it and returns for a command (0 on
    success, -1 when an error occurred). *)
Variable PyState : Type.
Variable PyRun_SimpleString : PyState -> string -> PyState * Z.

(** The [for] loop of [runPythonString]. *)
Fixpoint run_commands (commands : list string) (success : Z) (py : PyState)
  : PyState * Z :=
  match commands with
  | [] => (py, success)
  | command :: commands =>
      let '(py, success) := PyRun_SimpleString py (c_str command) in
      run_commands commands success py
  end.

Definition runPythonString (ndebug : bool) (commands : list string) (py : PyState)
  : outcome PyState :=
  let success := -1 in
  let '(py, success) := run_commands commands success py in
  if negb ndebug && negb (success =? 0) then Thrown AssertionFailure
  else Returned (negb (success =? -1)) py.

(** [directory] is what [getDirectory] returns, [format] what
    [getCacheFileEnding] returns for the format of the domain, and
    [final_cache] tells whether the cache type of the domain is
    [FLUID_DOMAIN_CACHE_FINAL]: they come from the domain settings through
    functions and constants that are not among the sources. *)
Definition writeNoise (ndebug : bool) (m : MANTA) (mUsingSmoke mUsingNoise : bool)
    (directory nformat : string) (final_cache : bool) (framenr : Z) (py : PyState)
  : outcome PyState :=
  let resumable_cache := if final_cache then "False" else "True" in
  let pythonCommands :=
    if mUsingSmoke && mUsingNoise then
      [frame_command m "smoke_save_noise_" directory framenr nformat resumable_cache]
    else [] in
  runPythonString ndebug pythonCommands py.


End Python.

(** ** More concrete inputs *)

(** A Windows path, with its two backslashes. *)
Definition ex_path : string :=
  "C:" +:+ String backslash "cache" +:+ String backslash "data".

(** A PB02 snapshot of two particles. *)
Definition ex_positions : gzFile :=
  uni_file "PB02" 2 0 16 (mem_words [1; 2; 3; 4; 5; 6; 7; 8]).

(** A PD01 snapshot of two records of three floats. *)
Definition ex_velocities : gzFile :=
  uni_file "PD01" 2 1 12 (mem_words [1; 2; 3; 4; 5; 6]).

(** A PD01 snapshot of three floats. *)
Definition ex_life : gzFile := uni_file "PD01" 3 1 4 (mem_words [7; 8; 9]).

(** An MD01 snapshot of two mesh velocities. *)
Definition ex_mesh_velocities : gzFile :=
  uni_file "MD01" 2 1 12 (mem_words [1; 2; 3; 4; 5; 6]).

(** A solver object whose mesh has a velocity vector. *)
Definition ex_MANTA_speed : MANTA := set_mMeshVelocities (Some []) ex_MANTA.

(** A cache that holds the position and the velocity file of a frame. *)
Definition ex_disk : disk :=
  mk_disk
    (fun name => String.eqb name "pp_0001.uni" || String.eqb name "pVel_0001.uni")
    (fun name =>
       if String.eqb name "pp_0001.uni" then Some ex_positions
       else if String.eqb name "pVel_0001.uni" then Some ex_velocities
       else None).

(** A solver object all of whose vectors are allocated. *)
Definition ex_allocated : null_vectors :=
  mk_null_vectors false false false false false false false.

(** A cache that holds the velocity file only, for no particle. *)
Definition ex_disk_velocities : disk :=
  mk_disk (fun name => String.eqb name "pVel_0001.uni")
    (fun name =>
       if String.eqb name "pVel_0001.uni" then Some (uni_file "PD01" 0 1 12 [])
       else None).

(** An MNT3 snapshot of the resolution of [ex_MANTA], 1 x 1 x 2. *)
Definition ex_grid_file : gzFile := grid_file "MNT3" [1; 1; 2; 0] [5; 6].

(** A raw grid file of twelve bytes. *)
Definition ex_raw_file : gzFile := mk_gzFile (mem_words [5; 6; 7]) Z_OK.

(** The bytes of one vertex, of one normal and of one triangle. *)
Definition ex_vertex : list byte := mem_words [1; 2; 3].
Definition ex_normal : list byte := mem_words [4; 5; 6].
Definition ex_triangle : list byte := mem_words [0; 0; 0].

(** ** Streams that run dry *)

(** The stream behind a chunk loop runs dry at chunk [k]: the loop makes
    more than [k] chunks, more than [k] full chunks of records are
    announced, and the stream holds no more than the bytes of [k] full
    chunks.  The read of chunk [k], if not one before it, then returns
    0. *)
Definition runs_dry (CHUNK recSize numChunks N : Z) (payload : list byte) (k : nat)
  : bool :=
  (Z.of_nat k <? numChunks) && (Z.of_nat k * CHUNK <? N)
  && (Z.of_nat (length payload) <=? Z.of_nat k * CHUNK * recSize).

(** The size of the records that [updateParticlesFromUni] reads in chunks,
    for a magic and the two flags; [None] when it reads none. *)
Definition particle_record_size (file_magic : list byte)
    (isSecondarySys isVelData : bool) : option Z :=
  if streq file_magic "PB02" then Some 16
  else if streq file_magic "PD01" && isVelData then Some 12
  else if streq file_magic "PD01" && isSecondarySys then Some 4
  else None.

(** A PD01 snapshot that announces 20001 velocities, one more than a
    chunk holds, and holds one record: the read of the first chunk is short,
    the read of the second returns 0. *)
Definition ex_velocities_dry : gzFile :=
  uni_file "PD01" 20001 1 12 (mem_words [1; 2; 3]).

(** * Properties *)

(** ** Basic facts about streams *)

Lemma gzread_fits f buf len :
  0 <= len < 2 ^ 31 ->
  gzread f buf len =
    (mk_gzFile (drop (Z.to_nat len) (gz_rest f)) (gz_status f),
     overwrite (take (Z.to_nat len) (gz_rest f)) buf,
     Z.of_nat (length (take (Z.to_nat len) (gz_rest f)))).
Proof.
  intros Hlen. unfold gzread.
  rewrite Z.mod_small by lia.
  destruct (2 ^ 31 <=? len) eqn:E; [apply Z.leb_le in E; lia | reflexivity].
Qed.

Lemma gzread_zero_iff f buf len :
  0 < len < 2 ^ 31 ->
  (gzread f buf len).2 = 0 <-> gz_rest f = [].
Proof.
  intros Hlen. rewrite gzread_fits by lia. simpl.
  rewrite length_take. split.
  - intros H. destruct (gz_rest f); [done | simpl in H; lia].
  - intros ->. simpl. lia.
Qed.

Lemma overwrite_nil buf : overwrite [] buf = buf.
Proof. unfold overwrite. simpl. by rewrite drop_0. Qed.

Lemma overwrite_length got buf :
  length (overwrite got buf) = (length got `max` length buf)%nat.
Proof. unfold overwrite. rewrite length_app, length_drop. lia. Qed.

(** A constant length that fits an [int]. *)
Ltac const_len := vm_compute; split; [discriminate | reflexivity].

(** The reads of the magic and of the header fields ask for constant
    lengths. *)
Ltac header_reads :=
  repeat first
    [ rewrite (gzread_fits _ _ 4) by const_len
    | rewrite (gzread_fits _ _ (4 * 4)) by const_len
    | rewrite (gzread_fits _ _ 252) by const_len
    | rewrite (gzread_fits _ _ 256) by const_len
    | rewrite (gzread_fits _ _ 8) by const_len ].

(** ** updateGridFromUni *)

(** The function in terms of what the file holds: every [gzread] of the
    header asks for a length that fits, so the reads are [take] and [drop]
    on the bytes of the file. *)
Lemma updateGridFromUni_unfold m gzf grid isNoise ibuffer :
  updateGridFromUni m (Some gzf) grid isNoise ibuffer =
    if Z.of_nat (length (take 4 (gz_rest gzf))) =? 0 then (false, grid)
    else if streq (file_magic_of gzf) "DDF2" then (false, grid)
    else if streq (file_magic_of gzf) "MNT1" then (false, grid)
    else if streq (file_magic_of gzf) "MNT2" then (false, grid)
    else
      let ib := header_ibuffer gzf ibuffer in
      if negb (int_at ib 0 =? (expected_res m isNoise).1.1)
         || negb (int_at ib 1 =? (expected_res m isNoise).1.2)
         || negb (int_at ib 2 =? (expected_res m isNoise).2)
      then (false, grid)
      else if streq (file_magic_of gzf) "MNT3" then
        (gz_status gzf =? Z_OK,
         (gzread (mk_gzFile (drop 292 (gz_rest gzf)) (gz_status gzf)) grid
            (4 * int_at ib 0 * int_at ib 1 * int_at ib 2)).1.2)
      else (gz_status gzf =? Z_OK, grid).
Proof.
  unfold updateGridFromUni, file_magic_of, header_ibuffer.
  rewrite (gzread_fits gzf file_magic_init 4) by const_len.
  cbn [gz_rest gz_status].
  change (Z.to_nat 4) with 4%nat.
  destruct (Z.of_nat (length (take 4 (gz_rest gzf))) =? 0); [done |].
  repeat (match goal with |- context [streq ?a ?l] =>
            lazymatch l with "MNT3" => fail | _ => destruct (streq a l); [done |] end
          end).
  rewrite (gzread_fits _ ibuffer (4 * 4)) by const_len.
  cbn [gz_rest gz_status].
  repeat first
    [ rewrite (gzread_fits _ [] 4) by const_len
    | rewrite (gzread_fits _ [] 252) by const_len
    | rewrite (gzread_fits _ [] 8) by const_len ];
    cbn [gz_rest gz_status].
  rewrite !drop_drop.
  change (Z.to_nat (4 * 4)) with 16%nat.
  change (Z.to_nat 4) with 4%nat.
  change (Z.to_nat 252) with 252%nat.
  change (Z.to_nat 8) with 8%nat.
  cbn [Nat.add].
  assert (Hres : expected_res m isNoise =
    (if isNoise then mResXNoise m else mResX m,
     if isNoise then mResYNoise m else mResY m,
     if isNoise then mResZNoise m else mResZ m)) by (by destruct isNoise).
  rewrite Hres. cbn [fst snd].
  match goal with |- context [if ?b then (false, grid) else _] => destruct b end;
    [done |].
  destruct (streq _ "MNT3"); [| done].
  unfold gzclose.
  set (len := 4 * _ * _ * _).
  unfold gzread. cbn [gz_rest gz_status].
  destruct (2 ^ 31 <=? len mod 2 ^ 32); cbn [fst snd gz_rest gz_status];
    reflexivity.
Qed.

(** C2: a grid snapshot whose header resolution differs from the expected
    resolution (the noise resolution when [isNoise]) makes
    [updateGridFromUni] return false, and the grid memory is exactly what it
    was before the call. *)
Theorem updateGridFromUni_resolution_mismatch m gzf grid isNoise ibuffer :
  grid_header_dims gzf ibuffer <> expected_res m isNoise ->
  updateGridFromUni m (Some gzf) grid isNoise ibuffer = (false, grid).
Proof.
  intros Hdims. rewrite updateGridFromUni_unfold. cbv zeta.
  repeat (match goal with |- (if ?b then (false, grid) else _) = _ =>
            destruct b eqn:?; [reflexivity |] end).
  exfalso. apply Hdims. unfold grid_header_dims.
  destruct (expected_res m isNoise) as [[rx ry] rz]. cbn [fst snd] in *.
  repeat match goal with H : _ || _ = false |- _ =>
    apply orb_false_iff in H; destruct H end.
  repeat match goal with H : negb _ = false |- _ =>
    apply negb_false_iff, Z.eqb_eq in H end.
  congruence.
Qed.

Lemma updateGridFromUni_resolution_mismatch_witness :
  grid_header_dims (grid_file "MNT3" [1; 1; 3; 0] [5; 6; 7]) (replicate 16 Byte.xff)
    <> expected_res ex_MANTA false
  /\ updateGridFromUni ex_MANTA (Some (grid_file "MNT3" [1; 1; 3; 0] [5; 6; 7]))
       ex_grid false (replicate 16 Byte.xff) = (false, ex_grid).
Proof.
  split.
  - vm_compute. discriminate.
  - apply updateGridFromUni_resolution_mismatch. vm_compute. discriminate.
Defined.

(** C5, as stated, fails: a magic that is neither MNT3 nor one of the three
    deprecated ones is not rejected.  With a matching header resolution the
    call returns true and leaves the grid as it was. *)
Lemma updateGridFromUni_unknown_magic_accepted :
  ~ has_magic (grid_file "XXXX" [1; 1; 2; 0] [5; 6]) "MNT3"
  /\ updateGridFromUni ex_MANTA (Some (grid_file "XXXX" [1; 1; 2; 0] [5; 6]))
       ex_grid false (replicate 16 Byte.xff) = (true, ex_grid).
Proof. split; [vm_compute; discriminate | vm_compute; reflexivity]. Qed.

(** C5, amended: the payload is read into the grid only when the magic is
    MNT3, and the call returns true exactly when a magic could be read, it
    is none of DDF2, MNT1 and MNT2, the header resolution is the expected
    one and [gzclose] reports [Z_OK]. *)
Theorem updateGridFromUni_magic m gzf grid isNoise ibuffer :
  ((updateGridFromUni m (Some gzf) grid isNoise ibuffer).2 <> grid ->
     has_magic gzf "MNT3")
  /\ ((updateGridFromUni m (Some gzf) grid isNoise ibuffer).1 = true <->
        magic_readable gzf = true
        /\ deprecated_grid_magic gzf = false
        /\ grid_header_dims gzf ibuffer = expected_res m isNoise
        /\ gz_status gzf = Z_OK).
Proof.
  rewrite updateGridFromUni_unfold.
  unfold magic_readable, deprecated_grid_magic, grid_header_dims, has_magic.
  destruct (expected_res m isNoise) as [[rx ry] rz]. cbn [fst snd].
  destruct (Z.of_nat (length (take 4 (gz_rest gzf))) =? 0);
    [cbn; split; [done | split; [done | intros (? & _); done]] |].
  destruct (streq (file_magic_of gzf) "DDF2");
    [cbn; split; [done | split; [done | intros (_ & ? & _); done]] |].
  destruct (streq (file_magic_of gzf) "MNT1");
    [cbn; split; [done | split; [done | intros (_ & ? & _); done]] |].
  destruct (streq (file_magic_of gzf) "MNT2");
    [cbn; split; [done | split; [done | intros (_ & ? & _); done]] |].
  cbn [negb orb].
  destruct (int_at _ 0 =? rx) eqn:E0; cbn [negb orb];
    [apply Z.eqb_eq in E0 | apply Z.eqb_neq in E0;
      cbn; split; [done | split; [done | intros (_ & _ & ? & _); congruence]]].
  destruct (int_at _ 1 =? ry) eqn:E1; cbn [negb orb];
    [apply Z.eqb_eq in E1 | apply Z.eqb_neq in E1;
      cbn; split; [done | split; [done | intros (_ & _ & ? & _); congruence]]].
  destruct (int_at _ 2 =? rz) eqn:E2; cbn [negb orb];
    [apply Z.eqb_eq in E2 | apply Z.eqb_neq in E2;
      cbn; split; [done | split; [done | intros (_ & _ & ? & _); congruence]]].
  destruct (streq (file_magic_of gzf) "MNT3"); cbn [fst snd].
  - split; [done |]. rewrite Z.eqb_eq. split.
    + intros ->. repeat split; congruence.
    + intros (_ & _ & _ & ?); done.
  - split; [done |]. rewrite Z.eqb_eq. split.
    + intros ->. repeat split; congruence.
    + intros (_ & _ & _ & ?); done.
Qed.

(** ** updateParticlesFromUni and updateMeshFromUni: the header *)

Lemma updateParticlesFromUni_unfold m gzf isSecondarySys isVelData u :
  updateParticlesFromUni m (Some gzf) isSecondarySys isVelData u =
    if negb (magic_readable gzf) then Returned false m
    else if streq (file_magic_of gzf) "PB01" then Returned false m
    else if negb (header_sane gzf u) then Returned false m
    else if header_count gzf u =? 0 then Returned true m
    else read_particles m (file_magic_of gzf) (header_count gzf u)
           (uni_payload gzf) isSecondarySys isVelData u.
Proof.
  unfold updateParticlesFromUni, magic_readable, header_sane, header_count,
    header_elementType, header_bytesPerElement, header_ibuffer, file_magic_of,
    uni_payload, read_particles.
  rewrite (gzread_fits gzf file_magic_init 4) by const_len.
  cbn [gz_rest gz_status].
  change (Z.to_nat 4) with 4%nat.
  rewrite negb_involutive.
  destruct (Z.of_nat (length (take 4 (gz_rest gzf))) =? 0); [done |].
  destruct (streq _ "PB01"); [done |].
  header_reads. cbn [gz_rest gz_status].
  rewrite !drop_drop.
  change (Z.to_nat (4 * 4)) with 16%nat.
  change (Z.to_nat 4) with 4%nat.
  change (Z.to_nat 256) with 256%nat.
  change (Z.to_nat 8) with 8%nat.
  change (4 * 3 + 4) with 16.
  cbn [Nat.add].
  rewrite negb_involutive.
  reflexivity.
Qed.

Lemma updateMeshFromUni_unfold m gzf u :
  updateMeshFromUni m (Some gzf) u =
    if negb (magic_readable gzf) then Returned false m
    else if negb (header_sane gzf u) then Returned false m
    else if header_count gzf u =? 0 then Returned false m
    else if streq (file_magic_of gzf) "MB01"
      then Returned (gz_status gzf =? Z_OK) m
    else if streq (file_magic_of gzf) "MD01" then
      match mMeshVelocities m with
      | None => Thrown NullPointer
      | Some vel0 =>
          match resize (header_count gzf u) pVel_zero vel0 with
          | None => Thrown LengthError
          | Some vel =>
              let '(gzf', vel) :=
                read_mesh_velocities vel (uni_payload gzf) (i_fbuffer u) in
              Returned (gzclose gzf' =? Z_OK) (set_mMeshVelocities (Some vel) m)
          end
      end
    else Returned (gz_status gzf =? Z_OK) m.
Proof.
  unfold updateMeshFromUni, magic_readable, header_sane, header_count,
    header_elementType, header_bytesPerElement, header_ibuffer, file_magic_of,
    uni_payload.
  header_reads. cbn [gz_rest gz_status].
  change (Z.to_nat 4) with 4%nat.
  rewrite negb_involutive.
  destruct (Z.of_nat (length (take 4 (gz_rest gzf))) =? 0); [done |].
  header_reads. cbn [gz_rest gz_status].
  rewrite !drop_drop.
  change (Z.to_nat (4 * 4)) with 16%nat.
  change (Z.to_nat 256) with 256%nat.
  change (Z.to_nat 8) with 8%nat.
  change (4 * 3 + 4) with 16.
  cbn [Nat.add].
  rewrite negb_involutive.
  reflexivity.
Qed.




(** C4: a grid snapshot whose magic is DDF2, MNT1 or MNT2 makes
    [updateGridFromUni] return false with the grid memory untouched, and a
    particle snapshot whose magic is PB01 makes [updateParticlesFromUni]
    return false with the solver object untouched: nothing of the payload is
    read as another format. *)
Theorem deprecated_magic_rejected m gzf1 grid isNoise ibuffer
    gzf2 isSecondarySys isVelData u :
  has_magic gzf1 "DDF2" \/ has_magic gzf1 "MNT1" \/ has_magic gzf1 "MNT2" ->
  has_magic gzf2 "PB01" ->
  updateGridFromUni m (Some gzf1) grid isNoise ibuffer = (false, grid)
  /\ updateParticlesFromUni m (Some gzf2) isSecondarySys isVelData u
       = Returned false m.
Proof.
  unfold has_magic. intros Hgrid Hpart. split.
  - rewrite updateGridFromUni_unfold.
    destruct (Z.of_nat (length (take 4 (gz_rest gzf1))) =? 0); [done |].
    destruct Hgrid as [-> | [-> | ->]];
      repeat (match goal with |- (if ?b then (false, grid) else _) = _ =>
                destruct b; [reflexivity |] end); reflexivity.
  - rewrite updateParticlesFromUni_unfold, Hpart.
    destruct (negb (magic_readable gzf2)); reflexivity.
Qed.

Lemma deprecated_magic_rejected_witness :
  (has_magic (grid_file "MNT2" [1; 1; 2; 0] [5; 6]) "DDF2"
   \/ has_magic (grid_file "MNT2" [1; 1; 2; 0] [5; 6]) "MNT1"
   \/ has_magic (grid_file "MNT2" [1; 1; 2; 0] [5; 6]) "MNT2")
  /\ has_magic (uni_file "PB01" 1 0 16 (mem_words [1; 2; 3; 4])) "PB01"
  /\ updateGridFromUni ex_MANTA (Some (grid_file "MNT2" [1; 1; 2; 0] [5; 6]))
       ex_grid false (replicate 16 Byte.xff) = (false, ex_grid)
  /\ updateParticlesFromUni ex_MANTA
       (Some (uni_file "PB01" 1 0 16 (mem_words [1; 2; 3; 4])))
       false false ex_indeterminate = Returned false ex_MANTA.
Proof.
  split; [right; right; vm_compute; reflexivity |].
  split; [vm_compute; reflexivity |].
  apply deprecated_magic_rejected.
  - right; right; vm_compute; reflexivity.
  - vm_compute; reflexivity.
Defined.

(** C10: a mesh data snapshot whose header count is zero makes
    [updateMeshFromUni] return false, for every magic and every state of the
    solver object, which is left as it was. *)
Theorem updateMeshFromUni_zero_count m gzf u :
  header_count gzf u = 0 ->
  updateMeshFromUni m (Some gzf) u = Returned false m.
Proof.
  intros Hcount. rewrite updateMeshFromUni_unfold, Hcount.
  destruct (negb (magic_readable gzf)); [reflexivity |].
  destruct (negb (header_sane gzf u)); reflexivity.
Qed.

Lemma updateMeshFromUni_zero_count_witness :
  header_count (uni_file "MD01" 0 1 12 []) ex_indeterminate = 0
  /\ updateMeshFromUni ex_MANTA (Some (uni_file "MD01" 0 1 12 []))
       ex_indeterminate = Returned false ex_MANTA.
Proof.
  split; [vm_compute; reflexivity |].
  apply updateMeshFromUni_zero_count. vm_compute; reflexivity.
Defined.

(** The contrast C10 draws: the same header makes the particle reader
    succeed. *)
Lemma zero_count_mesh_against_particles :
  updateMeshFromUni ex_MANTA (Some (uni_file "MD01" 0 1 12 [])) ex_indeterminate
    = Returned false ex_MANTA
  /\ updateParticlesFromUni ex_MANTA (Some (uni_file "PD01" 0 1 12 []))
       true true ex_indeterminate = Returned true ex_MANTA.
Proof. split; vm_compute; reflexivity. Qed.

(** ** Strings as lists of characters *)

Abbreviation chars := String.list_ascii_of_string.

Lemma chars_inj s1 s2 : chars s1 = chars s2 -> s1 = s2.
Proof.
  intros H. rewrite <- (String.string_of_list_ascii_of_string s1),
    <- (String.string_of_list_ascii_of_string s2). by rewrite H.
Qed.

Lemma chars_app s1 s2 : chars (s1 +:+ s2) = chars s1 ++ chars s2.
Proof. induction s1 as [| a s1 IH]; [done |]. simpl. congruence. Qed.

Lemma chars_length s : String.length s = length (chars s).
Proof. induction s as [| a s IH]; [done |]. simpl. congruence. Qed.

Lemma chars_get s (i : nat) : String.get i s = chars s !! i.
Proof.
  revert i. induction s as [| a s IH]; intros [| i]; simpl; try done.
Qed.

Lemma chars_substring s (n k : nat) :
  chars (String.substring n k s) = take k (drop n (chars s)).
Proof.
  revert n k. induction s as [| a s IH]; intros [| n] [| k]; simpl; try done.
  rewrite (IH 0%nat k). reflexivity.
Qed.

Lemma has_delimiter_chars s :
  has_delimiter s = false <-> forall i, chars s !! i <> Some delimiter.
Proof.
  induction s as [| a s IH]; cbn.
  - split; [intros _ i; by rewrite lookup_nil | done].
  - rewrite orb_false_iff, IH. split.
    + intros [Ha Hs] [| i]; cbn; [| apply Hs].
      intros [= ->]. by rewrite Ascii.eqb_refl in Ha.
    + intros H. split.
      * destruct (Ascii.eqb_spec a delimiter) as [-> |]; [| done].
        by destruct (H 0%nat).
      * intros i. apply (H (S i)).
Qed.

(** [substr] inside the string. *)
Lemma substr_inside s (pos len : Z) :
  0 <= pos <= Z.of_nat (String.length s) -> 0 <= len ->
  Z.of_nat (String.length s) < 2 ^ 31 -> len < 2 ^ 32 ->
  exists piece, substr s pos len = inr piece
    /\ chars piece = take (Z.to_nat len) (drop (Z.to_nat pos) (chars s)).
Proof.
  intros Hpos Hlen Hsize Hlen'. unfold substr.
  assert (H31 : 2 ^ 31 < 2 ^ 64) by reflexivity.
  assert (H32 : 2 ^ 32 < 2 ^ 64) by reflexivity.
  rewrite (Z.mod_small pos), (Z.mod_small len) by lia.
  destruct (Z.of_nat (String.length s) <? pos) eqn:E;
    [apply Z.ltb_lt in E; lia |].
  eexists. split; [reflexivity |].
  rewrite chars_substring, Z2Nat.inj_min, <- take_take. f_equal.
  apply take_ge. rewrite length_drop, <- chars_length. lia.
Qed.

Lemma append_nil_r s : s +:+ "" = s.
Proof. apply chars_inj. by rewrite chars_app, app_nil_r. Qed.

Lemma append_assoc s1 s2 s3 : (s1 +:+ s2) +:+ s3 = s1 +:+ s2 +:+ s3.
Proof. apply chars_inj. by rewrite !chars_app, app_assoc. Qed.

Lemma char_at_lookup line (i : Z) ch :
  chars line !! Z.to_nat i = Some ch -> char_at line i = ch.
Proof. unfold char_at. rewrite chars_get. by intros ->. Qed.

Lemma char_at_not_delimiter line (i : Z) :
  chars line !! Z.to_nat i <> Some delimiter ->
  Ascii.eqb (char_at line i) delimiter = false.
Proof.
  intros H. unfold char_at. rewrite chars_get.
  destruct (chars line !! Z.to_nat i) as [ch |] eqn:E; cbn.
  - destruct (Ascii.eqb_spec ch delimiter) as [-> |]; [by destruct H | done].
  - reflexivity.
Qed.

(** ** parseLine *)

Section ScriptProperties.

Context (FluidModifierData : Type).
Context (known_value : MANTA -> FluidModifierData -> string -> string).
Context (m : MANTA) (mmd : option FluidModifierData).

Local Abbreviation parse_loop' := (parse_loop FluidModifierData known_value m).
Local Abbreviation parseLine' := (parseLine FluidModifierData known_value m).
Local Abbreviation getRealValue' := (getRealValue FluidModifierData known_value m).

(** Characters other than the delimiter leave the state of the loop as it
    is. *)
Lemma parse_loop_skip line (k n : nat) cp sd ed rv res log :
  0 <= cp ->
  (forall i, (i < k)%nat -> chars line !! (Z.to_nat cp + i)%nat <> Some delimiter) ->
  parse_loop' line mmd (k + n) cp sd ed rv res log
  = parse_loop' line mmd n (cp + Z.of_nat k) sd ed rv res log.
Proof.
  revert cp. induction k as [| k IH]; intros cp Hcp Hfree.
  - cbn. by rewrite Z.add_0_r.
  - cbn [Nat.add parse_loop].
    rewrite char_at_not_delimiter; cycle 1.
    { specialize (Hfree 0%nat). rewrite Nat.add_0_r in Hfree. apply Hfree. lia. }
    cbn [andb]. rewrite IH; [f_equal; lia | lia |].
    intros i Hi. replace (Z.to_nat (cp + 1) + i)%nat with (Z.to_nat cp + S i)%nat by lia.
    apply Hfree. lia.
Qed.

(** A delimiter met outside a variable opens one, after the text since the
    last variable was appended. *)
Lemma parse_loop_open line (n : nat) cp sd ed res log :
  Z.of_nat (String.length line) < 2 ^ 31 ->
  -1 <= ed < cp -> cp < Z.of_nat (String.length line) ->
  chars line !! Z.to_nat cp = Some delimiter ->
  exists piece,
    chars piece = take (Z.to_nat (cp - ed - 1)) (drop (Z.to_nat (ed + 1)) (chars line))
    /\ parse_loop' line mmd (S n) cp sd ed false res log
       = parse_loop' line mmd n (cp + 1) (cp + 1) ed true (res +:+ piece) log.
Proof.
  intros Hsize Hed Hcp Hch.
  destruct (substr_inside line (ed + 1) (cp - ed - 1)) as (piece & Hsub & Hpiece);
    [lia | lia | lia | assert (2 ^ 31 < 2 ^ 32) by reflexivity; lia |].
  exists piece. split; [done |].
  cbn [parse_loop]. rewrite (char_at_lookup _ _ _ Hch), Ascii.eqb_refl.
  cbn [andb negb]. by rewrite Hsub.
Qed.

(** A delimiter met inside a variable closes it: the name between the two
    delimiters is handed to [getRealValue]. *)
Lemma parse_loop_close line (n : nat) cp sd ed res log :
  Z.of_nat (String.length line) < 2 ^ 31 ->
  0 <= sd <= cp -> cp < Z.of_nat (String.length line) ->
  chars line !! Z.to_nat cp = Some delimiter ->
  exists name,
    chars name = take (Z.to_nat (cp - sd)) (drop (Z.to_nat sd) (chars line))
    /\ parse_loop' line mmd (S n) cp sd ed true res log
       = parse_loop' line mmd n (cp + 1) sd cp false
           (res +:+ (getRealValue' name mmd).1) (log ++ (getRealValue' name mmd).2).
Proof.
  intros Hsize Hsd Hcp Hch.
  destruct (substr_inside line sd (cp - sd)) as (name & Hsub & Hname);
    [lia | lia | lia | assert (2 ^ 31 < 2 ^ 32) by reflexivity; lia |].
  exists name. split; [done |].
  cbn [parse_loop]. rewrite (char_at_lookup _ _ _ Hch), Ascii.eqb_refl.
  cbn [andb negb]. rewrite Hsub. by destruct (getRealValue' name mmd).
Qed.


(** The loop does not throw, and the position of the last closing
    delimiter it reports is inside the line. *)
Lemma parse_loop_total line (n : nat) cp sd ed rv res log :
  Z.of_nat (String.length line) < 2 ^ 31 ->
  -1 <= ed < cp -> (rv = true -> 0 <= sd <= cp) ->
  cp + Z.of_nat n = Z.of_nat (String.length line) ->
  exists ed' res' log',
    parse_loop' line mmd n cp sd ed rv res log = inr (ed', res', log')
    /\ -1 <= ed' < cp + Z.of_nat n.
Proof.
  intros Hsize. revert cp sd ed rv res log.
  induction n as [| n IH]; intros cp sd ed rv res log Hed Hsd Hn.
  - cbn. eexists _, _, _. split; [done | lia].
  - assert (H32 : 2 ^ 31 < 2 ^ 32) by reflexivity.
    cbn [parse_loop].
    destruct (Ascii.eqb (char_at line cp) delimiter); cbn [andb].
    + destruct rv; cbn [negb].
      * destruct (substr_inside line sd (cp - sd)) as (name & -> & _); [lia.. |].
        destruct (getRealValue' name mmd) as [value err].
        destruct (IH (cp + 1) sd cp false (res +:+ value) (log ++ err))
          as (ed' & res' & log' & -> & Hb); [lia | done | lia |].
        eexists _, _, _. split; [done | lia].
      * destruct (substr_inside line (ed + 1) (cp - ed - 1)) as (piece & -> & _);
          [lia.. |].
        destruct (IH (cp + 1) (cp + 1) ed true (res +:+ piece) log)
          as (ed' & res' & log' & -> & Hb); [lia | lia | lia |].
        eexists _, _, _. split; [done | lia].
    + destruct (IH (cp + 1) sd ed rv res log)
        as (ed' & res' & log' & -> & Hb); [lia | intros ?; specialize (Hsd ltac:(done)); lia | lia |].
      eexists _, _, _. split; [done | lia].
Qed.

(** [parseLine] returns normally on every line whose length fits the [int]
    that indexes it. *)
Lemma parseLine_total line :
  Z.of_nat (String.length line) < 2 ^ 31 ->
  exists res log, parseLine' line mmd = inr (res, log).
Proof.
  intros Hsize. unfold parseLine.
  destruct (String.length line =? 0)%nat; [by eexists _, _ |].
  destruct (parse_loop_total line (String.length line) 0 0 (-1) false "" [])
    as (ed' & res' & log' & -> & Hb); [lia | lia | done | lia |].
  assert (H32 : 2 ^ 31 < 2 ^ 32) by reflexivity.
  destruct (substr_inside line (ed' + 1) (Z.of_nat (String.length line) - ed'))
    as (tail & -> & _); [lia.. |].
  by eexists _, _.
Qed.

(** C9: a line without the delimiter is returned unchanged, with nothing
    written to [std::cerr], whatever the modifier data (null or not).  The
    line is one that the [int currPos] of the source can index. *)
Theorem parseLine_no_delimiter line :
  Z.of_nat (String.length line) < 2 ^ 31 ->
  has_delimiter line = false ->
  parseLine' line mmd = inr (line, []).
Proof.
  intros Hsize Hfree. unfold parseLine.
  destruct (String.length line =? 0)%nat eqn:E.
  - apply Nat.eqb_eq in E. destruct line; [done | discriminate].
  - rewrite <- (Nat.add_0_r (String.length line)).
    rewrite parse_loop_skip; [| lia |]; cycle 1.
    { intros i _. by apply has_delimiter_chars. }
    cbn [parse_loop].
    assert (H32 : 2 ^ 31 < 2 ^ 32) by reflexivity.
    destruct (substr_inside line (-1 + 1)
                (Z.of_nat (String.length line + 0) - -1))
      as (tail & -> & Htail); [lia.. |].
    change ("" +:+ tail) with tail. f_equal. f_equal. apply chars_inj.
    rewrite Htail.
    change (Z.to_nat (-1 + 1)) with 0%nat. rewrite drop_0.
    apply take_ge. rewrite <- chars_length. lia.
Qed.


(** The loop over the part [post] of a line [pfx ++ post] does what the
    loop over [post] alone does, [off] characters further on. *)
Lemma parse_loop_shift line post (pfx : list ascii) (n : nat)
    cp sd1 sd2 ed rv resA resB logA logB :
  chars line = pfx ++ chars post ->
  Z.of_nat (String.length line) < 2 ^ 31 ->
  -1 <= ed < cp ->
  (rv = true -> sd1 = sd2 + Z.of_nat (length pfx) /\ 0 <= sd2 <= cp) ->
  cp + Z.of_nat n = Z.of_nat (String.length post) ->
  parse_loop' line mmd n (cp + Z.of_nat (length pfx)) sd1
    (ed + Z.of_nat (length pfx)) rv (resA +:+ resB) (logA ++ logB)
  = shift_result (Z.of_nat (length pfx)) resA logA
      (parse_loop' post mmd n cp sd2 ed rv resB logB).
Proof.
  intros Hline Hsize.
  assert (Hlen : String.length line = (length pfx + String.length post)%nat).
  { by rewrite !chars_length, Hline, length_app. }
  assert (H32 : 2 ^ 31 < 2 ^ 32) by reflexivity.
  set (off := Z.of_nat (length pfx)) in *.
  assert (Hdrop : forall k : Z, 0 <= k ->
            drop (Z.to_nat (k + off)) (chars line) = drop (Z.to_nat k) (chars post)).
  { intros k Hk. rewrite Hline.
    replace (Z.to_nat (k + off)) with (length pfx + Z.to_nat k)%nat by lia.
    by rewrite drop_app_add. }
  revert cp sd1 sd2 ed rv resB logB.
  induction n as [| n IH]; intros cp sd1 sd2 ed rv resB logB Hed Hsd Hn.
  - reflexivity.
  - cbn [parse_loop].
    assert (Hch : char_at line (cp + off) = char_at post cp).
    { unfold char_at. rewrite !chars_get, Hline.
      replace (Z.to_nat (cp + off)) with (length pfx + Z.to_nat cp)%nat by lia.
      by rewrite lookup_app_r, Nat.add_comm, Nat.add_sub by lia. }
    rewrite Hch.
    destruct (Ascii.eqb (char_at post cp) delimiter); cbn [andb].
    + destruct rv; cbn [negb].
      * destruct (Hsd eq_refl) as [-> Hsd2].
        destruct (substr_inside line (sd2 + off) (cp + off - (sd2 + off)))
          as (name1 & -> & Hname1); [lia.. |].
        destruct (substr_inside post sd2 (cp - sd2))
          as (name2 & -> & Hname2); [lia.. |].
        assert (name1 = name2) as ->.
        { apply chars_inj. rewrite Hname1, Hname2, Hdrop by lia.
          do 2 f_equal. lia. }
        destruct (getRealValue' name2 mmd) as [value err].
        rewrite append_assoc, <- (assoc_L (++)).
        replace (cp + off + 1) with (cp + 1 + off) by lia.
        apply IH; [lia | done | lia].
      * destruct (substr_inside line (ed + off + 1) (cp + off - (ed + off) - 1))
          as (piece1 & -> & Hpiece1); [lia.. |].
        destruct (substr_inside post (ed + 1) (cp - ed - 1))
          as (piece2 & -> & Hpiece2); [lia.. |].
        assert (piece1 = piece2) as ->.
        { apply chars_inj. rewrite Hpiece1, Hpiece2.
          replace (ed + off + 1) with (ed + 1 + off) by lia.
          rewrite Hdrop by lia. do 2 f_equal. lia. }
        rewrite append_assoc.
        replace (cp + off + 1) with (cp + 1 + off) by lia.
        apply IH; [lia | intros _; lia | lia].
    + replace (cp + off + 1) with (cp + 1 + off) by lia.
      apply IH; [lia | | lia].
      intros Hrv. destruct (Hsd Hrv). lia.
Qed.

(** The first variable of a line: what [parseLine] returns is the text
    before it, the value [getRealValue] gives for the name, and what
    [parseLine] returns for the rest of the line. *)
Lemma parseLine_first_variable pre name post :
  Z.of_nat (String.length (pre +:+ "$" +:+ name +:+ "$" +:+ post)) < 2 ^ 31 ->
  has_delimiter pre = false ->
  has_delimiter name = false ->
  exists res log,
    parseLine' post mmd = inr (res, log)
    /\ parseLine' (pre +:+ "$" +:+ name +:+ "$" +:+ post) mmd
       = inr (pre +:+ (getRealValue' name mmd).1 +:+ res,
              (getRealValue' name mmd).2 ++ log).
Proof.
  set (line := pre +:+ "$" +:+ name +:+ "$" +:+ post).
  intros Hsize Hpre Hname.
  assert (H32 : 2 ^ 31 < 2 ^ 32) by reflexivity.
  assert (Hline : chars line
            = chars pre ++ delimiter :: chars name ++ delimiter :: chars post).
  { unfold line. by rewrite !chars_app. }
  assert (Hlen : String.length line
            = (length (chars pre) + S (length (chars name)
                + S (String.length post)))%nat).
  { rewrite (chars_length line), Hline, length_app. cbn [length].
    rewrite length_app. cbn [length]. by rewrite <- (chars_length post). }
  set (a := length (chars pre)) in *.
  set (b := length (chars name)) in *.
  assert (Hfree_pre : forall i, (i < a)%nat -> chars line !! i <> Some delimiter).
  { intros i Hi. rewrite Hline, lookup_app_l by done.
    by apply has_delimiter_chars. }
  assert (Hopen : chars line !! a = Some delimiter).
  { rewrite Hline. by rewrite list_lookup_middle. }
  assert (Hfree_name : forall i, (i < b)%nat ->
            chars line !! (S a + i)%nat <> Some delimiter).
  { intros i Hi. rewrite Hline, lookup_app_r by (unfold a; lia).
    replace (S a + i - length (chars pre))%nat with (S i) by (unfold a; lia).
    rewrite lookup_cons_ne_0 by done. cbn [Nat.pred].
    rewrite lookup_app_l by done. by apply has_delimiter_chars. }
  assert (Hclose : chars line !! (S a + b)%nat = Some delimiter).
  { rewrite Hline, lookup_app_r by (unfold a; lia).
    replace (S a + b - length (chars pre))%nat with (S b) by (unfold a; lia).
    rewrite lookup_cons_ne_0 by done. cbn [Nat.pred].
    by rewrite list_lookup_middle. }
  (* the rest of the line, alone *)
  destruct (parse_loop_total post (String.length post) 0 0 (-1) false "" [])
    as (ed' & res' & log' & Hpost & Hed'); [lia | lia | done | lia |].
  destruct (substr_inside post (ed' + 1) (Z.of_nat (String.length post) - ed'))
    as (tail & Htail & Htail_chars); [lia.. |].
  exists (res' +:+ tail), log'. split.
  { unfold parseLine. destruct (String.length post =? 0)%nat eqn:E.
    - apply Nat.eqb_eq in E. destruct post; [| discriminate].
      cbn in Hpost. injection Hpost as <- <- <-.
      cbn in Htail. by injection Htail as <-.
    - by rewrite Hpost, Htail. }
  (* the line *)
  unfold parseLine.
  destruct (String.length line =? 0)%nat eqn:E;
    [apply Nat.eqb_eq in E; lia |].
  rewrite Hlen.
  (* up to the opening delimiter *)
  rewrite parse_loop_skip; [| lia | by intros i Hi; apply Hfree_pre].
  destruct (parse_loop_open line (b + S (String.length post)) (0 + Z.of_nat a)
              0 (-1) "" []) as (piece & Hpiece & ->);
    [lia | lia | lia | by rewrite Z.add_0_l, Nat2Z.id |].
  assert (piece = pre) as ->.
  { apply chars_inj. rewrite Hpiece, Hline.
    change (Z.to_nat (-1 + 1)) with 0%nat. rewrite drop_0.
    replace (Z.to_nat (0 + Z.of_nat a - -1 - 1)) with a by lia.
    by apply take_app_length'. }
  change ("" +:+ pre) with pre.
  (* the name *)
  rewrite parse_loop_skip; [| lia |]; cycle 1.
  { intros i Hi.
    replace (Z.to_nat (0 + Z.of_nat a + 1) + i)%nat with (S a + i)%nat by lia.
    by apply Hfree_name. }
  destruct (parse_loop_close line (String.length post)
              (0 + Z.of_nat a + 1 + Z.of_nat b) (0 + Z.of_nat a + 1) (-1) pre [])
    as (name' & Hname' & ->); [lia | lia | lia | |].
  { replace (Z.to_nat (0 + Z.of_nat a + 1 + Z.of_nat b)) with (S a + b)%nat by lia.
    done. }
  assert (name' = name) as ->.
  { apply chars_inj. rewrite Hname', Hline.
    replace (Z.to_nat (0 + Z.of_nat a + 1)) with (length (chars pre) + 1)%nat
      by (unfold a; lia).
    rewrite drop_app_add. cbn [drop].
    replace (Z.to_nat (0 + Z.of_nat a + 1 + Z.of_nat b - (0 + Z.of_nat a + 1)))
      with b by lia.
    by apply take_app_length'. }
  destruct (getRealValue' name mmd) as [value err]. cbn [fst snd app].
  (* the rest of the line, inside the line *)
  set (pfx := chars pre ++ delimiter :: chars name ++ [delimiter]).
  assert (Hpfx : chars line = pfx ++ chars post).
  { rewrite Hline. unfold pfx.
    rewrite <- (assoc_L (++)). cbn. by rewrite <- (assoc_L (++)). }
  assert (Hoff : Z.of_nat (length pfx) = 0 + Z.of_nat a + 1 + Z.of_nat b + 1).
  { unfold pfx. rewrite length_app. cbn [length]. rewrite length_app. cbn [length].
    unfold a, b. lia. }
  pose proof (parse_loop_shift line post pfx (String.length post)
                0 (0 + Z.of_nat a + 1) 0 (-1) false (pre +:+ value) "" err []
                Hpfx Hsize ltac:(lia) ltac:(done) ltac:(lia)) as Hshift.
  rewrite append_nil_r, app_nil_r, Hpost in Hshift.
  replace (0 + Z.of_nat (length pfx)) with (0 + Z.of_nat a + 1 + Z.of_nat b + 1)
    in Hshift by lia.
  replace (-1 + Z.of_nat (length pfx)) with (0 + Z.of_nat a + 1 + Z.of_nat b)
    in Hshift by lia.
  rewrite Hshift. cbn [shift_result].
  destruct (substr_inside line (ed' + Z.of_nat (length pfx) + 1)
              (Z.of_nat (a + S (b + S (String.length post)))
               - (ed' + Z.of_nat (length pfx))))
    as (tail' & -> & Htail'); [lia.. |].
  assert (tail' = tail) as ->.
  { apply chars_inj. rewrite Htail', Htail_chars, Hpfx.
    replace (Z.to_nat (ed' + Z.of_nat (length pfx) + 1))
      with (length pfx + Z.to_nat (ed' + 1))%nat by lia.
    rewrite drop_app_add. do 2 f_equal. lia. }
  by rewrite !append_assoc.
Qed.

End ScriptProperties.

Lemma parseLine_no_delimiter_witness :
  Z.of_nat (String.length "s = Solver(name='main', gridSize=gs)") < 2 ^ 31
  /\ has_delimiter "s = Solver(name='main', gridSize=gs)" = false
  /\ parseLine unit (fun _ _ _ => "") ex_MANTA
       "s = Solver(name='main', gridSize=gs)" None
     = inr ("s = Solver(name='main', gridSize=gs)", []).
Proof.
  split; [reflexivity |]. split; [reflexivity |].
  apply parseLine_no_delimiter; reflexivity.
Defined.



(** What the substitution is on a concrete line: the unknown name leaves
    no trace in the text, the known name "ID" is replaced by the solver id. *)
Example parseLine_unknown_example :
  parseLine unit (fun _ _ _ => "0") ex_MANTA "res = $FOO$ + $ID$" (Some ())
  = inr ("res =  + 1", [unknown_option "FOO"]).
Proof. vm_compute. reflexivity. Qed.

(** ** Words in memory *)

Lemma byte_to_Z_range b : 0 <= byte_to_Z b < 256.
Proof.
  unfold byte_to_Z. pose proof (Byte.to_N_bounded b). lia.
Qed.

Lemma byte_to_of_Z z : byte_to_Z (byte_of_Z z) = z mod 256.
Proof.
  unfold byte_to_Z, byte_of_Z.
  assert (Hr : 0 <= z mod 256 < 256) by (apply Z.mod_pos_bound; lia).
  destruct (Byte.of_N (Z.to_N (z mod 256))) as [b |] eqn:E.
  - apply Byte.to_of_N in E. rewrite E. lia.
  - apply Byte.of_N_None_iff in E. lia.
Qed.

Lemma le_encode_length n v : length (le_encode n v) = n.
Proof. revert v. induction n as [| n IH]; intros v; cbn; [done | by rewrite IH]. Qed.

Lemma le_decode_encode n v :
  le_decode (le_encode n v) = v mod 256 ^ Z.of_nat n.
Proof.
  revert v. induction n as [| n IH]; intros v.
  - cbn. by rewrite Z.mod_1_r.
  - cbn [le_encode le_decode]. rewrite IH, byte_to_of_Z.
    rewrite Nat2Z.inj_succ, Z.pow_succ_r by lia.
    rewrite Z.rem_mul_r by lia. lia.
Qed.

Lemma to_int32_id v : is_int32 v = true -> to_int32 (v mod 2 ^ 32) = v.
Proof.
  unfold is_int32, to_int32. rewrite andb_true_iff, Z.leb_le, Z.ltb_lt.
  intros [Hlo Hhi]. rewrite Z.mod_mod by done.
  assert (H31 : 2 ^ 32 = 2 * 2 ^ 31) by reflexivity.
  assert (0 < 2 ^ 31) by reflexivity.
  destruct (Z.le_gt_cases 0 v).
  - rewrite Z.mod_small by lia.
    destruct (v <? 2 ^ 31) eqn:E; [done | apply Z.ltb_ge in E; lia].
  - replace (v mod 2 ^ 32) with (v + 2 ^ 32).
    + destruct (v + 2 ^ 32 <? 2 ^ 31) eqn:E; [apply Z.ltb_lt in E; lia | lia].
    + apply Z.mod_unique with (-1); lia.
Qed.

Lemma float32_id v : is_float32 v = true -> v mod 2 ^ 32 = v.
Proof.
  unfold is_float32. rewrite andb_true_iff, Z.leb_le, Z.ltb_lt.
  intros [Hlo Hhi]. by apply Z.mod_small.
Qed.

Lemma mem_words_length vs : length (mem_words vs) = (4 * length vs)%nat.
Proof.
  unfold mem_words. induction vs as [| v vs IH]; [done |].
  cbn [mbind list_bind]. rewrite length_app, le_encode_length.
  change (vs ≫= le_encode 4) with (mbind (le_encode 4) vs) in *.
  cbn [length]. lia.
Qed.

Lemma mem_words_cons v vs : mem_words (v :: vs) = le_encode 4 v ++ mem_words vs.
Proof. reflexivity. Qed.

(** Word [k] of the memory of an array, with anything after the array. *)
Lemma mem_words_word vs rest (k : nat) v :
  vs !! k = Some v ->
  take 4 (drop (4 * k) (mem_words vs ++ rest)) = le_encode 4 v.
Proof.
  revert k. induction vs as [| w vs IH]; intros k Hk; [done |].
  rewrite mem_words_cons, <- (assoc_L (++)).
  destruct k as [| k].
  - cbn in Hk. injection Hk as ->.
    rewrite Nat.mul_0_r, drop_0.
    by apply take_app_length'.
  - replace (4 * S k)%nat with (length (le_encode 4 w) + 4 * k)%nat
      by (rewrite le_encode_length; lia).
    rewrite drop_app_add. by apply IH.
Qed.

Lemma int_at_mem_words vs rest (k : nat) v :
  vs !! k = Some v -> is_int32 v = true ->
  int_at (mem_words vs ++ rest) (Z.of_nat k) = v.
Proof.
  intros Hk Hv. unfold int_at.
  replace (Z.to_nat (4 * Z.of_nat k)) with (4 * k)%nat by lia.
  rewrite (mem_words_word _ _ _ _ Hk), le_decode_encode.
  by apply to_int32_id.
Qed.

Lemma float_at_mem_words vs rest (k : nat) v :
  vs !! k = Some v -> is_float32 v = true ->
  float_at (mem_words vs ++ rest) (Z.of_nat k) = v.
Proof.
  intros Hk Hv. unfold float_at.
  replace (Z.to_nat (4 * Z.of_nat k)) with (4 * k)%nat by lia.
  rewrite (mem_words_word _ _ _ _ Hk), le_decode_encode.
  by apply float32_id.
Qed.

(** ** Configuration snapshot *)

Lemma gzwrite_exact out field n :
  length field = Z.to_nat n -> 0 <= n ->
  gzwrite out field n = out ++ mem_words field.
Proof.
  intros Hlen Hn. unfold gzwrite. f_equal.
  apply take_ge. rewrite mem_words_length. lia.
Qed.

(** Reading an array that the file holds in full. *)
Lemma gzread_words_exact f field vs rest' n :
  gz_rest f = mem_words vs ++ rest' ->
  length field = Z.to_nat n -> length vs = Z.to_nat n -> 0 <= n < 2 ^ 20 ->
  gzread f (mem_words field) (n * 4)
  = (mk_gzFile rest' (gz_status f), mem_words vs, n * 4).
Proof.
  intros Hrest Hfield Hvs Hn.
  assert (2 ^ 20 * 4 < 2 ^ 31) by reflexivity.
  rewrite gzread_fits by lia. rewrite Hrest.
  assert (Hlen : Z.to_nat (n * 4) = length (mem_words vs))
    by (rewrite mem_words_length; lia).
  rewrite Hlen, take_app_length, drop_app_length.
  unfold overwrite. rewrite drop_ge, app_nil_r by (rewrite !mem_words_length; lia).
  do 2 f_equal. lia.
Qed.

Lemma gzread_ints_exact f field vs rest' n :
  gz_rest f = mem_words vs ++ rest' ->
  ints_ok (Z.to_nat n) field = true -> ints_ok (Z.to_nat n) vs = true ->
  0 <= n < 2 ^ 20 ->
  gzread_ints f field n = (mk_gzFile rest' (gz_status f), vs).
Proof.
  unfold ints_ok. rewrite !andb_true_iff, !Nat.eqb_eq.
  intros Hrest [Hfield _] [Hvs Hok] Hn. unfold gzread_ints.
  rewrite (gzread_words_exact f field vs rest' n) by done. f_equal.
  apply list_eq. intros i. rewrite list_lookup_fmap.
  destruct (vs !! i) as [v |] eqn:Hv.
  - pose proof (lookup_lt_Some _ _ _ Hv).
    rewrite lookup_seqZ_lt by lia. cbn [fmap option_fmap option_map].
    rewrite Z.add_0_l.
    assert (Hv_ok : is_int32 v = true).
    { apply (proj1 (forallb_forall _ _) Hok), list_elem_of_In.
      by apply list_elem_of_lookup_2 with i. }
    pose proof (int_at_mem_words vs [] i v Hv Hv_ok) as E.
    rewrite app_nil_r in E. by rewrite E.
  - apply lookup_ge_None in Hv. by rewrite lookup_seqZ_ge by lia.
Qed.

Lemma gzread_floats_exact f field vs rest' n :
  gz_rest f = mem_words vs ++ rest' ->
  length field = Z.to_nat n -> floats_ok (Z.to_nat n) vs = true ->
  0 <= n < 2 ^ 20 ->
  gzread_floats f field n = (mk_gzFile rest' (gz_status f), vs).
Proof.
  unfold floats_ok. rewrite !andb_true_iff, !Nat.eqb_eq.
  intros Hrest Hfield [Hvs Hok] Hn. unfold gzread_floats.
  rewrite (gzread_words_exact f field vs rest' n) by done. f_equal.
  apply list_eq. intros i. rewrite list_lookup_fmap.
  destruct (vs !! i) as [v |] eqn:Hv.
  - pose proof (lookup_lt_Some _ _ _ Hv).
    rewrite lookup_seqZ_lt by lia. cbn [fmap option_fmap option_map].
    rewrite Z.add_0_l.
    assert (Hv_ok : is_float32 v = true).
    { apply (proj1 (forallb_forall _ _) Hok), list_elem_of_In.
      by apply list_elem_of_lookup_2 with i. }
    pose proof (float_at_mem_words vs [] i v Hv Hv_ok) as E.
    rewrite app_nil_r in E. by rewrite E.
  - apply lookup_ge_None in Hv. by rewrite lookup_seqZ_ge by lia.
Qed.

Lemma domain_ok_fields mds :
  domain_ok mds = true ->
  is_int32 (active_fields mds) = true /\ ints_ok 3 (res mds) = true
  /\ is_float32 (dx mds) = true /\ is_float32 (dt mds) = true
  /\ floats_ok 3 (p0 mds) = true /\ floats_ok 3 (p1 mds) = true
  /\ floats_ok 3 (dp0 mds) = true /\ ints_ok 3 (shift mds) = true
  /\ floats_ok 3 (obj_shift_f mds) = true /\ floats_ok 16 (obmat mds) = true
  /\ ints_ok 3 (base_res mds) = true /\ ints_ok 3 (res_min mds) = true
  /\ ints_ok 3 (res_max mds) = true /\ floats_ok 3 (active_color mds) = true.
Proof.
  unfold domain_ok. rewrite !andb_true_iff. tauto.
Qed.

Lemma ints_ok_length n vs : ints_ok n vs = true -> length vs = n.
Proof. unfold ints_ok. rewrite andb_true_iff, Nat.eqb_eq. tauto. Qed.

Lemma floats_ok_length n vs : floats_ok n vs = true -> length vs = n.
Proof. unfold floats_ok. rewrite andb_true_iff, Nat.eqb_eq. tauto. Qed.

(** What [writeConfiguration] writes. *)
Lemma writeConfiguration_bytes mds status :
  domain_ok mds = true ->
  writeConfiguration mds (Some status) = (status =? Z_OK, config_bytes mds).
Proof.
  intros Hok. apply domain_ok_fields in Hok.
  destruct Hok as (_ & Hres & _ & _ & Hp0 & Hp1 & Hdp0 & Hshift & Hobj & Hobmat
                   & Hbase & Hmin & Hmax & Hcolor).
  unfold writeConfiguration, config_bytes. f_equal.
  rewrite !gzwrite_exact;
    try done; try lia;
    try first [by apply ints_ok_length | by apply floats_ok_length].
  cbn [app]. by rewrite <- !(assoc_L (++)).
Qed.

(** What [readConfiguration] makes of a file that starts with a
    snapshot. *)
Lemma readConfiguration_bytes mds0 mds tail status dummy :
  domain_ok mds0 = true -> domain_ok mds = true ->
  readConfiguration mds0 true (Some (mk_gzFile (config_bytes mds ++ tail) status)) dummy
  = (status =? Z_OK, restored mds0 mds).
Proof.
  intros Hok0 Hok.
  apply domain_ok_fields in Hok0.
  destruct Hok0 as (Haf0 & Hres0 & _ & _ & Hp00 & Hp10 & Hdp00 & Hshift0 & Hobj0
                    & Hobmat0 & Hbase0 & Hmin0 & Hmax0 & Hcolor0).
  apply domain_ok_fields in Hok.
  destruct Hok as (Haf & Hres & Hdx & Hdt & Hp0 & Hp1 & Hdp0 & Hshift & Hobj
                   & Hobmat & Hbase & Hmin & Hmax & Hcolor).
  assert (Hone_int : forall v, is_int32 v = true -> ints_ok 1 [v] = true).
  { intros v Hv. unfold ints_ok. cbn. by rewrite Hv. }
  assert (Hone_float : forall v, is_float32 v = true -> floats_ok 1 [v] = true).
  { intros v Hv. unfold floats_ok. cbn. by rewrite Hv. }
  assert (2 ^ 20 = 1048576) by reflexivity.
  unfold readConfiguration, config_bytes. cbn [negb].
  rewrite <- !(assoc_L (++)).
  erewrite (gzread_ints_exact _ _ [active_fields mds]);
    [| cbn [gz_rest]; reflexivity | by apply Hone_int | by apply Hone_int | lia].
  erewrite (gzread_ints_exact _ _ (res mds));
    [| cbn [gz_rest]; reflexivity | done | done | lia].
  erewrite (gzread_floats_exact _ _ [dx mds]);
    [| cbn [gz_rest]; reflexivity | done | by apply Hone_float | lia].
  erewrite (gzread_floats_exact _ _ [dt mds]);
    [| cbn [gz_rest]; reflexivity | done | by apply Hone_float | lia].
  erewrite (gzread_floats_exact _ _ (p0 mds));
    [| cbn [gz_rest]; reflexivity | by apply floats_ok_length | done | lia].
  erewrite (gzread_floats_exact _ _ (p1 mds));
    [| cbn [gz_rest]; reflexivity | by apply floats_ok_length | done | lia].
  erewrite (gzread_floats_exact _ _ (dp0 mds));
    [| cbn [gz_rest]; reflexivity | by apply floats_ok_length | done | lia].
  erewrite (gzread_ints_exact _ _ (shift mds));
    [| cbn [gz_rest]; reflexivity | done | done | lia].
  erewrite (gzread_floats_exact _ _ (obj_shift_f mds));
    [| cbn [gz_rest]; reflexivity | by apply floats_ok_length | done | lia].
  erewrite (gzread_floats_exact _ _ (obmat mds));
    [| cbn [gz_rest]; reflexivity | by apply floats_ok_length | done | lia].
  erewrite (gzread_ints_exact _ _ (base_res mds));
    [| cbn [gz_rest]; reflexivity | done | done | lia].
  erewrite (gzread_ints_exact _ _ (res_min mds));
    [| cbn [gz_rest]; reflexivity | done | done | lia].
  erewrite (gzread_ints_exact _ _ (res_max mds));
    [| cbn [gz_rest]; reflexivity | done | done | lia].
  erewrite (gzread_floats_exact _ _ (active_color mds));
    [| cbn [gz_rest]; reflexivity | by apply floats_ok_length | done | lia].
  reflexivity.
Qed.

(** C7, as stated, fails: the time step is written but not restored;
    [readConfiguration] reads it into a local that it drops. *)
Lemma readConfiguration_drops_dt :
  dt (readConfiguration ex_domain0 true
        (Some (mk_gzFile (writeConfiguration ex_domain (Some Z_OK)).2 Z_OK)) 0).2
  <> dt ex_domain.
Proof. vm_compute. discriminate. Qed.

(** C7, amended: [writeConfiguration] followed by [readConfiguration] of the
    file it wrote succeeds when both [gzclose] calls do, and leaves in the
    domain settings every written field but the time step, each with the
    value written, in the order and with the sizes of [config_bytes]; the
    time step keeps the value it had before the read, and [total_cells] is
    the product of the resolution read. *)
Theorem configuration_round_trip mds mds0 wstatus rstatus dummy :
  domain_ok mds = true ->
  domain_ok mds0 = true ->
  writeConfiguration mds (Some wstatus) = (wstatus =? Z_OK, config_bytes mds)
  /\ readConfiguration mds0 true
       (Some (mk_gzFile (writeConfiguration mds (Some wstatus)).2 rstatus)) dummy
     = (rstatus =? Z_OK, restored mds0 mds).
Proof.
  intros Hok Hok0. split; [by apply writeConfiguration_bytes |].
  rewrite writeConfiguration_bytes by done. cbn [snd].
  rewrite <- (app_nil_r (config_bytes mds)).
  by apply readConfiguration_bytes.
Qed.

Lemma configuration_round_trip_witness :
  domain_ok ex_domain = true
  /\ domain_ok ex_domain0 = true
  /\ writeConfiguration ex_domain (Some Z_OK) = (Z_OK =? Z_OK, config_bytes ex_domain)
  /\ readConfiguration ex_domain0 true
       (Some (mk_gzFile (writeConfiguration ex_domain (Some Z_OK)).2 Z_OK)) 0
     = (Z_OK =? Z_OK, restored ex_domain0 ex_domain).
Proof.
  split; [reflexivity |]. split; [reflexivity |].
  apply configuration_round_trip; reflexivity.
Defined.

(** ** The chunk loop *)

Section ChunkLoopProperties.

Context {T : Type}.
Context (CHUNK recSize kstep : Z).
Context (store : list byte -> Z -> T -> T).
Context (put : list byte -> T -> T).

Hypothesis CHUNK_pos : 0 < CHUNK.
Hypothesis recSize_pos : 0 < recSize.
Hypothesis chunk_fits : CHUNK * recSize < 2 ^ 31.

(** The assignment reads nothing but the bytes of record [k0] of the
    buffer, where [k] has advanced to [kstep * k0]. *)
Hypothesis store_put : forall buffer (k0 : nat) x,
  store buffer (kstep * Z.of_nat k0) x = put (record_bytes recSize buffer k0) x.

Local Abbreviation copy_loop' := (copy_loop kstep store).
Local Abbreviation chunk_loop' := (chunk_loop CHUNK recSize kstep store).

Lemma copy_loop_spec buffer (n : nat) (j k0 : nat) dest :
  (j + n <= length dest)%nat ->
  exists dest',
    copy_loop' n buffer (Z.of_nat j) (kstep * Z.of_nat k0) dest = inr dest'
    /\ length dest' = length dest
    /\ forall i, dest' !! i
         = if decide (j <= i < j + n)%nat
           then put (record_bytes recSize buffer (k0 + (i - j))) <$> dest !! i
           else dest !! i.
Proof.
  revert j k0 dest. induction n as [| n IH]; intros j k0 dest Hlen.
  - exists dest. cbn. split; [done |]. split; [done |].
    intros i. case_decide; [lia | done].
  - cbn [copy_loop]. rewrite Nat2Z.id.
    destruct (dest !! j) as [x |] eqn:Hx;
      [| apply lookup_ge_None in Hx; lia].
    rewrite store_put.
    replace (Z.of_nat j + 1) with (Z.of_nat (S j)) by lia.
    replace (kstep * Z.of_nat k0 + kstep) with (kstep * Z.of_nat (S k0)) by lia.
    destruct (IH (S j) (S k0) (<[j := put (record_bytes recSize buffer k0) x]> dest))
      as (dest' & -> & Hlen' & Hget); [rewrite length_insert; lia |].
    exists dest'. split; [done |]. rewrite Hlen', length_insert. split; [done |].
    intros i. rewrite Hget.
    destruct (decide (i = j)) as [-> | Hne].
    + rewrite list_lookup_insert_eq by lia.
      repeat case_decide; try lia.
      rewrite Hx. cbn. do 3 f_equal. lia.
    + rewrite list_lookup_insert_ne by done.
      repeat case_decide; try lia; [| done].
      do 3 f_equal. lia.
Qed.

Lemma record_bytes_drop records (d r : nat) :
  record_bytes recSize (drop (d * Z.to_nat recSize) records) r
  = record_bytes recSize records (d + r).
Proof.
  unfold record_bytes. rewrite drop_drop. do 2 f_equal. lia.
Qed.

Lemma record_bytes_overwrite records buffer (len r : nat) :
  (len * Z.to_nat recSize <= length records)%nat -> (r < len)%nat ->
  record_bytes recSize
    (overwrite (take (len * Z.to_nat recSize) records) buffer) r
  = record_bytes recSize records r.
Proof.
  intros Hlen Hr. unfold record_bytes, overwrite.
  set (rs := Z.to_nat recSize).
  assert (Hle : (r * rs + rs <= len * rs)%nat) by nia.
  rewrite take_drop_commute, take_app_le by (rewrite length_take; lia).
  rewrite take_take, Nat.min_l by lia.
  by rewrite <- take_drop_commute.
Qed.

(** The loop on a stream that holds the records still to be read: it
    completes, having assigned to the elements from [N - todo] on the
    records of as many chunks as [n] allows, and leaves every other element
    as it was. *)
Lemma chunk_loop_spec (n : nat) (N todo : nat) gzf buffer dest :
  (todo <= N)%nat -> length dest = N -> Z.of_nat N < 2 ^ 31 ->
  (todo * Z.to_nat recSize <= length (gz_rest gzf))%nat ->
  exists gzf' dest',
    chunk_loop' n (Z.of_nat N) (Z.of_nat todo) gzf buffer dest = Completed gzf' dest'
    /\ length dest' = N
    /\ gz_rest gzf'
       = drop ((todo `min` (n * Z.to_nat CHUNK)) * Z.to_nat recSize) (gz_rest gzf)
    /\ gz_status gzf' = gz_status gzf
    /\ forall i, dest' !! i
         = if decide (N - todo <= i < N - todo + todo `min` (n * Z.to_nat CHUNK))%nat
           then put (record_bytes recSize (gz_rest gzf) (i - (N - todo))) <$> dest !! i
           else dest !! i.
Proof.
  set (C := Z.to_nat CHUNK). set (rs := Z.to_nat recSize).
  assert (HC : (0 < C)%nat) by (unfold C; lia).
  assert (Hrs : (0 < rs)%nat) by (unfold rs; lia).
  intros Htodo Hlen HN. revert todo gzf buffer dest Htodo Hlen.
  induction n as [| n IH]; intros todo gzf buffer dest Htodo Hlen Hdata.
  - exists gzf, dest. cbn [chunk_loop]. rewrite Nat.mul_0_l, Nat.min_0_r.
    repeat split; try done. intros i. case_decide; [lia | done].
  - cbn [chunk_loop].
    destruct (0 <? Z.of_nat todo) eqn:Epos; cycle 1.
    { apply Z.ltb_ge in Epos. assert (todo = 0)%nat as -> by lia.
      exists gzf, dest. rewrite Nat.min_0_l.
      repeat split; try done. intros i. case_decide; [lia | done]. }
    apply Z.ltb_lt in Epos.
    set (rl := (todo `min` C)%nat).
    assert (Hrl : (if Z.of_nat todo <? CHUNK then Z.of_nat todo else CHUNK)
                  = Z.of_nat rl).
    { unfold rl, C. destruct (Z.of_nat todo <? CHUNK) eqn:E;
        [apply Z.ltb_lt in E | apply Z.ltb_ge in E]; lia. }
    rewrite Hrl.
    assert (Hrl_pos : (0 < rl)%nat) by (unfold rl; lia).
    assert (Hrl_le : (rl <= todo)%nat) by (unfold rl; lia).
    assert (Hbytes : Z.to_nat (Z.of_nat rl * recSize) = (rl * rs)%nat)
      by (unfold rs; nia).
    assert (Hrl_data : (rl * rs <= length (gz_rest gzf))%nat) by nia.
    rewrite gzread_fits by (unfold rl, C; nia).
    rewrite Hbytes, length_take, Nat.min_l by done.
    destruct (Z.of_nat (rl * rs) =? 0) eqn:Ezero; [apply Z.eqb_eq in Ezero; nia |].
    assert (Hstart : CLAMP (Z.of_nat N - Z.of_nat todo) 0 (Z.of_nat N)
                     = Z.of_nat (N - todo)).
    { unfold CLAMP.
      destruct (Z.of_nat N - Z.of_nat todo <? 0) eqn:E1;
        [apply Z.ltb_lt in E1; lia |].
      destruct (Z.of_nat N <? Z.of_nat N - Z.of_nat todo) eqn:E2;
        [apply Z.ltb_lt in E2; lia | lia]. }
    rewrite Hstart.
    assert (Hend : CLAMP (Z.of_nat (N - todo) + Z.of_nat rl) 0 (Z.of_nat N)
                   = Z.of_nat (N - todo + rl)).
    { unfold CLAMP.
      destruct (Z.of_nat (N - todo) + Z.of_nat rl <? 0) eqn:E1;
        [apply Z.ltb_lt in E1; lia |].
      destruct (Z.of_nat N <? Z.of_nat (N - todo) + Z.of_nat rl) eqn:E2;
        [apply Z.ltb_lt in E2; lia | lia]. }
    rewrite Hend.
    replace (Z.to_nat (Z.of_nat (N - todo + rl) - Z.of_nat (N - todo))) with rl by lia.
    set (buffer' := overwrite (take (rl * rs) (gz_rest gzf)) buffer).
    destruct (copy_loop_spec buffer' rl (N - todo) 0 dest)
      as (dest1 & Hcopy & Hlen1 & Hget1); [lia |].
    change (Z.of_nat 0) with 0 in Hcopy. rewrite Z.mul_0_r in Hcopy.
    rewrite Hcopy.
    replace (Z.of_nat todo - Z.of_nat rl) with (Z.of_nat (todo - rl)) by lia.
    set (gzf1 := mk_gzFile (drop (rl * rs) (gz_rest gzf)) (gz_status gzf)).
    destruct (IH (todo - rl)%nat gzf1 buffer' dest1)
      as (gzf' & dest' & -> & Hlen' & Hrest' & Hstatus' & Hget');
      [lia | lia | unfold gzf1; cbn [gz_rest]; rewrite length_drop; nia |].
    exists gzf', dest'.
    assert (Hm : (todo `min` (S n * C) = rl + (todo - rl) `min` (n * C))%nat).
    { unfold rl. rewrite Nat.mul_succ_l. lia. }
    rewrite Hm.
    split; [done |]. split; [done |].
    split.
    { rewrite Hrest'. unfold gzf1. cbn [gz_rest]. rewrite drop_drop.
      f_equal. lia. }
    split; [done |].
    intros i. rewrite Hget', Hget1.
    unfold gzf1, buffer'. cbn [gz_rest].
    clear Hget' Hget1 Hrest' Hstatus' Hlen' Hlen1 Hcopy IH Hm Hend Hstart
      Ezero Hbytes Hrl Hdata Epos HN Hlen gzf1 buffer'.
    set (k := ((todo - rl) `min` (n * C))%nat). clearbody k rl C.
    unfold rs in *. clear rs.
    destruct (decide (N - todo <= i < N - todo + rl)%nat) as [Hin | Hout].
    + (* assigned by this chunk *)
      rewrite decide_False by lia. rewrite decide_True by lia.
      rewrite Nat.add_0_l.
      by rewrite record_bytes_overwrite by (done || lia).
    + destruct (decide (N - (todo - rl) <= i < N - (todo - rl) + k)%nat).
      * rewrite decide_True by lia.
        rewrite record_bytes_drop. do 3 f_equal. lia.
      * by rewrite decide_False by lia.
Qed.

End ChunkLoopProperties.

(** *** The six assignments read the record they are meant to read *)

Lemma word_of_record (buffer : list byte) (rsz k0 j : nat) :
  (4 * j + 4 <= rsz)%nat ->
  take 4 (drop (4 * j) (take rsz (drop (k0 * rsz) buffer)))
  = take 4 (drop (k0 * rsz + 4 * j) buffer).
Proof.
  intros Hj.
  rewrite (take_drop_commute _ 4 (4 * j)), take_take, Nat.min_l by lia.
  by rewrite <- take_drop_commute, drop_drop.
Qed.

Lemma float_at_record buffer (rsz k0 j : nat) (idx : Z) :
  (4 * j + 4 <= rsz)%nat -> Z.to_nat (4 * idx) = (k0 * rsz + 4 * j)%nat ->
  float_at buffer idx = float_at (take rsz (drop (k0 * rsz) buffer)) (Z.of_nat j).
Proof.
  intros Hj Hidx. unfold float_at.
  replace (Z.to_nat (4 * Z.of_nat j)) with (4 * j)%nat by lia.
  by rewrite word_of_record, Hidx.
Qed.

Lemma int_at_record buffer (rsz k0 j : nat) (idx : Z) :
  (4 * j + 4 <= rsz)%nat -> Z.to_nat (4 * idx) = (k0 * rsz + 4 * j)%nat ->
  int_at buffer idx = int_at (take rsz (drop (k0 * rsz) buffer)) (Z.of_nat j).
Proof.
  intros Hj Hidx. unfold int_at.
  replace (Z.to_nat (4 * Z.of_nat j)) with (4 * j)%nat by lia.
  by rewrite word_of_record, Hidx.
Qed.

Lemma store_vertex_put buffer (k0 : nat) x :
  store_vertex buffer (3 * Z.of_nat k0) x = put_vertex (record_bytes 12 buffer k0) x.
Proof.
  unfold store_vertex, put_vertex, decode_float3, record_bytes.
  change (Z.to_nat 12) with 12%nat.
  rewrite (float_at_record buffer 12 k0 0 (3 * Z.of_nat k0)) by lia.
  rewrite (float_at_record buffer 12 k0 1 (3 * Z.of_nat k0 + 1)) by lia.
  rewrite (float_at_record buffer 12 k0 2 (3 * Z.of_nat k0 + 2)) by lia.
  reflexivity.
Qed.

Lemma store_normal_put buffer (k0 : nat) x :
  store_normal buffer (3 * Z.of_nat k0) x = put_normal (record_bytes 12 buffer k0) x.
Proof.
  unfold store_normal, put_normal, decode_float3, record_bytes.
  change (Z.to_nat 12) with 12%nat.
  rewrite (float_at_record buffer 12 k0 0 (3 * Z.of_nat k0)) by lia.
  rewrite (float_at_record buffer 12 k0 1 (3 * Z.of_nat k0 + 1)) by lia.
  rewrite (float_at_record buffer 12 k0 2 (3 * Z.of_nat k0 + 2)) by lia.
  reflexivity.
Qed.

Lemma store_triangle_put buffer (k0 : nat) x :
  store_triangle buffer (3 * Z.of_nat k0) x
  = put_triangle (record_bytes 12 buffer k0) x.
Proof.
  unfold store_triangle, put_triangle, decode_int3, record_bytes.
  change (Z.to_nat 12) with 12%nat.
  rewrite (int_at_record buffer 12 k0 0 (3 * Z.of_nat k0)) by lia.
  rewrite (int_at_record buffer 12 k0 1 (3 * Z.of_nat k0 + 1)) by lia.
  rewrite (int_at_record buffer 12 k0 2 (3 * Z.of_nat k0 + 2)) by lia.
  reflexivity.
Qed.

Lemma store_pData_put buffer (k0 : nat) x :
  store_pData buffer (1 * Z.of_nat k0) x = put_pData (record_bytes 16 buffer k0) x.
Proof.
  unfold store_pData, put_pData, decode_pData, record_bytes.
  change (Z.to_nat 16) with 16%nat.
  rewrite (float_at_record buffer 16 k0 0 (4 * (1 * Z.of_nat k0))) by lia.
  rewrite (float_at_record buffer 16 k0 1 (4 * (1 * Z.of_nat k0) + 1)) by lia.
  rewrite (float_at_record buffer 16 k0 2 (4 * (1 * Z.of_nat k0) + 2)) by lia.
  rewrite (int_at_record buffer 16 k0 3 (4 * (1 * Z.of_nat k0) + 3)) by lia.
  reflexivity.
Qed.

Lemma store_pVel_put buffer (k0 : nat) x :
  store_pVel buffer (1 * Z.of_nat k0) x = put_pVel (record_bytes 12 buffer k0) x.
Proof.
  unfold store_pVel, put_pVel, decode_float3, record_bytes.
  change (Z.to_nat 12) with 12%nat.
  rewrite (float_at_record buffer 12 k0 0 (3 * (1 * Z.of_nat k0))) by lia.
  rewrite (float_at_record buffer 12 k0 1 (3 * (1 * Z.of_nat k0) + 1)) by lia.
  rewrite (float_at_record buffer 12 k0 2 (3 * (1 * Z.of_nat k0) + 2)) by lia.
  reflexivity.
Qed.

Lemma store_life_put buffer (k0 : nat) x :
  store_life buffer (1 * Z.of_nat k0) x = put_life (record_bytes 4 buffer k0) x.
Proof.
  unfold store_life, put_life, record_bytes.
  change (Z.to_nat 4) with 4%nat.
  by rewrite (float_at_record buffer 4 k0 0 (1 * Z.of_nat k0)) by lia.
Qed.

(** ** updateParticlesFromUni: the PB02 payload *)

Lemma streq_other a lit1 lit2 :
  streq a lit1 = true ->
  cstr (String.list_byte_of_string lit1) <> cstr (String.list_byte_of_string lit2) ->
  streq a lit2 = false.
Proof.
  unfold streq. intros H1 Hne. apply bool_decide_eq_true in H1.
  apply bool_decide_eq_false. congruence.
Qed.

Lemma to_int32_range u : - 2 ^ 31 <= to_int32 u < 2 ^ 31.
Proof.
  unfold to_int32.
  assert (H32 : 2 ^ 32 = 2 * 2 ^ 31) by reflexivity.
  assert (0 < 2 ^ 31) by reflexivity.
  pose proof (Z.mod_pos_bound u (2 ^ 32) ltac:(lia)).
  destruct (u mod 2 ^ 32 <? 2 ^ 31) eqn:E;
    [apply Z.ltb_lt in E | apply Z.ltb_ge in E]; lia.
Qed.

Lemma header_count_range gzf u : - 2 ^ 31 <= header_count gzf u < 2 ^ 31.
Proof. apply to_int32_range. Qed.

Lemma resize_nat {T : Type} (N : nat) (zero : T) (v : list T) :
  resize (Z.of_nat N) zero v
  = Some (take N v ++ replicate (N - length v) zero).
Proof.
  unfold resize. destruct (Z.of_nat N <? 0) eqn:E; [apply Z.ltb_lt in E; lia |].
  by rewrite Nat2Z.id.
Qed.

Lemma resize_length {T : Type} (N : nat) (zero : T) (v : list T) :
  length (take N v ++ replicate (N - length v) zero) = N.
Proof. rewrite length_app, length_take, length_replicate. lia. Qed.

(** A PB02 snapshot that holds its [N] records: the call returns what
    [gzclose] says, and element [i] of the destination is record [i] of the
    payload for every [i] below [N] that the chunks reach; [numChunks]
    chunks reach [numChunks * PARTICLE_CHUNK] records.  The elements
    beyond are what [resize] left there. *)
Lemma updateParticlesFromUni_PB02 m gzf isSecondarySys isVelData u (N : nat) :
  magic_readable gzf = true ->
  has_magic gzf "PB02" ->
  header_sane gzf u = true ->
  header_count gzf u = Z.of_nat N ->
  (0 < N)%nat ->
  (N * 16 <= length (gz_rest (uni_payload gzf)))%nat ->
  exists data,
    updateParticlesFromUni m (Some gzf) isSecondarySys isVelData u
    = Returned (gz_status gzf =? Z_OK) (set_dataPointer isSecondarySys data m)
    /\ length data = N
    /\ forall i, data !! i
         = if decide (i < N `min` (Z.to_nat (numChunksOf (Z.of_nat N) PARTICLE_CHUNK)
                                   * Z.to_nat PARTICLE_CHUNK))%nat
           then Some (decode_pData (record_bytes 16 (gz_rest (uni_payload gzf)) i))
           else (take N (dataPointer m isSecondarySys)
                 ++ replicate (N - length (dataPointer m isSecondarySys)) pData_zero) !! i.
Proof.
  intros Hread Hmagic Hsane Hcount Hpos Hdata.
  pose proof (header_count_range gzf u) as Hrange. rewrite Hcount in Hrange.
  rewrite updateParticlesFromUni_unfold, Hread, Hsane, Hcount.
  rewrite (streq_other _ "PB02" "PB01") by (done || (vm_compute; discriminate)).
  cbn [negb].
  destruct (Z.of_nat N =? 0) eqn:E; [apply Z.eqb_eq in E; lia | clear E].
  unfold read_particles. unfold has_magic in Hmagic. rewrite Hmagic.
  rewrite resize_nat.
  set (data0 := take N (dataPointer m isSecondarySys)
                ++ replicate (N - length (dataPointer m isSecondarySys)) pData_zero).
  set (nc := Z.to_nat (numChunksOf (Z.of_nat N) PARTICLE_CHUNK)).
  destruct (chunk_loop_spec PARTICLE_CHUNK 16 1 store_pData put_pData
              ltac:(reflexivity) ltac:(reflexivity) ltac:(reflexivity)
              store_pData_put nc N N (uni_payload gzf) (i_chunk u) data0)
    as (gzf' & data & Hloop & Hlen & _ & Hstatus & Hget);
    [lia | apply resize_length | lia | exact Hdata |].
  rewrite Hloop. cbn [finish_loop]. unfold gzclose. rewrite Hstatus.
  exists data. split; [reflexivity |]. split; [done |].
  intros i. rewrite Hget, Nat.sub_diag, Nat.add_0_l, Nat.sub_0_r.
  destruct (decide (i < N `min` (nc * Z.to_nat PARTICLE_CHUNK))%nat) as [Hi | Hi].
  - rewrite decide_True by lia.
    destruct (lookup_lt_is_Some_2 data0 i) as [x ->];
      [unfold data0; rewrite resize_length; lia | reflexivity].
  - by rewrite decide_False by lia.
Qed.

(** The number of chunks at a few counts.  Up to [2^24] the conversion to
    [float] is exact; at 16780001 it rounds to 16780000, the quotient is
    839 exactly, and one chunk is missing. *)
Example numChunksOf_values :
  numChunksOf 1 PARTICLE_CHUNK = 1
  /\ numChunksOf 20000 PARTICLE_CHUNK = 1
  /\ numChunksOf 20001 PARTICLE_CHUNK = 2
  /\ numChunksOf 16760001 PARTICLE_CHUNK = 839
  /\ numChunksOf 16777216 PARTICLE_CHUNK = 839
  /\ float_of_int 16780001 = float_of_int 16780000
  /\ numChunksOf 16780001 PARTICLE_CHUNK = 839
  /\ numChunksOf 16780002 PARTICLE_CHUNK = 840.
Proof. vm_compute. repeat split. Qed.

(** When the chunks reach the count, every record of a PB02 snapshot is
    read into its element. *)
Lemma updateParticlesFromUni_PB02_complete m gzf isSecondarySys isVelData u (N : nat) :
  magic_readable gzf = true ->
  has_magic gzf "PB02" ->
  header_sane gzf u = true ->
  header_count gzf u = Z.of_nat N ->
  (0 < N)%nat ->
  (N * 16 <= length (gz_rest (uni_payload gzf)))%nat ->
  Z.of_nat N <= numChunksOf (Z.of_nat N) PARTICLE_CHUNK * PARTICLE_CHUNK ->
  exists data,
    updateParticlesFromUni m (Some gzf) isSecondarySys isVelData u
    = Returned (gz_status gzf =? Z_OK) (set_dataPointer isSecondarySys data m)
    /\ length data = N
    /\ forall i, (i < N)%nat ->
         data !! i = Some (decode_pData (record_bytes 16 (gz_rest (uni_payload gzf)) i)).
Proof.
  intros Hread Hmagic Hsane Hcount Hpos Hdata Hchunks.
  destruct (updateParticlesFromUni_PB02 m gzf isSecondarySys isVelData u N)
    as (data & Hcall & Hlen & Hget); try done.
  exists data. split; [done |]. split; [done |].
  intros i Hi. rewrite Hget. apply decide_True.
  unfold PARTICLE_CHUNK in *. lia.
Qed.

(** The header of the files that [uni_file] builds, whatever the payload. *)
Lemma uni_file_PB02_header count payload u :
  is_int32 count = true ->
  magic_readable (uni_file "PB02" count 0 16 payload) = true
  /\ has_magic (uni_file "PB02" count 0 16 payload) "PB02"
  /\ header_sane (uni_file "PB02" count 0 16 payload) u = true
  /\ header_count (uni_file "PB02" count 0 16 payload) u = count
  /\ gz_rest (uni_payload (uni_file "PB02" count 0 16 payload)) = payload
  /\ gz_status (uni_file "PB02" count 0 16 payload) = Z_OK.
Proof.
  intros Hcount.
  split; [reflexivity |]. split; [reflexivity |]. split; [reflexivity |].
  split; [| split; reflexivity].
  change (header_count (uni_file "PB02" count 0 16 payload) u)
    with (to_int32 (le_decode (le_encode 4 count))).
  rewrite le_decode_encode. by apply to_int32_id.
Qed.

Lemma record_bytes_replicate (recSize : Z) (len j : nat) (b : byte) :
  (j * Z.to_nat recSize + Z.to_nat recSize <= len)%nat ->
  record_bytes recSize (replicate len b) j = replicate (Z.to_nat recSize) b.
Proof.
  intros Hj. unfold record_bytes.
  rewrite drop_replicate, take_replicate. f_equal. lia.
Qed.

(** C1 fails on the code.  The snapshot [lost_particles_file] is in the
    current format and holds its 16780001 records, none of which is the
    zero record.  [numChunks] is computed in [float], where 16780001 rounds
    to 16780000: 839 chunks are read, the call returns true, and the last
    element of the destination is the zero record that [resize] put
    there, not record 16780000 of the file, whatever the indeterminate
    memory [u] held. *)
Theorem updateParticlesFromUni_last_record_not_read (u : indeterminate) :
  header_count lost_particles_file u = lost_count
  /\ length (gz_rest (uni_payload lost_particles_file)) = Z.to_nat (16 * lost_count)
  /\ decode_pData (record_bytes 16 (gz_rest (uni_payload lost_particles_file))
                     (Z.to_nat (lost_count - 1)))
     = mk_pData (16843009, 16843009, 16843009) 16843009
  /\ exists data,
       updateParticlesFromUni ex_MANTA (Some lost_particles_file) false false u
       = Returned true (set_mFlipParticleData data ex_MANTA)
       /\ length data = Z.to_nat lost_count
       /\ data !! Z.to_nat (lost_count - 1) = Some pData_zero
       /\ forall i, (i < Z.to_nat (lost_count - 1))%nat ->
            data !! i = Some (mk_pData (16843009, 16843009, 16843009) 16843009).
Proof.
  assert (Hint : is_int32 lost_count = true) by reflexivity.
  destruct (uni_file_PB02_header lost_count
              (replicate (Z.to_nat (16 * lost_count)) Byte.x01) u Hint)
    as (Hread & Hmagic & Hsane & Hcount & Hpayload & Hstatus).
  fold lost_particles_file in Hread, Hmagic, Hsane, Hcount, Hpayload, Hstatus.
  assert (Hrecord : forall i, (i < Z.to_nat lost_count)%nat ->
            decode_pData (record_bytes 16 (gz_rest (uni_payload lost_particles_file)) i)
            = mk_pData (16843009, 16843009, 16843009) 16843009).
  { intros i Hi. rewrite Hpayload, record_bytes_replicate; [reflexivity |].
    unfold lost_count in *. lia. }
  split; [exact Hcount |].
  split; [rewrite Hpayload; apply length_replicate |].
  split; [apply Hrecord; unfold lost_count; lia |].
  destruct (updateParticlesFromUni_PB02 ex_MANTA lost_particles_file false false u
              (Z.to_nat lost_count))
    as (data & Hcall & Hlen & Hget);
    [ exact Hread | exact Hmagic | exact Hsane
    | rewrite Hcount; unfold lost_count; lia
    | unfold lost_count; lia
    | rewrite Hpayload, length_replicate; unfold lost_count; lia
    | ].
  exists data. rewrite Hcall, Hstatus.
  split; [reflexivity |]. split; [exact Hlen |].
  assert (Hchunks : numChunksOf (Z.of_nat (Z.to_nat lost_count)) PARTICLE_CHUNK = 839).
  { rewrite Z2Nat.id by (unfold lost_count; lia). vm_compute. reflexivity. }
  split.
  - rewrite Hget, Hchunks, decide_False
      by (unfold lost_count, PARTICLE_CHUNK; lia).
    cbn [dataPointer ex_MANTA mFlipParticleData length].
    rewrite take_nil, app_nil_l.
    apply lookup_replicate_2. unfold lost_count. lia.
  - intros i Hi. rewrite Hget, Hchunks, decide_True
      by (unfold lost_count, PARTICLE_CHUNK in *; lia).
    f_equal. apply Hrecord. unfold lost_count in *. lia.
Qed.

(** ** Reads that deliver nothing, and reads that deliver too little *)

(** A chunk read that returns 0 makes the body of the loop run its
    [return false], with the destination as the chunks before left it. *)
Lemma chunk_loop_read_zero {T : Type} CHUNK recSize kstep
    (store : list byte -> Z -> T -> T) (n : nat) N todo gzf buffer dest :
  0 < todo ->
  (gzread gzf buffer ((if todo <? CHUNK then todo else CHUNK) * recSize)).2 = 0 ->
  chunk_loop CHUNK recSize kstep store (S n) N todo gzf buffer dest = Aborted dest.
Proof.
  intros Hpos Hzero. cbn [chunk_loop].
  destruct (0 <? todo) eqn:E; [| apply Z.ltb_ge in E; lia].
  destruct (gzread gzf buffer _) as [[gzf' buffer'] readBytes].
  cbn [snd] in Hzero. by rewrite Hzero.
Qed.

Lemma gzread_empty buffer len :
  forall status, gzread (mk_gzFile [] status) buffer len
    = (mk_gzFile [] status, buffer, if 2 ^ 31 <=? len mod 2 ^ 32 then -1 else 0).
Proof.
  intros status. unfold gzread. cbn [gz_rest gz_status].
  destruct (2 ^ 31 <=? len mod 2 ^ 32); [done |].
  by rewrite take_nil, drop_nil, overwrite_nil.
Qed.

(** A PB02 snapshot that ends with its header: the first chunk read
    returns 0 and the call returns false. *)
Lemma updateParticlesFromUni_no_payload m gzf isSecondarySys isVelData u (N : nat) :
  magic_readable gzf = true ->
  has_magic gzf "PB02" ->
  header_sane gzf u = true ->
  header_count gzf u = Z.of_nat N ->
  (0 < N)%nat ->
  0 < numChunksOf (Z.of_nat N) PARTICLE_CHUNK ->
  gz_rest (uni_payload gzf) = [] ->
  updateParticlesFromUni m (Some gzf) isSecondarySys isVelData u
  = Returned false
      (set_dataPointer isSecondarySys
         (take N (dataPointer m isSecondarySys)
          ++ replicate (N - length (dataPointer m isSecondarySys)) pData_zero) m).
Proof.
  intros Hread Hmagic Hsane Hcount Hpos Hchunks Hempty.
  pose proof (header_count_range gzf u) as Hrange. rewrite Hcount in Hrange.
  rewrite updateParticlesFromUni_unfold, Hread, Hsane, Hcount.
  rewrite (streq_other _ "PB02" "PB01") by (done || (vm_compute; discriminate)).
  cbn [negb].
  destruct (Z.of_nat N =? 0) eqn:E; [apply Z.eqb_eq in E; lia | clear E].
  unfold read_particles. unfold has_magic in Hmagic. rewrite Hmagic, resize_nat.
  destruct (Z.to_nat (numChunksOf (Z.of_nat N) PARTICLE_CHUNK)) as [| n] eqn:En;
    [lia |].
  rewrite chunk_loop_read_zero; [reflexivity | lia |].
  unfold uni_payload in *. cbn [gz_rest] in Hempty. rewrite Hempty.
  rewrite gzread_empty. cbn [snd].
  assert (Hlen : 0 <= (if Z.of_nat N <? PARTICLE_CHUNK then Z.of_nat N
                       else PARTICLE_CHUNK) * 16 < 2 ^ 31).
  { unfold PARTICLE_CHUNK.
    destruct (Z.of_nat N <? 20000) eqn:E; [apply Z.ltb_lt in E |]; lia. }
  rewrite Z.mod_small by lia.
  destruct (2 ^ 31 <=? _) eqn:E; [apply Z.leb_le in E; lia | reflexivity].
Qed.

(** A mesh file that ends with its vertex count: the first chunk read of
    the vertex loop returns 0 and the call returns false. *)
Lemma updateMeshFromBobj_no_payload m gzf bufferVerts bufferNormals bufferTriangles
    (V : nat) :
  gz_rest gzf <> [] ->
  drop 4 (gz_rest gzf) = [] ->
  bobj_vertex_count gzf = Z.of_nat V ->
  (0 < V)%nat ->
  0 < numChunksOf (Z.of_nat V) NODE_CHUNK ->
  updateMeshFromBobj m (Some gzf) bufferVerts bufferNormals bufferTriangles
  = Returned false
      (set_mMeshNodes
         (take V (mMeshNodes m) ++ replicate (V - length (mMeshNodes m)) Node_zero) m).
Proof.
  intros Hnonempty Hdrop Hcount Hpos Hchunks.
  pose proof (to_int32_range
                (le_decode (take 4 (drop (Z.to_nat (4 * 0))
                   (overwrite (take 4 (gz_rest gzf)) (encode_int 0)))))) as Hrange.
  fold (int_at (overwrite (take 4 (gz_rest gzf)) (encode_int 0)) 0) in Hrange.
  fold (bobj_vertex_count gzf) in Hrange. rewrite Hcount in Hrange.
  unfold updateMeshFromBobj, bobj_vertex_count in *.
  rewrite (gzread_fits gzf (encode_int 0) 4) by const_len.
  change (Z.to_nat 4) with 4%nat. rewrite Hdrop.
  cbv beta iota zeta.
  destruct (Z.of_nat (length (take 4 (gz_rest gzf))) =? 0) eqn:E.
  { apply Z.eqb_eq in E. rewrite length_take in E.
    destruct (gz_rest gzf); [done | cbn in E; lia]. }
  rewrite Hcount.
  destruct (Z.of_nat V =? 0) eqn:E0; [apply Z.eqb_eq in E0; lia |].
  rewrite resize_nat.
  destruct (Z.to_nat (numChunksOf (Z.of_nat V) NODE_CHUNK)) as [| n] eqn:En; [lia |].
  rewrite chunk_loop_read_zero; [reflexivity | lia |].
  rewrite gzread_empty. cbn [snd].
  assert (Hlen : 0 <= (if Z.of_nat V <? NODE_CHUNK then Z.of_nat V
                       else NODE_CHUNK) * 12 < 2 ^ 31).
  { unfold NODE_CHUNK.
    destruct (Z.of_nat V <? 20000) eqn:E'; [apply Z.ltb_lt in E' |]; lia. }
  rewrite Z.mod_small by lia.
  destruct (2 ^ 31 <=? _) eqn:E'; [apply Z.leb_le in E'; lia | reflexivity].
Qed.

Lemma updateGridFromRaw_unfold ndebug m gzf grid isNoise :
  updateGridFromRaw ndebug m (Some gzf) grid isNoise =
    let r := gzread gzf grid (expectedBytes m isNoise) in
    if r.2 =? 0 then Returned false r.1.2
    else if negb ndebug && negb (expectedBytes m isNoise =? r.2)
    then Thrown AssertionFailure
    else Returned (gz_status r.1.1 =? Z_OK) r.1.2.
Proof.
  unfold updateGridFromRaw, expectedBytes. cbv zeta.
  by destruct (gzread gzf grid _) as [[gzf' grid'] readBytes].
Qed.

(** A read that returns 0 leaves the buffer as it was. *)
Lemma gzread_zero_buffer f buf len :
  (gzread f buf len).2 = 0 -> (gzread f buf len).1.2 = buf.
Proof.
  unfold gzread. destruct (2 ^ 31 <=? len mod 2 ^ 32); cbn [fst snd]; [done |].
  intros Hzero. destruct (take _ (gz_rest f)); [apply overwrite_nil | done].
Qed.

(** C6, as stated, fails: a read that delivers fewer bytes than asked for,
    but not none, is not noticed.  The particle snapshot announces two
    records and holds 17 bytes of payload: the chunk read returns 17 instead
    of 32 and the call returns true.  The raw grid file holds 4 of the 8
    bytes expected: in a build with NDEBUG the call returns true. *)
Lemma short_read_not_rejected :
  (gzread (uni_payload truncated_particles_file) (i_chunk ex_indeterminate) (2 * 16)).2 = 17
  /\ (exists m', updateParticlesFromUni ex_MANTA (Some truncated_particles_file)
                   false false ex_indeterminate = Returned true m')
  /\ expectedBytes ex_MANTA false = 8
  /\ (gzread short_raw_file ex_grid (expectedBytes ex_MANTA false)).2 = 4
  /\ (exists grid', updateGridFromRaw true ex_MANTA (Some short_raw_file) ex_grid false
                    = Returned true grid').
Proof.
  split; [vm_compute; reflexivity |].
  split; [eexists; vm_compute; reflexivity |].
  split; [vm_compute; reflexivity |].
  split; [vm_compute; reflexivity |].
  eexists; vm_compute; reflexivity.
Qed.

(** ** updateMeshFromBobj: a file that holds all it announces *)

Lemma gzread_count (c : Z) rest status numBuffer :
  is_int32 c = true -> length numBuffer = 4%nat ->
  gzread (mk_gzFile (mem_words [c] ++ rest) status) numBuffer 4
  = (mk_gzFile rest status, mem_words [c], 4).
Proof.
  intros Hc Hlen. rewrite gzread_fits by const_len. cbn [gz_rest gz_status].
  change (Z.to_nat 4) with (length (mem_words [c])).
  rewrite take_app_length, drop_app_length.
  unfold overwrite. rewrite drop_ge, app_nil_r by (rewrite Hlen; done).
  reflexivity.
Qed.

Lemma int_at_count (c : Z) : is_int32 c = true -> int_at (mem_words [c]) 0 = c.
Proof.
  intros Hc. pose proof (int_at_mem_words [c] [] 0 c eq_refl Hc) as H.
  by rewrite app_nil_r in H.
Qed.

Lemma record_bytes_app (recSize : Z) (a b : list byte) (i : nat) :
  (i * Z.to_nat recSize + Z.to_nat recSize <= length a)%nat ->
  record_bytes recSize (a ++ b) i = record_bytes recSize a i.
Proof.
  intros Hi. unfold record_bytes.
  rewrite !(take_drop_commute _ (Z.to_nat recSize)).
  by rewrite take_app_le by lia.
Qed.

(** A mesh file with as many normals as vertices, whose three arrays are
    complete and whose counts the chunks reach: the call returns what
    [gzclose] says, node [i] holds vertex [i] and normal [i] of the file,
    and triangle [i] holds triangle [i] of the file. *)
Lemma updateMeshFromBobj_complete m status (V W : nat) vb nb tb
    bufferVerts bufferNormals bufferTriangles :
  (0 < V)%nat -> (0 < W)%nat -> Z.of_nat V < 2 ^ 31 -> Z.of_nat W < 2 ^ 31 ->
  length vb = (V * 12)%nat -> length nb = (V * 12)%nat -> length tb = (W * 12)%nat ->
  Z.of_nat V <= numChunksOf (Z.of_nat V) NODE_CHUNK * NODE_CHUNK ->
  Z.of_nat W <= numChunksOf (Z.of_nat W) TRIANGLE_CHUNK * TRIANGLE_CHUNK ->
  exists nodes tris,
    updateMeshFromBobj m
      (Some (mk_gzFile (mem_words [Z.of_nat V] ++ vb ++ mem_words [Z.of_nat V] ++ nb
                        ++ mem_words [Z.of_nat W] ++ tb) status))
      bufferVerts bufferNormals bufferTriangles
    = Returned (status =? Z_OK) (set_mMeshTriangles tris (set_mMeshNodes nodes m))
    /\ length nodes = V /\ length tris = W
    /\ (forall i, (i < V)%nat ->
          nodes !! i = Some (mk_Node (decode_float3 (record_bytes 12 vb i))
                                     (decode_float3 (record_bytes 12 nb i))))
    /\ (forall i, (i < W)%nat ->
          tris !! i = Some (mk_Triangle (decode_int3 (record_bytes 12 tb i)))).
Proof.
  intros HV HW HV31 HW31 Hvb Hnb Htb HchunksV HchunksW.
  assert (HVint : is_int32 (Z.of_nat V) = true).
  { unfold is_int32. apply andb_true_iff. rewrite Z.leb_le, Z.ltb_lt.
    assert (0 < 2 ^ 31) by reflexivity. lia. }
  assert (HWint : is_int32 (Z.of_nat W) = true).
  { unfold is_int32. apply andb_true_iff. rewrite Z.leb_le, Z.ltb_lt.
    assert (0 < 2 ^ 31) by reflexivity. lia. }
  assert (HVnz : (Z.of_nat V =? 0) = false) by (apply Z.eqb_neq; lia).
  assert (HWnz : (Z.of_nat W =? 0) = false) by (apply Z.eqb_neq; lia).
  set (ncV := Z.to_nat (numChunksOf (Z.of_nat V) NODE_CHUNK)) in *.
  set (ncW := Z.to_nat (numChunksOf (Z.of_nat W) TRIANGLE_CHUNK)) in *.
  assert (HminV : (V `min` (ncV * Z.to_nat NODE_CHUNK) = V)%nat)
    by (unfold ncV, NODE_CHUNK in *; lia).
  assert (HminW : (W `min` (ncW * Z.to_nat TRIANGLE_CHUNK) = W)%nat)
    by (unfold ncW, TRIANGLE_CHUNK in *; lia).
  unfold updateMeshFromBobj.
  (* vertices *)
  rewrite gzread_count by done. cbv beta iota zeta.
  rewrite (int_at_count _ HVint), HVnz, resize_nat. cbn [negb Z.eqb].
  fold ncV.
  set (nodes0 := take V (mMeshNodes m) ++ replicate (V - length (mMeshNodes m)) Node_zero).
  set (R1 := mem_words [Z.of_nat V] ++ nb ++ mem_words [Z.of_nat W] ++ tb).
  destruct (chunk_loop_spec NODE_CHUNK 12 3 store_vertex put_vertex
              ltac:(reflexivity) ltac:(reflexivity) ltac:(reflexivity)
              store_vertex_put ncV V V (mk_gzFile (vb ++ R1) status) bufferVerts nodes0)
    as (gzf1 & nodes1 & -> & Hlen1 & Hrest1 & Hstatus1 & Hget1);
    [lia | apply resize_length | lia | cbn [gz_rest]; rewrite length_app; lia |].
  rewrite HminV in Hrest1, Hget1. cbn [gz_rest gz_status] in Hrest1, Hstatus1, Hget1.
  change (Z.to_nat 12) with 12%nat in Hrest1.
  rewrite <- Hvb, drop_app_length in Hrest1.
  destruct gzf1 as [rest1 status1]. cbn [gz_rest gz_status] in Hrest1, Hstatus1.
  subst rest1 status1. unfold R1.
  (* normals *)
  rewrite gzread_count by done. cbv beta iota zeta.
  rewrite (int_at_count _ HVint), HVnz.
  unfold getNumVertices. cbn [mMeshNodes set_mMeshNodes].
  rewrite Hlen1, HVnz.
  set (R2 := mem_words [Z.of_nat W] ++ tb).
  destruct (chunk_loop_spec NODE_CHUNK 12 3 store_normal put_normal
              ltac:(reflexivity) ltac:(reflexivity) ltac:(reflexivity)
              store_normal_put ncV V V (mk_gzFile (nb ++ R2) status) bufferNormals nodes1)
    as (gzf2 & nodes2 & -> & Hlen2 & Hrest2 & Hstatus2 & Hget2);
    [lia | done | lia | cbn [gz_rest]; rewrite length_app; lia |].
  rewrite HminV in Hrest2, Hget2. cbn [gz_rest gz_status] in Hrest2, Hstatus2, Hget2.
  change (Z.to_nat 12) with 12%nat in Hrest2.
  rewrite <- Hnb, drop_app_length in Hrest2.
  destruct gzf2 as [rest2 status2]. cbn [gz_rest gz_status] in Hrest2, Hstatus2.
  subst rest2 status2. unfold R2.
  (* triangles *)
  rewrite gzread_count by done. cbv beta iota zeta.
  rewrite (int_at_count _ HWint), HWnz, resize_nat.
  cbn [mMeshTriangles set_mMeshNodes]. fold ncW.
  set (tris0 := take W (mMeshTriangles m)
                ++ replicate (W - length (mMeshTriangles m)) Triangle_zero).
  destruct (chunk_loop_spec TRIANGLE_CHUNK 12 3 store_triangle put_triangle
              ltac:(reflexivity) ltac:(reflexivity) ltac:(reflexivity)
              store_triangle_put ncW W W (mk_gzFile tb status) bufferTriangles tris0)
    as (gzf3 & tris & -> & Hlen3 & _ & Hstatus3 & Hget3);
    [lia | apply resize_length | lia | cbn [gz_rest]; lia |].
  rewrite HminW in Hget3. cbn [gz_rest gz_status] in Hstatus3, Hget3.
  unfold gzclose. rewrite Hstatus3.
  exists nodes2, tris. split; [reflexivity |]. split; [done |]. split; [done |].
  split.
  - intros i Hi. rewrite Hget2, Hget1, !Nat.sub_diag, !Nat.add_0_l, !Nat.sub_0_r.
    rewrite !decide_True by lia.
    destruct (lookup_lt_is_Some_2 nodes0 i) as [x ->];
      [unfold nodes0; rewrite resize_length; lia |].
    cbn [fmap option_fmap option_map]. unfold put_normal, put_vertex. cbn [pos].
    by rewrite !record_bytes_app by (change (Z.to_nat 12) with 12%nat; lia).
  - intros i Hi. rewrite Hget3, !Nat.sub_diag, !Nat.add_0_l, !Nat.sub_0_r.
    rewrite decide_True by lia.
    destruct (lookup_lt_is_Some_2 tris0 i) as [x ->];
      [unfold tris0; rewrite resize_length; lia | reflexivity].
Qed.

(** The normal loop runs on the number of chunks of the vertices.  A mesh
    file with no vertex and one normal, [(0.0, 0.0, 1.0)], makes the call
    return true with the one node that [resize] made, its normal never
    read. *)
Lemma updateMeshFromBobj_normals_not_read :
  updateMeshFromBobj ex_MANTA (Some (bobj_file [] [[0; 0; 1065353216]] []))
    (replicate 24 Byte.xee) (replicate 24 Byte.xee) (replicate 24 Byte.xee)
  = Returned true (set_mMeshNodes [Node_zero] ex_MANTA)
  /\ decode_float3 (mem_words [0; 0; 1065353216]) <> normal Node_zero.
Proof. split; [vm_compute; reflexivity | vm_compute; discriminate]. Qed.

(** ** escapeSlashes *)

Lemma escapeSlashes_loop_chars s result :
  chars (escapeSlashes_loop s result) = chars result ++ (chars s ≫= escaped).
Proof.
  revert result. induction s as [| c s IH]; intros result; simpl.
  - by rewrite app_nil_r.
  - rewrite IH. unfold escaped at 2.
    destruct (Ascii.eqb c backslash); rewrite chars_app; simpl;
      by rewrite <- (assoc_L (++)).
Qed.

Lemma escapeSlashes_chars s : chars (escapeSlashes s) = chars s ≫= escaped.
Proof. unfold escapeSlashes. by rewrite escapeSlashes_loop_chars. Qed.

Lemma escaped_length (l : list ascii) :
  length (l ≫= escaped) = (length l + length (filter (fun c => c = backslash) l))%nat.
Proof.
  induction l as [| c l IH]; [done |].
  rewrite bind_cons, length_app, IH, filter_cons. unfold escaped.
  destruct (Ascii.eqb_spec c backslash) as [-> | Hc].
  - rewrite decide_True by done. cbn [length]. lia.
  - rewrite decide_False by done. cbn [length]. lia.
Qed.

Lemma escaped_plain (l : list ascii) : backslash ∉ l -> l ≫= escaped = l.
Proof.
  induction l as [| c l IH]; [done |].
  rewrite not_elem_of_cons. intros [Hc Hl]. rewrite bind_cons, IH by done.
  unfold escaped. destruct (Ascii.eqb_spec c backslash) as [-> | _]; done.
Qed.

Lemma escaped_inj (a b : list ascii) : a ≫= escaped = b ≫= escaped -> a = b.
Proof.
  revert b. induction a as [| x a IH]; intros [| y b]; rewrite ?bind_cons.
  - done.
  - unfold escaped. by destruct (Ascii.eqb y backslash).
  - unfold escaped. by destruct (Ascii.eqb x backslash).
  - unfold escaped.
    destruct (Ascii.eqb_spec x backslash) as [-> | Hx],
             (Ascii.eqb_spec y backslash) as [-> | Hy]; cbn [app].
    + intros [= H]. f_equal. by apply IH.
    + intros [= H _]. by destruct Hy.
    + intros [= H _]. by destruct Hx.
    + intros [= -> H]. f_equal. by apply IH.
Qed.

(** X1: Escaping a path piece by piece is escaping the whole path. *)
Theorem escapeSlashes_app a b :
  escapeSlashes (a +:+ b) = escapeSlashes a +:+ escapeSlashes b.
Proof.
  apply chars_inj. by rewrite chars_app, !escapeSlashes_chars, chars_app, bind_app.
Qed.

Theorem escapeSlashes_length s :
  String.length (escapeSlashes s)
  = (String.length s + count_char backslash s)%nat.
Proof.
  by rewrite !chars_length, escapeSlashes_chars, escaped_length.
Qed.

(** X2: [escapeSlashes] returns its argument unchanged exactly when the argument
    holds no backslash. *)
Theorem escapeSlashes_fixed s :
  escapeSlashes s = s <-> has_char backslash s = false.
Proof.
  unfold has_char. rewrite bool_decide_eq_false. split.
  - intros H Hin.
    pose proof (escaped_length (chars s)) as Hlen.
    rewrite <- escapeSlashes_chars, H in Hlen.
    assert (Hnil : filter (fun c => c = backslash) (chars s) = []).
    { apply nil_length_inv. lia. }
    assert (Hf : backslash ∈ filter (fun c => c = backslash) (chars s)).
    { by apply list_elem_of_filter. }
    rewrite Hnil in Hf. by apply elem_of_nil in Hf.
  - intros H. apply chars_inj. rewrite escapeSlashes_chars. by apply escaped_plain.
Qed.

(** X3: [escapeSlashes] loses nothing: two strings with the same escaped form are
    the same string. *)
Theorem escapeSlashes_inj a b : escapeSlashes a = escapeSlashes b -> a = b.
Proof.
  intros H. apply chars_inj, escaped_inj. by rewrite <- !escapeSlashes_chars, H.
Qed.

(** ** parseScript *)

Lemma has_char_cons ch c s :
  has_char ch (String c s) = false <-> c <> ch /\ has_char ch s = false.
Proof.
  unfold has_char. rewrite !bool_decide_eq_false. cbn [String.list_ascii_of_string].
  rewrite not_elem_of_cons. split; intros [H1 H2]; split; congruence.
Qed.

Lemma read_line_app line rest :
  has_char newline line = false ->
  read_line (line +:+ String newline rest) = (line, rest).
Proof.
  induction line as [| c line IH]; [done |].
  rewrite has_char_cons. intros [Hc Hline]. simpl.
  destruct (Ascii.eqb_spec c newline) as [-> | _]; [done |].
  by rewrite IH.
Qed.

Lemma read_line_last line :
  has_char newline line = false -> read_line line = (line, "").
Proof.
  induction line as [| c line IH]; [done |].
  rewrite has_char_cons. intros [Hc Hline]. cbn.
  destruct (Ascii.eqb_spec c newline) as [-> | _]; [done |].
  by rewrite IH.
Qed.

(** What [getline] leaves of a stream is shorter than the stream; the line
    is not longer. *)
Lemma read_line_length c f :
  (String.length (read_line (String c f)).2 <= String.length f)%nat
  /\ (String.length (read_line (String c f)).1 <= S (String.length f))%nat.
Proof.
  revert c. induction f as [| c' f IH]; intros c.
  - cbn. destruct (Ascii.eqb c newline); cbn; lia.
  - change (read_line (String c (String c' f)))
      with (if Ascii.eqb c newline then (EmptyString, String c' f)
            else let '(line, rest) := read_line (String c' f) in (String c line, rest)).
    destruct (Ascii.eqb c newline); [cbn [fst snd String.length]; lia |].
    specialize (IH c'). destruct (read_line (String c' f)) as [line rest].
    cbn [fst snd String.length] in *. lia.
Qed.

Lemma read_line_free ch c f :
  has_char ch (String c f) = false ->
  has_char ch (read_line (String c f)).1 = false
  /\ has_char ch (read_line (String c f)).2 = false.
Proof.
  revert c. induction f as [| c' f IH]; intros c.
  - cbn [read_line]. destruct (Ascii.eqb c newline); cbn [fst snd]; [done |].
    intros H. split; [done |]. by apply has_char_cons in H as [_ H].
  - change (read_line (String c (String c' f)))
      with (if Ascii.eqb c newline then (EmptyString, String c' f)
            else let '(line, rest) := read_line (String c' f) in (String c line, rest)).
    rewrite has_char_cons. intros [Hc Hf].
    destruct (Ascii.eqb c newline); cbn [fst snd]; [done |].
    specialize (IH c' Hf). destruct (read_line (String c' f)) as [line rest].
    cbn [fst snd] in *. split; [| apply IH]. apply has_char_cons. split; [done | apply IH].
Qed.

Lemma read_line_terminated c f :
  terminated (String c f)
  = (read_line (String c f)).1
    +:+ String newline (terminated (read_line (String c f)).2).
Proof.
  revert c. induction f as [| c' f IH]; intros c.
  - cbn. by destruct (Ascii.eqb_spec c newline) as [-> | _].
  - change (read_line (String c (String c' f)))
      with (if Ascii.eqb c newline then (EmptyString, String c' f)
            else let '(line, rest) := read_line (String c' f) in (String c line, rest)).
    change (terminated (String c (String c' f)))
      with (String c (terminated (String c' f))).
    destruct (Ascii.eqb_spec c newline) as [-> | Hc]; [done |].
    rewrite IH. by destruct (read_line (String c' f)) as [line rest].
Qed.

Lemma has_delimiter_has_char s : has_delimiter s = has_char delimiter s.
Proof.
  induction s as [| c s IH]; [done |].
  cbn [has_delimiter]. rewrite IH. unfold has_char.
  cbn [String.list_ascii_of_string].
  destruct (Ascii.eqb_spec c delimiter) as [-> | Hc]; cbn [orb].
  - symmetry. apply bool_decide_eq_true. left.
  - apply bool_decide_ext. rewrite elem_of_cons. split; [tauto |].
    intros [E | H]; [congruence | done].
Qed.

Section ScriptTextProperties.

Context (FluidModifierData : Type).
Context (known_value : MANTA -> FluidModifierData -> string -> string).
Context (m : MANTA) (mmd : option FluidModifierData).

Local Abbreviation parseLine' := (parseLine FluidModifierData known_value m).
Local Abbreviation parseScript_loop' :=
  (parseScript_loop FluidModifierData known_value m mmd).
Local Abbreviation parseScript' := (parseScript FluidModifierData known_value m).

(** A line without the delimiter comes back as it is. *)
Lemma parseLine_plain line :
  Z.of_nat (String.length line) < 2 ^ 31 ->
  has_delimiter line = false ->
  parseLine' line mmd = inr (line, []).
Proof.
  intros Hsize Hfree. unfold parseLine.
  destruct (String.length line =? 0)%nat eqn:E.
  - apply Nat.eqb_eq in E. destruct line; [done | discriminate].
  - rewrite <- (Nat.add_0_r (String.length line)).
    rewrite parse_loop_skip; [| lia |]; cycle 1.
    { intros i _. by apply has_delimiter_chars. }
    cbn [parse_loop].
    assert (H32 : 2 ^ 31 < 2 ^ 32) by reflexivity.
    destruct (substr_inside line (-1 + 1)
                (Z.of_nat (String.length line + 0) - -1))
      as (tail & -> & Htail); [lia.. |].
    change ("" +:+ tail) with tail. f_equal. f_equal. apply chars_inj.
    rewrite Htail.
    change (Z.to_nat (-1 + 1)) with 0%nat. rewrite drop_0.
    apply take_ge. rewrite <- chars_length. lia.
Qed.

(** What the loop has written so far stays in front of what it writes. *)
Lemma parseScript_loop_acc (n : nat) f res log :
  parseScript_loop' n f res log
  = match parseScript_loop' n f "" [] with
    | inl e => inl e
    | inr (text, err) => inr (res +:+ text, log ++ err)
    end.
Proof.
  revert f res log. induction n as [| n IH]; intros f res log.
  - cbn. by rewrite append_nil_r, app_nil_r.
  - cbn [parseScript_loop]. destruct (getline f) as [[line f'] |]; cycle 1.
    { by rewrite append_nil_r, app_nil_r. }
    destruct (parseLine' line mmd) as [e | [text err]]; [done |].
    rewrite IH. rewrite (IH f' ("" +:+ _)).
    destruct (parseScript_loop' n f' "" []) as [e | [text' err']]; [done |].
    change ("" +:+ text +:+ String newline "") with (text +:+ String newline "").
    by rewrite !append_assoc, <- (assoc_L (++)).
Qed.

(** The bound on the number of lines does not matter once it exceeds the
    length of the stream. *)
Lemma parseScript_loop_fuel (n n' : nat) f res log :
  (String.length f < n)%nat -> (String.length f < n')%nat ->
  parseScript_loop' n f res log = parseScript_loop' n' f res log.
Proof.
  revert n' f res log. induction n as [| n IH]; intros n' f res log Hn Hn'; [lia |].
  destruct n' as [| n']; [lia |]. cbn [parseScript_loop].
  destruct f as [| c f]; [done |]. cbn [getline].
  pose proof (read_line_length c f) as [Hrest _].
  destruct (read_line (String c f)) as [line rest]. cbn [fst snd String.length] in *.
  destruct (parseLine' line mmd) as [e | [text err]]; [done |].
  apply IH; lia.
Qed.

Lemma parseScript_empty : parseScript' "" mmd = inr ("", []).
Proof. reflexivity. Qed.

(** X4: [parseScript] works line by line: the first line goes through
    [parseLine] and gets a newline, the rest of the script follows. *)
Theorem parseScript_first_line line rest :
  has_char newline line = false ->
  parseScript' (line +:+ String newline rest) mmd
  = match parseLine' line mmd with
    | inl e => inl e
    | inr (text, err) =>
        match parseScript' rest mmd with
        | inl e => inl e
        | inr (res, log) => inr (text +:+ String newline res, err ++ log)
        end
    end.
Proof.
  intros Hline. unfold parseScript at 1. cbn [parseScript_loop].
  assert (Hget : getline (line +:+ String newline rest) = Some (line, rest)).
  { rewrite <- (read_line_app line rest Hline). by destruct line. }
  rewrite Hget. destruct (parseLine' line mmd) as [e | [text err]]; [done |].
  unfold parseScript. rewrite parseScript_loop_acc.
  rewrite (parseScript_loop_fuel _ (S (String.length rest))); cycle 1.
  { rewrite !chars_length, chars_app, length_app. cbn [String.list_ascii_of_string length]. lia. }
  { lia. }
  destruct (parseScript_loop' _ rest "" []) as [e | [res log]]; [done |].
  change ("" +:+ text +:+ String newline "") with (text +:+ String newline "").
  by rewrite append_assoc.
Qed.

(** A last line that has no newline is given one. *)
Theorem parseScript_last_line line :
  has_char newline line = false -> line <> "" ->
  parseScript' line mmd
  = match parseLine' line mmd with
    | inl e => inl e
    | inr (text, err) => inr (text +:+ String newline "", err)
    end.
Proof.
  intros Hline Hne. unfold parseScript. cbn [parseScript_loop].
  assert (Hget : getline line = Some (line, "")).
  { rewrite <- (read_line_last line Hline). by destruct line. }
  rewrite Hget. destruct (parseLine' line mmd) as [e | [text err]]; [done |].
  by destruct (String.length line).
Qed.

(** The loop over a stream without the delimiter. *)
Lemma parseScript_loop_plain (n : nat) f :
  (String.length f < n)%nat ->
  Z.of_nat (String.length f) < 2 ^ 31 ->
  has_delimiter f = false ->
  parseScript_loop' n f "" [] = inr (terminated f, []).
Proof.
  revert f. induction n as [| n IH]; intros f Hn Hsize Hfree; [lia |].
  cbn [parseScript_loop]. destruct f as [| c f]; [done |]. cbn [getline].
  rewrite has_delimiter_has_char in Hfree.
  pose proof (read_line_length c f) as [Hrest Hline].
  pose proof (read_line_free _ c f Hfree) as [Hfree1 Hfree2].
  rewrite (read_line_terminated c f).
  destruct (read_line (String c f)) as [line rest]. cbn [fst snd String.length] in *.
  rewrite parseLine_plain; [| lia | by rewrite has_delimiter_has_char].
  rewrite parseScript_loop_acc, IH; [| lia | lia | by rewrite has_delimiter_has_char].
  change ("" +:+ line +:+ String newline "") with (line +:+ String newline "").
  rewrite append_assoc. by cbn [app].
Qed.

(** X5: A script without variables is returned as it is, but for the newline
    that its last line may lack. *)
Theorem parseScript_no_delimiter script :
  Z.of_nat (String.length script) < 2 ^ 31 ->
  has_delimiter script = false ->
  parseScript' script mmd = inr (terminated script, []).
Proof.
  intros Hsize Hfree. unfold parseScript.
  by apply parseScript_loop_plain; [lia | |].
Qed.

Lemma parseScript_loop_total (n : nat) f res log :
  Z.of_nat (String.length f) < 2 ^ 31 ->
  exists text err, parseScript_loop' n f res log = inr (text, err).
Proof.
  revert f res log. induction n as [| n IH]; intros f res log Hsize.
  - by eexists _, _.
  - cbn [parseScript_loop]. destruct f as [| c f]; [by eexists _, _ |]. cbn [getline].
    pose proof (read_line_length c f) as [Hrest Hline].
    destruct (read_line (String c f)) as [line rest]. cbn [fst snd String.length] in *.
    destruct (parseLine_total FluidModifierData known_value m mmd line)
      as (text & err & ->); [lia |].
    apply IH. lia.
Qed.

(** X6: [parseScript] does not throw on a script whose length fits an [int]. *)
Theorem parseScript_total script :
  Z.of_nat (String.length script) < 2 ^ 31 ->
  exists text err,
    parseScript FluidModifierData known_value m script mmd = inr (text, err).
Proof. intros Hsize. by apply parseScript_loop_total. Qed.

End ScriptTextProperties.

(** ** parseLine: unclosed variables, the first variable, null modifier data *)

Section ScriptMoreProperties.

Context (FluidModifierData : Type).
Context (known_value : MANTA -> FluidModifierData -> string -> string).
Context (m : MANTA) (mmd : option FluidModifierData).

Local Abbreviation parse_loop' := (parse_loop FluidModifierData known_value m).
Local Abbreviation parseLine' := (parseLine FluidModifierData known_value m).
Local Abbreviation getRealValue' := (getRealValue FluidModifierData known_value m).

(** A delimiter that is never closed: the text before it is written when
    the delimiter is met, and once more with the whole line at the end,
    since no closing delimiter moved the start of the final piece. *)
Lemma parseLine_unclosed_delimiter pre rest :
  Z.of_nat (String.length (pre +:+ "$" +:+ rest)) < 2 ^ 31 ->
  has_delimiter pre = false ->
  has_delimiter rest = false ->
  parseLine' (pre +:+ "$" +:+ rest) mmd
  = inr (pre +:+ pre +:+ "$" +:+ rest, []).
Proof.
  set (line := pre +:+ "$" +:+ rest).
  intros Hsize Hpre Hrest.
  assert (H32 : 2 ^ 31 < 2 ^ 32) by reflexivity.
  assert (Hline : chars line = chars pre ++ delimiter :: chars rest).
  { unfold line. by rewrite !chars_app. }
  assert (Hlen : String.length line
            = (length (chars pre) + S (length (chars rest) + 0))%nat).
  { rewrite (chars_length line), Hline, length_app. cbn [length]. lia. }
  set (a := length (chars pre)) in *.
  set (b := length (chars rest)) in *.
  assert (Hfree_pre : forall i, (i < a)%nat -> chars line !! i <> Some delimiter).
  { intros i Hi. rewrite Hline, lookup_app_l by done.
    by apply has_delimiter_chars. }
  assert (Hopen : chars line !! a = Some delimiter).
  { rewrite Hline. by rewrite list_lookup_middle. }
  assert (Hfree_rest : forall i, (i < b)%nat ->
            chars line !! (S a + i)%nat <> Some delimiter).
  { intros i Hi. rewrite Hline, lookup_app_r by (unfold a; lia).
    replace (S a + i - length (chars pre))%nat with (S i) by (unfold a; lia).
    rewrite lookup_cons_ne_0 by done. cbn [Nat.pred].
    by apply has_delimiter_chars. }
  unfold parseLine.
  destruct (String.length line =? 0)%nat eqn:E;
    [apply Nat.eqb_eq in E; lia |].
  rewrite Hlen.
  rewrite parse_loop_skip; [| lia | by intros i Hi; apply Hfree_pre].
  destruct (parse_loop_open FluidModifierData known_value m mmd
              line (b + 0) (0 + Z.of_nat a) 0 (-1) "" []) as (piece & Hpiece & ->);
    [lia | lia | lia | by rewrite Z.add_0_l, Nat2Z.id |].
  assert (piece = pre) as ->.
  { apply chars_inj. rewrite Hpiece, Hline.
    change (Z.to_nat (-1 + 1)) with 0%nat. rewrite drop_0.
    replace (Z.to_nat (0 + Z.of_nat a - -1 - 1)) with a by lia.
    by apply take_app_length'. }
  change ("" +:+ pre) with pre.
  rewrite parse_loop_skip; [| lia |]; cycle 1.
  { intros i Hi.
    replace (Z.to_nat (0 + Z.of_nat a + 1) + i)%nat with (S a + i)%nat by lia.
    by apply Hfree_rest. }
  cbn [parse_loop].
  destruct (substr_inside line (-1 + 1) (Z.of_nat (a + S (b + 0)) - -1))
    as (tail & -> & Htail); [lia.. |].
  assert (tail = line) as ->.
  { apply chars_inj. rewrite Htail.
    change (Z.to_nat (-1 + 1)) with 0%nat. rewrite drop_0.
    apply take_ge. rewrite <- chars_length. lia. }
  done.
Qed.

(** X7: A line of a size that fits an [int] with one delimiter that is never
    closed, [pre] before it and [rest] after it: the result is [pre]
    followed by the whole line, with an empty log.  The text before the
    delimiter thus comes twice, and the line is returned as it was exactly
    when it starts with the delimiter. *)
Theorem parseLine_unterminated_variable pre rest :
  Z.of_nat (String.length (pre +:+ "$" +:+ rest)) < 2 ^ 31 ->
  has_delimiter pre = false ->
  has_delimiter rest = false ->
  parseLine' (pre +:+ "$" +:+ rest) mmd
  = inr (pre +:+ pre +:+ "$" +:+ rest, [])
  /\ (parseLine' (pre +:+ "$" +:+ rest) mmd = inr (pre +:+ "$" +:+ rest, [])
      <-> pre = "").
Proof.
  intros Hsize Hpre Hrest.
  rewrite (parseLine_unclosed_delimiter pre rest Hsize Hpre Hrest).
  split; [done |]. split.
  - intros [= Heq]. apply (f_equal chars) in Heq. rewrite chars_app in Heq.
    apply (f_equal length) in Heq. rewrite length_app in Heq.
    destruct pre; [done | cbn [chars length] in Heq; lia].
  - by intros ->.
Qed.

(** X8: The first variable of a line is replaced by what [getRealValue] gives
    for its name; the text after it is parsed as a line of its own. *)
Theorem parseLine_substitutes_first_variable pre name post :
  Z.of_nat (String.length (pre +:+ "$" +:+ name +:+ "$" +:+ post)) < 2 ^ 31 ->
  has_delimiter pre = false ->
  has_delimiter name = false ->
  exists res log,
    parseLine' post mmd = inr (res, log)
    /\ parseLine' (pre +:+ "$" +:+ name +:+ "$" +:+ post) mmd
       = inr (pre +:+ (getRealValue' name mmd).1 +:+ res,
              (getRealValue' name mmd).2 ++ log).
Proof. apply parseLine_first_variable. Qed.

(** [parseLine] throws on no line whose length fits the [int] that indexes
    it, whatever delimiters it holds. *)
Theorem parseLine_never_throws line :
  Z.of_nat (String.length line) < 2 ^ 31 ->
  forall e, parseLine' line mmd <> inl e.
Proof.
  intros Hsize e.
  destruct (parseLine_total FluidModifierData known_value m mmd line Hsize)
    as (res & log & ->).
  discriminate.
Qed.

(** The variable [$ID$] is replaced by the decimal id of the solver
    object, with nothing written to [std::cerr], whatever the modifier data
    (null or not). *)
Theorem parseLine_ID pre post :
  Z.of_nat (String.length (pre +:+ "$" +:+ "ID" +:+ "$" +:+ post)) < 2 ^ 31 ->
  has_delimiter pre = false ->
  exists res log,
    parseLine' post mmd = inr (res, log)
    /\ parseLine' (pre +:+ "$" +:+ "ID" +:+ "$" +:+ post) mmd
       = inr (pre +:+ pretty (mCurrentID m) +:+ res, log).
Proof.
  intros Hsize Hpre.
  destruct (parseLine_first_variable FluidModifierData known_value m mmd
              pre "ID" post Hsize Hpre eq_refl) as (res & log & Hpost & Hline).
  exists res, log. split; [done |]. rewrite Hline. reflexivity.
Qed.

End ScriptMoreProperties.

(** X9: Without modifier data every variable but [$ID$] is replaced by an error
    text, known name or not, and the line is still returned. *)
Theorem parseLine_null_modifier_data (FluidModifierData : Type)
    (known_value : MANTA -> FluidModifierData -> string -> string)
    (m : MANTA) (name pre post : string) :
  name <> "ID" ->
  has_delimiter pre = false ->
  has_delimiter name = false ->
  Z.of_nat (String.length (pre +:+ "$" +:+ name +:+ "$" +:+ post)) < 2 ^ 31 ->
  exists res log,
    parseLine FluidModifierData known_value m post None = inr (res, log)
    /\ parseLine FluidModifierData known_value m
         (pre +:+ "$" +:+ name +:+ "$" +:+ post) None
       = inr (pre +:+ "ERROR - INVALID MODIFIER DATA" +:+ res,
              "Fluid Error -- Invalid modifier data." :: log).
Proof.
  intros Hname Hpre Hfree Hsize.
  destruct (parseLine_first_variable FluidModifierData known_value m None
              pre name post Hsize Hpre Hfree) as (res & log & Hpost & Hline).
  exists res, log. split; [done |]. rewrite Hline.
  unfold getRealValue. by rewrite bool_decide_eq_false_2.
Qed.

(** ** updateParticlesFromUni: a complete PB02 payload *)

(** X10: A PB02 snapshot that holds its records, in a number that the chunks
    reach, is read in full: the call returns what [gzclose] says and
    element [i] of the particle data is record [i] of the file. *)
Theorem updateParticlesFromUni_PB02_reads_records m gzf isSecondarySys isVelData u
    (N : nat) :
  magic_readable gzf = true ->
  has_magic gzf "PB02" ->
  header_sane gzf u = true ->
  header_count gzf u = Z.of_nat N ->
  (0 < N)%nat ->
  (N * 16 <= length (gz_rest (uni_payload gzf)))%nat ->
  Z.of_nat N <= numChunksOf (Z.of_nat N) PARTICLE_CHUNK * PARTICLE_CHUNK ->
  exists data,
    updateParticlesFromUni m (Some gzf) isSecondarySys isVelData u
    = Returned (gz_status gzf =? Z_OK) (set_dataPointer isSecondarySys data m)
    /\ length data = N
    /\ forall i, (i < N)%nat ->
         data !! i = Some (decode_pData (record_bytes 16 (gz_rest (uni_payload gzf)) i)).
Proof. apply updateParticlesFromUni_PB02_complete. Qed.

(** ** updateParticlesFromUni: the PD01 payloads *)

Lemma PD01_not_PB02 gzf :
  has_magic gzf "PD01" ->
  streq (file_magic_of gzf) "PB01" = false
  /\ streq (file_magic_of gzf) "PB02" = false.
Proof.
  intros H. split; apply (streq_other _ "PD01"); try done; vm_compute; discriminate.
Qed.

Lemma updateParticlesFromUni_PD01_vel_complete m gzf isSecondarySys u (N : nat) :
  magic_readable gzf = true ->
  has_magic gzf "PD01" ->
  header_sane gzf u = true ->
  header_count gzf u = Z.of_nat N ->
  (0 < N)%nat ->
  (N * 12 <= length (gz_rest (uni_payload gzf)))%nat ->
  Z.of_nat N <= numChunksOf (Z.of_nat N) PARTICLE_CHUNK * PARTICLE_CHUNK ->
  exists vel,
    updateParticlesFromUni m (Some gzf) isSecondarySys true u
    = Returned (gz_status gzf =? Z_OK) (set_velocityPointer isSecondarySys vel m)
    /\ length vel = N
    /\ forall i, (i < N)%nat ->
         vel !! i
         = Some (mk_pVel (decode_float3 (record_bytes 12 (gz_rest (uni_payload gzf)) i))).
Proof.
  intros Hread Hmagic Hsane Hcount Hpos Hdata Hchunks.
  pose proof (header_count_range gzf u) as Hrange. rewrite Hcount in Hrange.
  destruct (PD01_not_PB02 gzf Hmagic) as [H01 H02].
  rewrite updateParticlesFromUni_unfold, Hread, Hsane, Hcount, H01.
  cbn [negb].
  destruct (Z.of_nat N =? 0) eqn:E; [apply Z.eqb_eq in E; lia | clear E].
  unfold read_particles. unfold has_magic in Hmagic. rewrite H02, Hmagic.
  cbn [andb]. rewrite resize_nat.
  set (vel0 := take N (velocityPointer m isSecondarySys)
               ++ replicate (N - length (velocityPointer m isSecondarySys)) pVel_zero).
  set (nc := Z.to_nat (numChunksOf (Z.of_nat N) PARTICLE_CHUNK)).
  destruct (chunk_loop_spec PARTICLE_CHUNK 12 1 store_pVel put_pVel
              ltac:(reflexivity) ltac:(reflexivity) ltac:(reflexivity)
              store_pVel_put nc N N (uni_payload gzf) (i_chunk u) vel0)
    as (gzf' & vel & Hloop & Hlen & _ & Hstatus & Hget);
    [lia | apply resize_length | lia | exact Hdata |].
  rewrite Hloop. cbn [finish_loop]. unfold gzclose. rewrite Hstatus.
  exists vel. split; [reflexivity |]. split; [done |].
  intros i Hi. rewrite Hget, Nat.sub_diag, Nat.add_0_l, Nat.sub_0_r.
  rewrite decide_True by (unfold nc, PARTICLE_CHUNK in *; lia).
  destruct (lookup_lt_is_Some_2 vel0 i) as [x ->];
    [unfold vel0; rewrite resize_length; lia | reflexivity].
Qed.

(** X11: A PD01 snapshot read as velocities ([isVelData]), with a magic that
    could be read, a sane header, a count [N > 0], at least [N] records of
    12 bytes after the header, and a number of chunks, as the code computes
    it in [float], that reaches the count
    ([N <= numChunks * PARTICLE_CHUNK]): the call returns whether the
    stream closed with [Z_OK], the velocity vector of the chosen particle
    system has [N] elements, and element [i] is record [i]. *)
Theorem updateParticlesFromUni_PD01_velocities m gzf isSecondarySys u (N : nat) :
  magic_readable gzf = true ->
  has_magic gzf "PD01" ->
  header_sane gzf u = true ->
  header_count gzf u = Z.of_nat N ->
  (0 < N)%nat ->
  (N * 12 <= length (gz_rest (uni_payload gzf)))%nat ->
  Z.of_nat N <= numChunksOf (Z.of_nat N) PARTICLE_CHUNK * PARTICLE_CHUNK ->
  exists vel,
    updateParticlesFromUni m (Some gzf) isSecondarySys true u
    = Returned (gz_status gzf =? Z_OK) (set_velocityPointer isSecondarySys vel m)
    /\ length vel = N
    /\ forall i, (i < N)%nat ->
         vel !! i
         = Some (mk_pVel (decode_float3 (record_bytes 12 (gz_rest (uni_payload gzf)) i))).
Proof. apply updateParticlesFromUni_PD01_vel_complete. Qed.

(** X12: A PD01 snapshot read as life times of the secondary particles
    ([isSecondarySys] without [isVelData]), with a magic that could be
    read, a sane header, a count [N > 0], at least [N] floats after the
    header, and a number of chunks, as the code computes it in [float],
    that reaches the count ([N <= numChunks * PARTICLE_CHUNK]): the call
    returns whether the stream closed with [Z_OK], [mSndParticleLife] has
    [N] elements, and element [i] is float [i]. *)
Theorem updateParticlesFromUni_PD01_life m gzf u (N : nat) :
  magic_readable gzf = true ->
  has_magic gzf "PD01" ->
  header_sane gzf u = true ->
  header_count gzf u = Z.of_nat N ->
  (0 < N)%nat ->
  (N * 4 <= length (gz_rest (uni_payload gzf)))%nat ->
  Z.of_nat N <= numChunksOf (Z.of_nat N) PARTICLE_CHUNK * PARTICLE_CHUNK ->
  exists life,
    updateParticlesFromUni m (Some gzf) true false u
    = Returned (gz_status gzf =? Z_OK) (set_mSndParticleLife life m)
    /\ length life = N
    /\ forall i, (i < N)%nat ->
         life !! i = Some (float_at (record_bytes 4 (gz_rest (uni_payload gzf)) i) 0).
Proof.
  intros Hread Hmagic Hsane Hcount Hpos Hdata Hchunks.
  pose proof (header_count_range gzf u) as Hrange. rewrite Hcount in Hrange.
  destruct (PD01_not_PB02 gzf Hmagic) as [H01 H02].
  rewrite updateParticlesFromUni_unfold, Hread, Hsane, Hcount, H01.
  cbn [negb].
  destruct (Z.of_nat N =? 0) eqn:E; [apply Z.eqb_eq in E; lia | clear E].
  unfold read_particles. unfold has_magic in Hmagic. rewrite H02, Hmagic.
  cbn [andb lifePointer]. rewrite resize_nat.
  set (life0 := take N (mSndParticleLife m)
                ++ replicate (N - length (mSndParticleLife m)) 0).
  set (nc := Z.to_nat (numChunksOf (Z.of_nat N) PARTICLE_CHUNK)).
  destruct (chunk_loop_spec PARTICLE_CHUNK 4 1 store_life put_life
              ltac:(reflexivity) ltac:(reflexivity) ltac:(reflexivity)
              store_life_put nc N N (uni_payload gzf) (i_chunk u) life0)
    as (gzf' & life & Hloop & Hlen & _ & Hstatus & Hget);
    [lia | apply resize_length | lia | exact Hdata |].
  rewrite Hloop. cbn [finish_loop]. unfold gzclose. rewrite Hstatus.
  exists life. split; [reflexivity |]. split; [done |].
  intros i Hi. rewrite Hget, Nat.sub_diag, Nat.add_0_l, Nat.sub_0_r.
  rewrite decide_True by (unfold nc, PARTICLE_CHUNK in *; lia).
  destruct (lookup_lt_is_Some_2 life0 i) as [x ->];
    [unfold life0; rewrite resize_length; lia | reflexivity].
Qed.

(** X13: The FLIP system has no life vector: a PD01 snapshot that is not read
    as velocities makes the call go through the null [lifePointer]. *)
Theorem updateParticlesFromUni_PD01_life_of_FLIP m gzf u :
  magic_readable gzf = true ->
  has_magic gzf "PD01" ->
  header_sane gzf u = true ->
  header_count gzf u <> 0 ->
  updateParticlesFromUni m (Some gzf) false false u = Thrown NullPointer.
Proof.
  intros Hread Hmagic Hsane Hcount.
  destruct (PD01_not_PB02 gzf Hmagic) as [H01 H02].
  rewrite updateParticlesFromUni_unfold, Hread, Hsane, H01.
  cbn [negb].
  destruct (header_count gzf u =? 0) eqn:E; [apply Z.eqb_eq in E; lia | clear E].
  unfold read_particles. unfold has_magic in Hmagic. by rewrite H02, Hmagic.
Qed.

(** A header that announces a negative count makes [resize] throw. *)
Theorem updateParticlesFromUni_negative_count m gzf isSecondarySys isVelData u :
  magic_readable gzf = true ->
  has_magic gzf "PB02" ->
  header_sane gzf u = true ->
  header_count gzf u < 0 ->
  updateParticlesFromUni m (Some gzf) isSecondarySys isVelData u = Thrown LengthError.
Proof.
  intros Hread Hmagic Hsane Hcount.
  rewrite updateParticlesFromUni_unfold, Hread, Hsane.
  rewrite (streq_other _ "PB02" "PB01") by (done || (vm_compute; discriminate)).
  cbn [negb].
  destruct (header_count gzf u =? 0) eqn:E; [apply Z.eqb_eq in E; lia | clear E].
  unfold read_particles. unfold has_magic in Hmagic. rewrite Hmagic.
  unfold resize. by rewrite (proj2 (Z.ltb_lt _ _) Hcount).
Qed.

(** A magic that is none of PB01, PB02 and PD01: the header is checked,
    nothing is read, and the call reports what [gzclose] says (or true at
    once, for a zero count). *)
Theorem updateParticlesFromUni_other_magic m gzf isSecondarySys isVelData u :
  magic_readable gzf = true ->
  ~ has_magic gzf "PB01" -> ~ has_magic gzf "PB02" -> ~ has_magic gzf "PD01" ->
  header_sane gzf u = true ->
  updateParticlesFromUni m (Some gzf) isSecondarySys isVelData u
  = Returned (if header_count gzf u =? 0 then true else gz_status gzf =? Z_OK) m.
Proof.
  unfold has_magic. intros Hread H01 H02 HD1 Hsane.
  apply not_true_is_false in H01, H02, HD1.
  rewrite updateParticlesFromUni_unfold, Hread, Hsane, H01. cbn [negb].
  destruct (header_count gzf u =? 0); [done |].
  unfold read_particles. by rewrite H02, HD1.
Qed.

(** ** updateMeshFromUni: the MD01 payload *)

Lemma float_at_overwrite got buf (k : nat) :
  (4 * k + 4 <= length got)%nat ->
  float_at (overwrite got buf) (Z.of_nat k) = float_at got (Z.of_nat k).
Proof.
  intros Hk. unfold float_at, overwrite. f_equal.
  replace (Z.to_nat (4 * Z.of_nat k)) with (4 * k)%nat by lia.
  rewrite drop_app_le by lia. rewrite take_app_le; [done |].
  rewrite length_drop. lia.
Qed.

(** The velocity loop on a stream that holds a record for every element. *)
Lemma read_mesh_velocities_spec vs gzf fbuffer :
  (length vs * 12 <= length (gz_rest gzf))%nat ->
  read_mesh_velocities vs gzf fbuffer
  = (mk_gzFile (drop (length vs * 12) (gz_rest gzf)) (gz_status gzf),
     (fun i => mk_pVel (decode_float3 (record_bytes 12 (gz_rest gzf) i)))
       <$> seq 0 (length vs)).
Proof.
  revert gzf fbuffer. induction vs as [| v vs IH]; intros gzf fbuffer Hlen.
  - cbn. by destruct gzf.
  - cbn [read_mesh_velocities length] in *.
    rewrite (gzread_fits gzf fbuffer (4 * 3)) by (split; [lia | reflexivity]).
    change (Z.to_nat (4 * 3)) with 12%nat.
    rewrite IH; cbn [gz_rest gz_status]; [| rewrite length_drop; lia].
    f_equal.
    + f_equal. rewrite drop_drop. f_equal; lia.
    + cbn [seq fmap list_fmap]. f_equal.
      * unfold decode_float3, record_bytes. change (Z.to_nat 12) with 12%nat.
        rewrite drop_0.
        rewrite (float_at_overwrite _ _ 0), (float_at_overwrite _ _ 1),
          (float_at_overwrite _ _ 2) by (rewrite length_take; lia).
        reflexivity.
      * rewrite <- fmap_S_seq, <- list_fmap_compose. apply list_fmap_ext.
        intros _ i _. cbn. f_equal. f_equal.
        apply (record_bytes_drop 12 (gz_rest gzf) 1 i).
Qed.

(** X14: An MD01 snapshot that holds its [N] records fills the mesh velocities
    with them, whatever [N]: this reader does not work in chunks. *)
Theorem updateMeshFromUni_MD01_velocities m gzf u (N : nat) vel0 :
  magic_readable gzf = true ->
  has_magic gzf "MD01" ->
  header_sane gzf u = true ->
  header_count gzf u = Z.of_nat N ->
  (0 < N)%nat ->
  mMeshVelocities m = Some vel0 ->
  (N * 12 <= length (gz_rest (uni_payload gzf)))%nat ->
  exists vel,
    updateMeshFromUni m (Some gzf) u
    = Returned (gz_status gzf =? Z_OK) (set_mMeshVelocities (Some vel) m)
    /\ length vel = N
    /\ forall i, (i < N)%nat ->
         vel !! i
         = Some (mk_pVel (decode_float3 (record_bytes 12 (gz_rest (uni_payload gzf)) i))).
Proof.
  intros Hread Hmagic Hsane Hcount Hpos Hvel Hdata.
  rewrite updateMeshFromUni_unfold, Hread, Hsane, Hcount, Hvel. cbn [negb].
  destruct (Z.of_nat N =? 0) eqn:E; [apply Z.eqb_eq in E; lia | clear E].
  rewrite (streq_other _ "MD01" "MB01") by (done || (vm_compute; discriminate)).
  unfold has_magic in Hmagic. rewrite Hmagic, resize_nat.
  rewrite read_mesh_velocities_spec; rewrite resize_length; [| done].
  eexists. split; [reflexivity |]. split.
  - by rewrite length_fmap, length_seq.
  - intros i Hi. rewrite list_lookup_fmap, lookup_seq_lt by done. reflexivity.
Qed.

(** The velocity vector of the mesh may be null (no speed vectors in
    use); an MD01 snapshot with a count other than zero is then read
    through the null pointer. *)
Theorem updateMeshFromUni_MD01_null_velocities m gzf u :
  magic_readable gzf = true ->
  has_magic gzf "MD01" ->
  header_sane gzf u = true ->
  header_count gzf u <> 0 ->
  mMeshVelocities m = None ->
  updateMeshFromUni m (Some gzf) u = Thrown NullPointer.
Proof.
  intros Hread Hmagic Hsane Hcount Hvel.
  rewrite updateMeshFromUni_unfold, Hread, Hsane, Hvel. cbn [negb].
  destruct (header_count gzf u =? 0) eqn:E; [apply Z.eqb_eq in E; lia | clear E].
  rewrite (streq_other _ "MD01" "MB01") by (done || (vm_compute; discriminate)).
  unfold has_magic in Hmagic. by rewrite Hmagic.
Qed.

(** Only MD01 is acted upon: with any other magic (MB01 among them) and a
    count other than zero, nothing is read into the solver object and the
    call reports what [gzclose] says. *)
Theorem updateMeshFromUni_other_magic m gzf u :
  magic_readable gzf = true ->
  ~ has_magic gzf "MD01" ->
  header_sane gzf u = true ->
  header_count gzf u <> 0 ->
  updateMeshFromUni m (Some gzf) u = Returned (gz_status gzf =? Z_OK) m.
Proof.
  unfold has_magic. intros Hread Hmagic Hsane Hcount.
  apply not_true_is_false in Hmagic.
  rewrite updateMeshFromUni_unfold, Hread, Hsane, Hmagic. cbn [negb].
  destruct (header_count gzf u =? 0) eqn:E; [apply Z.eqb_eq in E; lia | clear E].
  by destruct (streq (file_magic_of gzf) "MB01").
Qed.

(** ** updateGridFromUni and updateGridFromRaw: the payload *)

Lemma overwrite_full got buf : (length buf <= length got)%nat -> overwrite got buf = got.
Proof. intros H. unfold overwrite. by rewrite drop_ge, app_nil_r. Qed.

(** The number of bytes of a grid of the expected resolution. *)
Lemma expected_res_bytes m isNoise :
  4 * (expected_res m isNoise).1.1 * (expected_res m isNoise).1.2
    * (expected_res m isNoise).2
  = 4 * (if isNoise then mResXNoise m else mResX m)
      * (if isNoise then mResYNoise m else mResY m)
      * (if isNoise then mResZNoise m else mResZ m).
Proof. by destruct isNoise. Qed.

Lemma updateGridFromUni_MNT3 m gzf grid isNoise ibuffer :
  magic_readable gzf = true ->
  has_magic gzf "MNT3" ->
  grid_header_dims gzf ibuffer = expected_res m isNoise ->
  updateGridFromUni m (Some gzf) grid isNoise ibuffer
  = (gz_status gzf =? Z_OK,
     (gzread (mk_gzFile (drop 292 (gz_rest gzf)) (gz_status gzf)) grid
        (4 * (expected_res m isNoise).1.1 * (expected_res m isNoise).1.2
           * (expected_res m isNoise).2)).1.2).
Proof.
  intros Hread Hmagic Hdims.
  rewrite updateGridFromUni_unfold.
  unfold magic_readable in Hread. apply negb_true_iff in Hread. rewrite Hread.
  rewrite !(streq_other _ "MNT3") by (done || (vm_compute; discriminate)).
  unfold has_magic in Hmagic. rewrite Hmagic.
  unfold grid_header_dims in Hdims. cbv zeta in *.
  rewrite <- Hdims. cbn [fst snd]. by rewrite !Z.eqb_refl.
Qed.

(** X15: An MNT3 snapshot of the expected resolution that holds a float for
    every cell: the grid is the payload, byte for byte. *)
Theorem updateGridFromUni_reads_payload m gzf grid isNoise ibuffer (cells : nat) :
  magic_readable gzf = true ->
  has_magic gzf "MNT3" ->
  grid_header_dims gzf ibuffer = expected_res m isNoise ->
  (expected_res m isNoise).1.1 * (expected_res m isNoise).1.2
    * (expected_res m isNoise).2 = Z.of_nat cells ->
  4 * Z.of_nat cells < 2 ^ 31 ->
  length grid = (4 * cells)%nat ->
  (4 * cells <= length (drop 292 (gz_rest gzf)))%nat ->
  updateGridFromUni m (Some gzf) grid isNoise ibuffer
  = (gz_status gzf =? Z_OK, take (4 * cells) (drop 292 (gz_rest gzf))).
Proof.
  intros Hread Hmagic Hdims Hcells Hfit Hgrid Hdata.
  rewrite updateGridFromUni_MNT3 by done.
  replace (4 * _ * _ * _) with (4 * Z.of_nat cells) by lia.
  rewrite gzread_fits by lia. cbn [fst snd gz_rest].
  replace (Z.to_nat (4 * Z.of_nat cells)) with (4 * cells)%nat by lia.
  f_equal. apply overwrite_full. rewrite length_take. lia.
Qed.

(** A grid whose byte count does not fit an [int] (1024 x 1024 x 512
    cells, say): [gzread] refuses the request, the grid stays as it was,
    and the call still reports what [gzclose] says. *)
Theorem updateGridFromUni_oversized m gzf grid isNoise ibuffer :
  magic_readable gzf = true ->
  has_magic gzf "MNT3" ->
  grid_header_dims gzf ibuffer = expected_res m isNoise ->
  2 ^ 31 <= (4 * (expected_res m isNoise).1.1 * (expected_res m isNoise).1.2
               * (expected_res m isNoise).2) mod 2 ^ 32 ->
  updateGridFromUni m (Some gzf) grid isNoise ibuffer = (gz_status gzf =? Z_OK, grid).
Proof.
  intros Hread Hmagic Hdims Hbig.
  rewrite updateGridFromUni_MNT3 by done.
  unfold gzread. cbv zeta. by rewrite (proj2 (Z.leb_le _ _) Hbig).
Qed.

(** X16: A raw grid file that holds the expected number of bytes is copied
    into the grid, in a build with [assert] as in one without. *)
Theorem updateGridFromRaw_reads_file ndebug m gzf grid isNoise :
  0 < expectedBytes m isNoise ->
  length grid = Z.to_nat (expectedBytes m isNoise) ->
  (Z.to_nat (expectedBytes m isNoise) <= length (gz_rest gzf))%nat ->
  updateGridFromRaw ndebug m (Some gzf) grid isNoise
  = Returned (gz_status gzf =? Z_OK)
      (take (Z.to_nat (expectedBytes m isNoise)) (gz_rest gzf)).
Proof.
  intros Hpos Hgrid Hdata.
  pose proof (to_int32_range (4 * (if isNoise then mResXNoise m else mResX m)
              * (if isNoise then mResYNoise m else mResY m)
              * (if isNoise then mResZNoise m else mResZ m))) as Hrange.
  fold (expectedBytes m isNoise) in Hrange.
  rewrite updateGridFromRaw_unfold. cbv zeta.
  rewrite gzread_fits by lia. cbn [fst snd gz_status].
  rewrite length_take, Nat.min_l by done.
  rewrite Z2Nat.id by lia.
  destruct (expectedBytes m isNoise =? 0) eqn:E; [apply Z.eqb_eq in E; lia | clear E].
  rewrite Z.eqb_refl, andb_false_r.
  f_equal. apply overwrite_full. rewrite length_take. lia.
Qed.

(** A domain without cells: the raw reader asks for no bytes, gets none,
    and returns false, whatever the file holds. *)
Theorem updateGridFromRaw_no_cells ndebug m gzf grid isNoise :
  expectedBytes m isNoise = 0 ->
  updateGridFromRaw ndebug m (Some gzf) grid isNoise = Returned false grid.
Proof.
  intros Hzero. rewrite updateGridFromRaw_unfold, Hzero. cbv zeta.
  rewrite gzread_fits by (split; [lia | reflexivity]).
  cbn [fst snd]. change (Z.to_nat 0) with 0%nat. by rewrite take_0, overwrite_nil.
Qed.

(** ** updateMeshFromBobj: more properties *)

(** X17: A complete mesh file is read in full: node [i] holds vertex [i] and
    normal [i] of the file, triangle [i] holds triangle [i]. *)
Theorem updateMeshFromBobj_reads_mesh m status (V W : nat) vb nb tb
    bufferVerts bufferNormals bufferTriangles :
  (0 < V)%nat -> (0 < W)%nat -> Z.of_nat V < 2 ^ 31 -> Z.of_nat W < 2 ^ 31 ->
  length vb = (V * 12)%nat -> length nb = (V * 12)%nat -> length tb = (W * 12)%nat ->
  Z.of_nat V <= numChunksOf (Z.of_nat V) NODE_CHUNK * NODE_CHUNK ->
  Z.of_nat W <= numChunksOf (Z.of_nat W) TRIANGLE_CHUNK * TRIANGLE_CHUNK ->
  exists nodes tris,
    updateMeshFromBobj m
      (Some (mk_gzFile (mem_words [Z.of_nat V] ++ vb ++ mem_words [Z.of_nat V] ++ nb
                        ++ mem_words [Z.of_nat W] ++ tb) status))
      bufferVerts bufferNormals bufferTriangles
    = Returned (status =? Z_OK) (set_mMeshTriangles tris (set_mMeshNodes nodes m))
    /\ length nodes = V /\ length tris = W
    /\ (forall i, (i < V)%nat ->
          nodes !! i = Some (mk_Node (decode_float3 (record_bytes 12 vb i))
                                     (decode_float3 (record_bytes 12 nb i))))
    /\ (forall i, (i < W)%nat ->
          tris !! i = Some (mk_Triangle (decode_int3 (record_bytes 12 tb i)))).
Proof. apply updateMeshFromBobj_complete. Qed.

(** A mesh file with no vertex, no normal and no triangle is not an
    error: the call reports what [gzclose] says and the mesh is as it
    was. *)
Theorem updateMeshFromBobj_empty_mesh m status tail
    bufferVerts bufferNormals bufferTriangles :
  updateMeshFromBobj m
    (Some (mk_gzFile (mem_words [0] ++ mem_words [0] ++ mem_words [0] ++ tail) status))
    bufferVerts bufferNormals bufferTriangles
  = Returned (status =? Z_OK) m.
Proof.
  unfold updateMeshFromBobj.
  rewrite gzread_count by done. cbv beta iota zeta.
  rewrite (int_at_count 0 eq_refl). cbn [Z.eqb negb].
  rewrite gzread_count by done. cbv beta iota zeta.
  rewrite (int_at_count 0 eq_refl). cbn [Z.eqb negb].
  rewrite gzread_count by done. cbv beta iota zeta.
  rewrite (int_at_count 0 eq_refl). cbn [Z.eqb negb].
  by destruct m.
Qed.

(** A negative vertex count makes [resize] throw. *)
Theorem updateMeshFromBobj_negative_count m status (count : Z) rest
    bufferVerts bufferNormals bufferTriangles :
  - 2 ^ 31 <= count < 0 ->
  updateMeshFromBobj m (Some (mk_gzFile (mem_words [count] ++ rest) status))
    bufferVerts bufferNormals bufferTriangles
  = Thrown LengthError.
Proof.
  intros Hcount.
  assert (Hint : is_int32 count = true).
  { unfold is_int32. apply andb_true_iff. rewrite Z.leb_le, Z.ltb_lt.
    assert (0 < 2 ^ 31) by reflexivity. lia. }
  unfold updateMeshFromBobj.
  rewrite gzread_count by done. cbv beta iota zeta.
  rewrite (int_at_count _ Hint). cbn [Z.eqb negb].
  destruct (count =? 0) eqn:E; [apply Z.eqb_eq in E; lia | clear E].
  unfold resize. by rewrite (proj2 (Z.ltb_lt _ _) (proj2 Hcount)).
Qed.

(** The inner loop of a chunk runs past the end of the destination. *)
Lemma copy_loop_overrun {T : Type} kstep (store : list byte -> Z -> T -> T)
    (n : nat) buffer (j : nat) k (dest : list T) :
  (j <= length dest)%nat -> (length dest < j + n)%nat ->
  copy_loop kstep store n buffer (Z.of_nat j) k dest = inl OutOfRange.
Proof.
  revert j k dest. induction n as [| n IH]; intros j k dest Hj Hn; [lia |].
  cbn [copy_loop]. rewrite Nat2Z.id.
  destruct (dest !! j) as [x |] eqn:E; [| done].
  apply lookup_lt_Some in E.
  replace (Z.of_nat j + 1) with (Z.of_nat (S j)) by lia.
  apply IH; rewrite length_insert; lia.
Qed.

(** X18: A mesh file with [V] vertices, [0 < V < NODE_CHUNK], all present and
    reached by the number of chunks, that announces [Nn > V] normals
    ([Nn] fits an [int]) and holds at least one byte of them: the normals
    are written into the nodes that the vertices made, and [at] throws at
    the first normal without a node. *)
Theorem updateMeshFromBobj_more_normals_than_vertices m status (V Nn : nat) vb nb
    bufferVerts bufferNormals bufferTriangles :
  (0 < V)%nat -> (V < Nn)%nat -> Z.of_nat V < NODE_CHUNK -> Z.of_nat Nn < 2 ^ 31 ->
  length vb = (V * 12)%nat -> nb <> [] ->
  Z.of_nat V <= numChunksOf (Z.of_nat V) NODE_CHUNK * NODE_CHUNK ->
  updateMeshFromBobj m
    (Some (mk_gzFile (mem_words [Z.of_nat V] ++ vb ++ mem_words [Z.of_nat Nn] ++ nb)
             status))
    bufferVerts bufferNormals bufferTriangles
  = Thrown OutOfRange.
Proof.
  intros HV HNn HVchunk HNn31 Hvb Hnb Hchunks.
  assert (H31 : 0 < 2 ^ 31) by reflexivity.
  assert (HVint : is_int32 (Z.of_nat V) = true).
  { unfold is_int32, NODE_CHUNK in *. apply andb_true_iff.
    rewrite Z.leb_le, Z.ltb_lt. lia. }
  assert (HNint : is_int32 (Z.of_nat Nn) = true).
  { unfold is_int32. apply andb_true_iff. rewrite Z.leb_le, Z.ltb_lt. lia. }
  assert (HVnz : (Z.of_nat V =? 0) = false) by (apply Z.eqb_neq; lia).
  assert (HNnz : (Z.of_nat Nn =? 0) = false) by (apply Z.eqb_neq; lia).
  unfold updateMeshFromBobj.
  (* vertices *)
  rewrite gzread_count by done. cbv beta iota zeta.
  rewrite (int_at_count _ HVint), HVnz, resize_nat. cbn [negb Z.eqb].
  set (ncV := Z.to_nat (numChunksOf (Z.of_nat V) NODE_CHUNK)) in *.
  assert (HminV : (V `min` (ncV * Z.to_nat NODE_CHUNK) = V)%nat)
    by (unfold ncV, NODE_CHUNK in *; lia).
  assert (HncV : (0 < ncV)%nat) by (unfold ncV, NODE_CHUNK in *; lia).
  set (nodes0 := take V (mMeshNodes m) ++ replicate (V - length (mMeshNodes m)) Node_zero).
  set (R1 := mem_words [Z.of_nat Nn] ++ nb).
  destruct (chunk_loop_spec NODE_CHUNK 12 3 store_vertex put_vertex
              ltac:(reflexivity) ltac:(reflexivity) ltac:(reflexivity)
              store_vertex_put ncV V V (mk_gzFile (vb ++ R1) status) bufferVerts nodes0)
    as (gzf1 & nodes1 & -> & Hlen1 & Hrest1 & Hstatus1 & _);
    [lia | apply resize_length | lia | cbn [gz_rest]; rewrite length_app; lia |].
  rewrite HminV in Hrest1. cbn [gz_rest gz_status] in Hrest1, Hstatus1.
  change (Z.to_nat 12) with 12%nat in Hrest1.
  rewrite <- Hvb, drop_app_length in Hrest1.
  destruct gzf1 as [rest1 status1]. cbn [gz_rest gz_status] in Hrest1, Hstatus1.
  subst rest1 status1. unfold R1.
  (* normals *)
  rewrite gzread_count by done. cbv beta iota zeta.
  rewrite (int_at_count _ HNint), HNnz.
  unfold getNumVertices. cbn [mMeshNodes set_mMeshNodes negb].
  rewrite Hlen1, HVnz.
  destruct ncV as [| n]; [lia |]. clearbody nodes0. clear Hchunks HminV HncV.
  cbn [chunk_loop].
  rewrite (proj2 (Z.ltb_lt 0 (Z.of_nat Nn))) by lia.
  set (readLen := if Z.of_nat Nn <? NODE_CHUNK then Z.of_nat Nn else NODE_CHUNK).
  assert (HreadLen : Z.of_nat V < readLen <= NODE_CHUNK /\ readLen <= Z.of_nat Nn).
  { unfold readLen. destruct (Z.of_nat Nn <? NODE_CHUNK) eqn:E;
      [apply Z.ltb_lt in E | apply Z.ltb_ge in E]; lia. }
  clearbody readLen.
  rewrite gzread_fits by (unfold NODE_CHUNK in *; lia). cbn [gz_rest gz_status].
  destruct (Z.of_nat (length (take (Z.to_nat (readLen * 12)) nb)) =? 0) eqn:E.
  { apply Z.eqb_eq in E. destruct nb as [| b nb]; [done |].
    replace (Z.to_nat (readLen * 12)) with (S (Z.to_nat (readLen * 12) - 1)) in E by lia.
    cbn [take length] in E. lia. }
  replace (CLAMP (Z.of_nat Nn - Z.of_nat Nn) 0 (Z.of_nat Nn)) with (Z.of_nat 0); cycle 1.
  { unfold CLAMP. rewrite Z.sub_diag. cbn [Z.ltb Z.compare].
    by rewrite (proj2 (Z.ltb_ge (Z.of_nat Nn) 0)) by lia. }
  replace (CLAMP (Z.of_nat 0 + readLen) 0 (Z.of_nat Nn)) with readLen; cycle 1.
  { unfold CLAMP. change (Z.of_nat 0) with 0. rewrite Z.add_0_l.
    rewrite (proj2 (Z.ltb_ge readLen 0)), (proj2 (Z.ltb_ge (Z.of_nat Nn) readLen)); lia. }
  rewrite copy_loop_overrun; [done | lia | lia].
Qed.

(** ** Choosing the reader by the file extension *)

Lemma rfind_None s ch : rfind s ch = None <-> has_char ch s = false.
Proof.
  induction s as [| c s IH]; [done |].
  rewrite has_char_cons. cbn [rfind].
  destruct (rfind s ch) as [i |].
  - split; [done |]. intros [_ H]. apply IH in H. done.
  - destruct (Ascii.eqb_spec c ch) as [-> | Hc]; split; try done.
    + by intros [? _].
    + intros _. split; [done |]. by apply IH.
Qed.

(** The last [ch] of [base ++ ch ++ ext] is the one before [ext], when
    [ext] holds none. *)
Lemma rfind_app base ch ext :
  has_char ch ext = false ->
  rfind (base +:+ String ch ext) ch = Some (String.length base).
Proof.
  intros Hext. induction base as [| c base IH]; simpl.
  - apply rfind_None in Hext. by rewrite Hext, Ascii.eqb_refl.
  - by rewrite IH.
Qed.

Lemma substr_from_app base ch ext :
  substr_from (base +:+ String ch ext) (String.length base + 1) = inr ext.
Proof.
  unfold substr_from.
  assert (Hlen : String.length (base +:+ String ch ext)
                 = (String.length base + 1 + String.length ext)%nat).
  { rewrite !chars_length, chars_app, length_app. cbn [String.list_ascii_of_string length]. lia. }
  rewrite Hlen.
  destruct (Nat.ltb_spec (String.length base + 1 + String.length ext)
              (String.length base + 1)) as [H | _]; [lia |].
  f_equal. apply chars_inj. rewrite chars_substring, chars_app.
  cbn [String.list_ascii_of_string].
  rewrite (chars_length base), <- Nat.add_assoc, drop_app_add. cbn [drop Nat.add].
  rewrite drop_0. apply take_ge. rewrite <- chars_length. lia.
Qed.

(** What a position found by [rfind] says about the string. *)
Lemma rfind_Some s ch (i : nat) :
  rfind s ch = Some i ->
  exists base ext, s = base +:+ String ch ext /\ String.length base = i
    /\ has_char ch ext = false.
Proof.
  revert i. induction s as [| c s IH]; intros i; [done |].
  cbn [rfind]. destruct (rfind s ch) as [j |] eqn:E.
  - intros [= <-]. destruct (IH j eq_refl) as (base & ext & -> & Hlen & Hext).
    exists (String c base), ext. by rewrite <- Hlen.
  - destruct (Ascii.eqb_spec c ch) as [-> | Hc]; [| done].
    intros [= <-]. exists "", s. split; [done |]. split; [done |].
    by apply rfind_None.
Qed.

(** The extension that the readers are chosen by: the text after the last
    dot. *)
Lemma extension_of filename :
  match rfind filename "." with
  | Some idx =>
      exists base ext, filename = base +:+ String "." ext
        /\ has_char "." ext = false
        /\ substr_from filename (idx + 1) = inr ext
  | None => has_char "." filename = false
  end.
Proof.
  destruct (rfind filename ".") as [idx |] eqn:E.
  - destruct (rfind_Some _ _ _ E) as (base & ext & -> & <- & Hext).
    exists base, ext. split; [done |]. split; [done |]. apply substr_from_app.
  - by apply rfind_None.
Qed.

Lemma updateParticlesFromFile_ends_uni d m base isSecondarySys isVelData u :
  updateParticlesFromFile d m (base +:+ ".uni") isSecondarySys isVelData u
  = updateParticlesFromUni m (BLI_gzopen d (base +:+ ".uni"))
      isSecondarySys isVelData u.
Proof.
  unfold updateParticlesFromFile.
  by rewrite (rfind_app base "." "uni"), (substr_from_app base "." "uni").
Qed.

Lemma updateParticlesFromFile_not_uni d m filename isSecondarySys isVelData u :
  (forall base, filename <> base +:+ ".uni") ->
  updateParticlesFromFile d m filename isSecondarySys isVelData u = Returned false m.
Proof.
  intros Hother. unfold updateParticlesFromFile.
  pose proof (extension_of filename) as H.
  destruct (rfind filename ".") as [idx |]; [| done].
  destruct H as (base & ext & -> & _ & ->).
  destruct (String.eqb_spec ext "uni") as [-> | _]; [| done].
  by destruct (Hother base).
Qed.

(** X19: The reader of a particle file is chosen by the text after the last
    dot of its name: a name that ends in [".uni"] goes to
    [updateParticlesFromUni], whatever dots come before; every other name
    is refused with false, the solver object as it was, whatever the file
    holds. *)
Theorem updateParticlesFromFile_extension d m filename isSecondarySys isVelData u :
  (forall base, filename = base +:+ ".uni" ->
     updateParticlesFromFile d m filename isSecondarySys isVelData u
     = updateParticlesFromUni m (BLI_gzopen d filename) isSecondarySys isVelData u)
  /\ ((forall base, filename <> base +:+ ".uni") ->
      updateParticlesFromFile d m filename isSecondarySys isVelData u
      = Returned false m).
Proof.
  split.
  - intros base ->. apply updateParticlesFromFile_ends_uni.
  - apply updateParticlesFromFile_not_uni.
Qed.

Section ChoiceProperties.

Context (updateMeshFromObj : MANTA -> string -> outcome MANTA).
Context (OPENVDB : Z).
Context (updateGridFromVDB : MANTA -> string -> list byte -> bool -> outcome (list byte)).

Local Abbreviation updateMeshFromFile' := (updateMeshFromFile updateMeshFromObj).
Local Abbreviation updateGridFromFile' := (updateGridFromFile OPENVDB updateGridFromVDB).

(** X20: The reader of a mesh file is chosen by the text after the last dot of
    its name: [".gz"] is read as [bobj.gz], [".obj"] as a text file,
    [".uni"] as mesh data; every other name is refused with false, the
    solver object as it was. *)
Theorem updateMeshFromFile_extension d m filename
    bufferVerts bufferNormals bufferTriangles u :
  (forall base, filename = base +:+ ".gz" ->
     updateMeshFromFile' d m filename bufferVerts bufferNormals bufferTriangles u
     = updateMeshFromBobj m (BLI_gzopen d filename)
         bufferVerts bufferNormals bufferTriangles)
  /\ (forall base, filename = base +:+ ".obj" ->
       updateMeshFromFile' d m filename bufferVerts bufferNormals bufferTriangles u
       = updateMeshFromObj m filename)
  /\ (forall base, filename = base +:+ ".uni" ->
       updateMeshFromFile' d m filename bufferVerts bufferNormals bufferTriangles u
       = updateMeshFromUni m (BLI_gzopen d filename) u)
  /\ ((forall base, filename <> base +:+ ".gz") ->
      (forall base, filename <> base +:+ ".obj") ->
      (forall base, filename <> base +:+ ".uni") ->
      updateMeshFromFile' d m filename bufferVerts bufferNormals bufferTriangles u
      = Returned false m).
Proof.
  unfold updateMeshFromFile. repeat split.
  - intros base ->.
    by rewrite (rfind_app base "." "gz"), (substr_from_app base "." "gz").
  - intros base ->.
    by rewrite (rfind_app base "." "obj"), (substr_from_app base "." "obj").
  - intros base ->.
    by rewrite (rfind_app base "." "uni"), (substr_from_app base "." "uni").
  - intros Hgz Hobj Huni.
    pose proof (extension_of filename) as H.
    destruct (rfind filename ".") as [idx |]; [| done].
    destruct H as (base & ext & -> & _ & ->).
    destruct (String.eqb_spec ext "gz") as [-> | _]; [by destruct (Hgz base) |].
    destruct (String.eqb_spec ext "obj") as [-> | _]; [by destruct (Hobj base) |].
    destruct (String.eqb_spec ext "uni") as [-> | _]; [by destruct (Huni base) |].
    done.
Qed.

(** X21: The reader of a grid file is chosen by the text after the last dot of
    its name: [".uni"] goes to [updateGridFromUni] and [".raw"] to
    [updateGridFromRaw].  Without a grid to read into, or with a name that
    has none of the extensions of the build, the call returns false and
    the grid is as it was, whatever the file holds. *)
Theorem updateGridFromFile_extension ndebug d m filename grid isNoise ibuffer :
  (forall base g, filename = base +:+ ".uni" -> grid = Some g ->
     updateGridFromFile' ndebug d m filename grid isNoise ibuffer
     = Returned (updateGridFromUni m (BLI_gzopen d filename) g isNoise ibuffer).1
         (Some (updateGridFromUni m (BLI_gzopen d filename) g isNoise ibuffer).2))
  /\ (forall base g, filename = base +:+ ".raw" -> grid = Some g ->
       updateGridFromFile' ndebug d m filename grid isNoise ibuffer
       = match updateGridFromRaw ndebug m (BLI_gzopen d filename) g isNoise with
         | Returned b g' => Returned b (Some g')
         | Thrown e => Thrown e
         end)
  /\ (grid = None
      \/ ((forall base, filename <> base +:+ ".uni")
          /\ (forall base, filename <> base +:+ ".raw")
          /\ (OPENVDB = 1 -> forall base, filename <> base +:+ ".vdb")) ->
      updateGridFromFile' ndebug d m filename grid isNoise ibuffer
      = Returned false grid).
Proof.
  unfold updateGridFromFile. repeat split.
  - intros base g -> ->.
    by rewrite (rfind_app base "." "uni"), (substr_from_app base "." "uni").
  - intros base g -> ->.
    rewrite (rfind_app base "." "raw") by done.
    rewrite (substr_from_app base "." "raw").
    change (String.eqb "raw" "uni") with false.
    change (String.eqb "raw" "vdb") with false.
    by rewrite andb_false_r.
  - intros [-> | (Huni & Hraw & Hvdb)]; [done |].
    destruct grid as [g |]; [| done].
    pose proof (extension_of filename) as H.
    destruct (rfind filename ".") as [idx |]; [| done].
    destruct H as (base & ext & -> & _ & ->).
    destruct (String.eqb_spec ext "uni") as [-> | _]; [by destruct (Huni base) |].
    destruct (Z.eqb_spec OPENVDB 1) as [E | _]; cbn [andb].
    + destruct (String.eqb_spec ext "vdb") as [-> | _]; [by destruct (Hvdb E base) |].
      destruct (String.eqb_spec ext "raw") as [-> | _]; [by destruct (Hraw base) |].
      done.
    + destruct (String.eqb_spec ext "raw") as [-> | _]; [by destruct (Hraw base) |].
      done.
Qed.

End ChoiceProperties.

(** ** The frame readers *)

(** What one counted read leaves: [expected] is one more, and [result] is
    one more exactly when the file exists and was read with success. *)
Lemma count_read_inr ndebug d file read r e m r' e' m' :
  count_read ndebug d file read r e m = inr (r', e', m') ->
  e' = e + 1
  /\ ((r' = r + 1 /\ BLI_exists d file = true /\ read m = Returned true m')
      \/ (r' = r /\ BLI_exists d file = false /\ m' = m)
      \/ (r' = r /\ BLI_exists d file = true /\ read m = Returned false m')).
Proof.
  unfold count_read. intros H.
  destruct (BLI_exists d file); [| injection H as <- <- <-; split; [done | right; left; done]].
  destruct (read m) as [b m1 | e1]; [| done].
  destruct (negb ndebug && negb (r + (if b then 1 else 0) =? e + 1)); [done |].
  injection H as <- <- <-. split; [done |].
  destruct b; [left; done | right; right]. split; [lia | done].
Qed.

Lemma count_read_success ndebug d file read r m m' :
  BLI_exists d file = true -> read m = Returned true m' ->
  count_read ndebug d file read r r m = inr (r + 1, r + 1, m').
Proof.
  intros Hex Hread. unfold count_read. rewrite Hex, Hread, Z.eqb_refl.
  by rewrite andb_false_r.
Qed.

Lemma updateFlipStructures_true_iff ndebug d m p mUsingLiquid path_is_rel
    file_pp file_pvel u_pp u_pvel m' :
  updateFlipStructures ndebug d m p mUsingLiquid path_is_rel file_pp file_pvel
    u_pp u_pvel = Returned true m'
  <-> mUsingLiquid = true /\ path_is_rel = false
      /\ null_mFlipParticleData p = false /\ null_mFlipParticleVelocity p = false
      /\ BLI_exists d file_pp = true /\ BLI_exists d file_pvel = true
      /\ exists m1,
           updateParticlesFromFile d
             (set_mFlipParticleVelocity [] (set_mFlipParticleData [] m))
             file_pp false false u_pp = Returned true m1
           /\ updateParticlesFromFile d m1 file_pvel false true u_pvel
              = Returned true m'.
Proof.
  unfold updateFlipStructures. split.
  - destruct mUsingLiquid, path_is_rel; try done. cbn [negb]. cbv zeta.
    destruct (null_mFlipParticleData p), (null_mFlipParticleVelocity p); try done.
    cbn [orb].
    destruct (count_read _ _ file_pp _ _ _ _) as [e1 | [[r1 e1] m1]] eqn:E1; [done |].
    destruct (count_read _ _ file_pvel _ _ _ _) as [e2 | [[r2 e2] m2]] eqn:E2; [done |].
    intros [= Heq <-]. apply Z.eqb_eq in Heq.
    apply count_read_inr in E1 as [-> E1], E2 as [-> E2].
    destruct E1 as [(-> & Hex1 & Hread1) | [(-> & _) | (-> & _)]];
      destruct E2 as [(-> & Hex2 & Hread2) | [(-> & _) | (-> & _)]]; try lia.
    eauto 12.
  - intros (-> & -> & -> & -> & Hex1 & Hex2 & m1 & Hread1 & Hread2).
    cbn [negb orb]. cbv zeta.
    rewrite (count_read_success _ _ _ _ 0 _ m1) by done.
    by rewrite (count_read_success _ _ _ _ (0 + 1) _ m') by done.
Qed.

(** X22: [updateFlipStructures] returns true exactly when the domain is a
    liquid with an absolute cache path, neither of the two particle vectors
    is null, both files of the frame exist, and both are read with success,
    the velocities after the positions, into vectors that were emptied
    first. *)
Theorem updateFlipStructures_true ndebug d m p mUsingLiquid path_is_rel
    file_pp file_pvel u_pp u_pvel m' :
  updateFlipStructures ndebug d m p mUsingLiquid path_is_rel file_pp file_pvel
    u_pp u_pvel = Returned true m'
  <-> mUsingLiquid = true /\ path_is_rel = false
      /\ null_mFlipParticleData p = false /\ null_mFlipParticleVelocity p = false
      /\ BLI_exists d file_pp = true /\ BLI_exists d file_pvel = true
      /\ exists m1,
           updateParticlesFromFile d
             (set_mFlipParticleVelocity [] (set_mFlipParticleData [] m))
             file_pp false false u_pp = Returned true m1
           /\ updateParticlesFromFile d m1 file_pvel false true u_pvel
              = Returned true m'.
Proof. apply updateFlipStructures_true_iff. Qed.

(** A null particle vector: the call returns false and nothing is
    touched, whatever files the frame has. *)
Theorem updateFlipStructures_null_vector ndebug d m p mUsingLiquid path_is_rel
    file_pp file_pvel u_pp u_pvel :
  null_mFlipParticleData p || null_mFlipParticleVelocity p = true ->
  updateFlipStructures ndebug d m p mUsingLiquid path_is_rel file_pp file_pvel
    u_pp u_pvel = Returned false m.
Proof.
  intros Hnull. unfold updateFlipStructures.
  destruct (negb mUsingLiquid); [done |]. destruct path_is_rel; [done |].
  cbv zeta. by rewrite Hnull.
Qed.

(** A frame without particle files: the call returns false, and the
    particles of the frame before are gone. *)
Theorem updateFlipStructures_no_files ndebug d m p file_pp file_pvel u_pp u_pvel :
  null_mFlipParticleData p = false -> null_mFlipParticleVelocity p = false ->
  BLI_exists d file_pp = false -> BLI_exists d file_pvel = false ->
  updateFlipStructures ndebug d m p true false file_pp file_pvel u_pp u_pvel
  = Returned false (set_mFlipParticleVelocity [] (set_mFlipParticleData [] m)).
Proof.
  intros Hnd Hnv Hpp Hpvel. unfold updateFlipStructures, count_read.
  cbn [negb]. cbv zeta. by rewrite Hnd, Hnv, Hpp, Hpvel.
Qed.

(** X23: A liquid domain with an absolute cache path and allocated particle
    vectors, and a frame with the velocity file but without the position
    file: the count of successes cannot reach the count of expected files,
    so a build with [assert] stops at the assertion after the velocities
    were read, with success or not; a build without returns false. *)
Theorem updateFlipStructures_velocities_only d m p mUsingLiquid path_is_rel
    file_pp file_pvel u_pp u_pvel b m1 :
  mUsingLiquid = true -> path_is_rel = false ->
  null_mFlipParticleData p = false -> null_mFlipParticleVelocity p = false ->
  BLI_exists d file_pp = false -> BLI_exists d file_pvel = true ->
  updateParticlesFromFile d
    (set_mFlipParticleVelocity [] (set_mFlipParticleData [] m))
    file_pvel false true u_pvel = Returned b m1 ->
  updateFlipStructures false d m p mUsingLiquid path_is_rel file_pp file_pvel
    u_pp u_pvel = Thrown AssertionFailure
  /\ updateFlipStructures true d m p mUsingLiquid path_is_rel file_pp file_pvel
       u_pp u_pvel = Returned false m1.
Proof.
  intros -> -> Hnd Hnv Hpp Hpvel Hread. unfold updateFlipStructures, count_read.
  cbn [negb]. cbv zeta. rewrite Hnd, Hnv, Hpp, Hpvel, Hread. by destruct b.
Qed.

(** X24: A liquid domain with an absolute cache path and allocated particle
    vectors, and a frame whose two files exist under names that end in
    [".uni"], close with [Z_OK], have sane headers, hold the records they
    announce ([N] of PB02, [M] of PD01) and are reached by their numbers of
    chunks: the call returns true, and the positions of the one file and the
    velocities of the other are in the solver object.  Nothing relates the
    two counts. *)
Theorem updateFlipStructures_reads_frame ndebug d m p base_pp base_pvel gzf_pp gzf_pvel
    u_pp u_pvel (N M : nat) :
  null_mFlipParticleData p = false -> null_mFlipParticleVelocity p = false ->
  BLI_exists d (base_pp +:+ ".uni") = true ->
  BLI_exists d (base_pvel +:+ ".uni") = true ->
  BLI_gzopen d (base_pp +:+ ".uni") = Some gzf_pp ->
  BLI_gzopen d (base_pvel +:+ ".uni") = Some gzf_pvel ->
  gz_status gzf_pp = Z_OK -> gz_status gzf_pvel = Z_OK ->
  magic_readable gzf_pp = true -> has_magic gzf_pp "PB02" ->
  header_sane gzf_pp u_pp = true -> header_count gzf_pp u_pp = Z.of_nat N ->
  (0 < N)%nat -> (N * 16 <= length (gz_rest (uni_payload gzf_pp)))%nat ->
  Z.of_nat N <= numChunksOf (Z.of_nat N) PARTICLE_CHUNK * PARTICLE_CHUNK ->
  magic_readable gzf_pvel = true -> has_magic gzf_pvel "PD01" ->
  header_sane gzf_pvel u_pvel = true -> header_count gzf_pvel u_pvel = Z.of_nat M ->
  (0 < M)%nat -> (M * 12 <= length (gz_rest (uni_payload gzf_pvel)))%nat ->
  Z.of_nat M <= numChunksOf (Z.of_nat M) PARTICLE_CHUNK * PARTICLE_CHUNK ->
  exists data vel,
    updateFlipStructures ndebug d m p true false
      (base_pp +:+ ".uni") (base_pvel +:+ ".uni") u_pp u_pvel
    = Returned true (set_mFlipParticleVelocity vel (set_mFlipParticleData data m))
    /\ length data = N /\ length vel = M
    /\ (forall i, (i < N)%nat ->
          data !! i
          = Some (decode_pData (record_bytes 16 (gz_rest (uni_payload gzf_pp)) i)))
    /\ (forall i, (i < M)%nat ->
          vel !! i
          = Some (mk_pVel (decode_float3
                             (record_bytes 12 (gz_rest (uni_payload gzf_pvel)) i)))).
Proof.
  intros Hnd Hnv Hex1 Hex2 Hopen1 Hopen2 Hst1 Hst2 Hr1 Hm1 Hs1 Hc1 HN Hd1 Hch1
    Hr2 Hm2 Hs2 Hc2 HM Hd2 Hch2.
  set (m0 := set_mFlipParticleVelocity [] (set_mFlipParticleData [] m)).
  destruct (updateParticlesFromUni_PB02_complete m0 gzf_pp false false u_pp N)
    as (data & Hread1 & Hlen1 & Hget1); try done.
  rewrite Hst1 in Hread1. cbn [set_dataPointer] in Hread1.
  destruct (updateParticlesFromUni_PD01_vel_complete
              (set_mFlipParticleData data m0) gzf_pvel false u_pvel M)
    as (vel & Hread2 & Hlen2 & Hget2); try done.
  rewrite Hst2 in Hread2. cbn [set_velocityPointer] in Hread2.
  exists data, vel. split; [| done].
  replace (set_mFlipParticleVelocity vel (set_mFlipParticleData data m))
    with (set_mFlipParticleVelocity vel (set_mFlipParticleData data m0))
    by (by destruct m).
  apply updateFlipStructures_true_iff. split; [done |]. split; [done |].
  split; [done |]. split; [done |]. split; [done |]. split; [done |].
  exists (set_mFlipParticleData data m0). split.
  - by rewrite updateParticlesFromFile_ends_uni, Hopen1.
  - by rewrite updateParticlesFromFile_ends_uni, Hopen2.
Qed.

(** X25: [updateParticleStructures] returns true exactly when secondary
    particles are in use, the cache path is absolute, none of the three
    vectors of the secondary particles is null, the three files of the
    frame exist, and all three are read with success, in the order
    positions, velocities, life times, into vectors that were emptied
    first. *)
Theorem updateParticleStructures_true ndebug d m p using_particles path_is_rel
    file_pp file_pvel file_plife u_pp u_pvel u_plife m' :
  updateParticleStructures ndebug d m p using_particles path_is_rel
    file_pp file_pvel file_plife u_pp u_pvel u_plife = Returned true m'
  <-> using_particles = true /\ path_is_rel = false
      /\ null_mSndParticleData p = false /\ null_mSndParticleVelocity p = false
      /\ null_mSndParticleLife p = false
      /\ BLI_exists d file_pp = true /\ BLI_exists d file_pvel = true
      /\ BLI_exists d file_plife = true
      /\ exists m1 m2,
           updateParticlesFromFile d
             (set_mSndParticleLife []
                (set_mSndParticleVelocity [] (set_mSndParticleData [] m)))
             file_pp true false u_pp = Returned true m1
           /\ updateParticlesFromFile d m1 file_pvel true true u_pvel = Returned true m2
           /\ updateParticlesFromFile d m2 file_plife true false u_plife
              = Returned true m'.
Proof.
  unfold updateParticleStructures. split.
  - destruct using_particles, path_is_rel; try done. cbn [negb]. cbv zeta.
    destruct (null_mSndParticleData p), (null_mSndParticleVelocity p),
      (null_mSndParticleLife p); try done.
    cbn [orb].
    destruct (count_read _ _ file_pp _ _ _ _) as [e1 | [[r1 e1] m1]] eqn:E1; [done |].
    destruct (count_read _ _ file_pvel _ _ _ _) as [e2 | [[r2 e2] m2]] eqn:E2; [done |].
    destruct (count_read _ _ file_plife _ _ _ _) as [e3 | [[r3 e3] m3]] eqn:E3; [done |].
    intros [= Heq <-]. apply Z.eqb_eq in Heq.
    apply count_read_inr in E1 as [-> E1], E2 as [-> E2], E3 as [-> E3].
    destruct E1 as [(-> & Hex1 & Hread1) | [(-> & _) | (-> & _)]];
      destruct E2 as [(-> & Hex2 & Hread2) | [(-> & _) | (-> & _)]];
      destruct E3 as [(-> & Hex3 & Hread3) | [(-> & _) | (-> & _)]]; try lia.
    eauto 15.
  - intros (-> & -> & -> & -> & -> & Hex1 & Hex2 & Hex3 & m1 & m2
            & Hread1 & Hread2 & Hread3).
    cbn [negb orb]. cbv zeta.
    rewrite (count_read_success _ _ _ _ 0 _ m1) by done.
    rewrite (count_read_success _ _ _ _ (0 + 1) _ m2) by done.
    by rewrite (count_read_success _ _ _ _ (0 + 1 + 1) _ m') by done.
Qed.

(** X26: The mesh of a frame: [updateMeshStructures] returns true exactly when
    the mesh is in use, the cache path is absolute, neither the node nor the
    triangle vector is null, the mesh file exists and is read with success
    and, if mesh velocities are in use, so is the velocity file after it;
    nodes, triangles and, if allocated, velocities are emptied first. *)
Theorem updateMeshStructures_true
    (updateMeshFromObj : MANTA -> string -> outcome MANTA)
    ndebug d m p mUsingMesh path_is_rel mUsingMVel file_mesh file_meshvel
    b_mesh u_mesh b_vel u_vel m' :
  let m0 := set_mMeshTriangles [] (set_mMeshNodes [] m) in
  let m0 := match mMeshVelocities m0 with
            | Some _ => set_mMeshVelocities (Some []) m0
            | None => m0
            end in
  updateMeshStructures updateMeshFromObj ndebug d m p mUsingMesh path_is_rel mUsingMVel
    file_mesh file_meshvel b_mesh u_mesh b_vel u_vel = Returned true m'
  <-> mUsingMesh = true /\ path_is_rel = false
      /\ null_mMeshNodes p = false /\ null_mMeshTriangles p = false
      /\ BLI_exists d file_mesh = true
      /\ exists m1,
           updateMeshFromFile updateMeshFromObj d m0 file_mesh
             b_mesh.1.1 b_mesh.1.2 b_mesh.2 u_mesh = Returned true m1
           /\ if mUsingMVel then
                BLI_exists d file_meshvel = true
                /\ updateMeshFromFile updateMeshFromObj d m1 file_meshvel
                     b_vel.1.1 b_vel.1.2 b_vel.2 u_vel = Returned true m'
              else m' = m1.
Proof.
  cbv zeta. unfold updateMeshStructures. split.
  - destruct mUsingMesh, path_is_rel; try done. cbn [negb]. cbv zeta.
    destruct (null_mMeshNodes p), (null_mMeshTriangles p); try done. cbn [orb].
    destruct (count_read _ _ file_mesh _ _ _ _) as [e1 | [[r1 e1] m1]] eqn:E1; [done |].
    apply count_read_inr in E1 as [-> E1].
    destruct mUsingMVel.
    + destruct (count_read _ _ file_meshvel _ _ _ _) as [e2 | [[r2 e2] m2]] eqn:E2;
        [done |].
      intros [= Heq <-]. apply Z.eqb_eq in Heq.
      apply count_read_inr in E2 as [-> E2].
      destruct E1 as [(-> & Hex1 & Hread1) | [(-> & _) | (-> & _)]];
        destruct E2 as [(-> & Hex2 & Hread2) | [(-> & _) | (-> & _)]]; try lia.
      eauto 12.
    + intros [= Heq <-]. apply Z.eqb_eq in Heq.
      destruct E1 as [(-> & Hex1 & Hread1) | [(-> & _) | (-> & _)]]; try lia.
      eauto 12.
  - intros (-> & -> & -> & -> & Hex1 & m1 & Hread1 & Hrest).
    cbn [negb orb]. cbv zeta.
    rewrite (count_read_success _ _ _ _ 0 _ m1) by done.
    destruct mUsingMVel.
    + destruct Hrest as [Hex2 Hread2].
      by rewrite (count_read_success _ _ _ _ (0 + 1) _ m') by done.
    + by subst m'.
Qed.

(** ** Commands for the Python interpreter *)

Section PythonProperties.

Context (PyState : Type).
Context (PyRun_SimpleString : PyState -> string -> PyState * Z).

Local Abbreviation run_commands' := (run_commands PyState PyRun_SimpleString).
Local Abbreviation runPythonString' := (runPythonString PyState PyRun_SimpleString).

Lemma run_commands_app commands1 commands2 success py :
  run_commands' (commands1 ++ commands2) success py
  = run_commands' commands2 (run_commands' commands1 success py).2
      (run_commands' commands1 success py).1.
Proof.
  revert success py. induction commands1 as [| c commands1 IH]; intros success py.
  - done.
  - cbn [app run_commands].
    destruct (PyRun_SimpleString py (c_str c)) as [py1 s1]. apply IH.
Qed.

(** X27: Only the status of the last command is looked at: the result is that
    of running the last command in the state the others have left, whether
    they failed or not. *)
Theorem runPythonString_last_command ndebug commands last py :
  runPythonString PyState PyRun_SimpleString ndebug (commands ++ [last]) py
  = runPythonString PyState PyRun_SimpleString ndebug [last]
      (run_commands PyState PyRun_SimpleString commands (-1) py).1.
Proof.
  unfold runPythonString. cbv zeta. rewrite run_commands_app.
  cbn [run_commands].
  by destruct (PyRun_SimpleString (run_commands' commands (-1) py).1 (c_str last)).
Qed.

(** Without a command there is no success: the assertion fails in a build
    that has it, and the call returns false in one that has not. *)
Theorem runPythonString_no_command ndebug py :
  runPythonString' ndebug [] py
  = if ndebug then Returned false py else Thrown AssertionFailure.
Proof. by destruct ndebug. Qed.

(** X28: [writeNoise] on a domain that is not smoke with noise builds no
    command and hands the empty vector to [runPythonString]. *)
Theorem writeNoise_without_noise ndebug m mUsingSmoke mUsingNoise
    directory nformat final_cache framenr py :
  mUsingSmoke && mUsingNoise = false ->
  writeNoise PyState PyRun_SimpleString ndebug m mUsingSmoke mUsingNoise
    directory nformat final_cache framenr py
  = if ndebug then Returned false py else Thrown AssertionFailure.
Proof.
  intros H. unfold writeNoise. cbv zeta. rewrite H. by destruct ndebug.
Qed.


End PythonProperties.

(** ** readConfiguration on a file without content *)

Lemma ints_decoded (field : list Z) :
  forallb is_int32 field = true ->
  int_at (mem_words field) <$> seqZ 0 (Z.of_nat (length field)) = field.
Proof.
  intros Hok. apply list_eq. intros i. rewrite list_lookup_fmap.
  destruct (field !! i) as [v |] eqn:Hv.
  - pose proof (lookup_lt_Some _ _ _ Hv).
    rewrite lookup_seqZ_lt by lia. cbn [fmap option_fmap option_map].
    rewrite Z.add_0_l.
    assert (Hv_ok : is_int32 v = true).
    { apply (proj1 (forallb_forall _ _) Hok), list_elem_of_In.
      by apply list_elem_of_lookup_2 with i. }
    pose proof (int_at_mem_words field [] i v Hv Hv_ok) as E.
    rewrite app_nil_r in E. by rewrite E.
  - apply lookup_ge_None in Hv. by rewrite lookup_seqZ_ge by lia.
Qed.

Lemma floats_decoded (field : list Z) :
  forallb is_float32 field = true ->
  float_at (mem_words field) <$> seqZ 0 (Z.of_nat (length field)) = field.
Proof.
  intros Hok. apply list_eq. intros i. rewrite list_lookup_fmap.
  destruct (field !! i) as [v |] eqn:Hv.
  - pose proof (lookup_lt_Some _ _ _ Hv).
    rewrite lookup_seqZ_lt by lia. cbn [fmap option_fmap option_map].
    rewrite Z.add_0_l.
    assert (Hv_ok : is_float32 v = true).
    { apply (proj1 (forallb_forall _ _) Hok), list_elem_of_In.
      by apply list_elem_of_lookup_2 with i. }
    pose proof (float_at_mem_words field [] i v Hv Hv_ok) as E.
    rewrite app_nil_r in E. by rewrite E.
  - apply lookup_ge_None in Hv. by rewrite lookup_seqZ_ge by lia.
Qed.

(** At the end of the stream a read leaves the field as it is. *)
Lemma gzread_ints_nothing status field n k :
  ints_ok k field = true ->
  gzread_ints (mk_gzFile [] status) field n = (mk_gzFile [] status, field).
Proof.
  unfold ints_ok. rewrite andb_true_iff. intros [_ Hok].
  unfold gzread_ints. rewrite gzread_empty. by rewrite ints_decoded.
Qed.

Lemma gzread_floats_nothing status field n k :
  floats_ok k field = true ->
  gzread_floats (mk_gzFile [] status) field n = (mk_gzFile [] status, field).
Proof.
  unfold floats_ok. rewrite andb_true_iff. intros [_ Hok].
  unfold gzread_floats. rewrite gzread_empty. by rewrite floats_decoded.
Qed.

(** X30: A configuration file without content is not reported: the call returns
    what [gzclose] says, every field read keeps its value, and the number
    of cells is computed from the resolution that was there. *)
Theorem readConfiguration_empty_file mds status dummy :
  domain_ok mds = true ->
  readConfiguration mds true (Some (mk_gzFile [] status)) dummy
  = (status =? Z_OK, restored mds mds).
Proof.
  intros Hok. apply domain_ok_fields in Hok.
  destruct Hok as (Haf & Hres & Hdx & Hdt & Hp0 & Hp1 & Hdp0 & Hshift & Hobj
                   & Hobmat & Hbase & Hmin & Hmax & Hcolor).
  assert (Hone_int : forall v, is_int32 v = true -> ints_ok 1 [v] = true).
  { intros v Hv. unfold ints_ok. cbn. by rewrite Hv. }
  assert (Hone_float : forall v, is_float32 v = true -> floats_ok 1 [v] = true).
  { intros v Hv. unfold floats_ok. cbn. by rewrite Hv. }
  unfold readConfiguration. cbn [negb].
  rewrite (gzread_ints_nothing _ [active_fields mds] _ 1) by (by apply Hone_int).
  rewrite (gzread_ints_nothing _ (res mds) _ 3) by done.
  rewrite (gzread_floats_nothing _ [dx mds] _ 1) by (by apply Hone_float).
  destruct (gzread_floats (mk_gzFile [] status) [dummy] 1) as [gzf v] eqn:E.
  assert (gzf = mk_gzFile [] status) as ->.
  { unfold gzread_floats in E. rewrite gzread_empty in E. by injection E as <- _. }
  rewrite (gzread_floats_nothing _ (p0 mds) _ 3) by done.
  rewrite (gzread_floats_nothing _ (p1 mds) _ 3) by done.
  rewrite (gzread_floats_nothing _ (dp0 mds) _ 3) by done.
  rewrite (gzread_ints_nothing _ (shift mds) _ 3) by done.
  rewrite (gzread_floats_nothing _ (obj_shift_f mds) _ 3) by done.
  rewrite (gzread_floats_nothing _ (obmat mds) _ 16) by done.
  rewrite (gzread_ints_nothing _ (base_res mds) _ 3) by done.
  rewrite (gzread_ints_nothing _ (res_min mds) _ 3) by done.
  rewrite (gzread_ints_nothing _ (res_max mds) _ 3) by done.
  rewrite (gzread_floats_nothing _ (active_color mds) _ 3) by done.
  reflexivity.
Qed.

(** ** The properties at concrete inputs *)

Lemma escapeSlashes_inj_witness :
  escapeSlashes ex_path = escapeSlashes ex_path /\ ex_path = ex_path.
Proof.
  split; [reflexivity |]. apply escapeSlashes_inj. reflexivity.
Defined.

Lemma parseScript_first_line_witness :
  has_char newline "s = Solver(name='solver_$ID$')" = false
  /\ parseScript unit (fun _ _ _ => "64") ex_MANTA
       ("s = Solver(name='solver_$ID$')" +:+ String newline "res = $RES$") (Some ())
     = match parseLine unit (fun _ _ _ => "64") ex_MANTA
               "s = Solver(name='solver_$ID$')" (Some ()) with
       | inl e => inl e
       | inr (text, err) =>
           match parseScript unit (fun _ _ _ => "64") ex_MANTA "res = $RES$" (Some ()) with
           | inl e => inl e
           | inr (res, log) => inr (text +:+ String newline res, err ++ log)
           end
       end.
Proof.
  split; [reflexivity |]. apply parseScript_first_line. reflexivity.
Defined.

Lemma parseScript_no_delimiter_witness :
  Z.of_nat (String.length ("import os" +:+ String newline "x = 1")) < 2 ^ 31
  /\ has_delimiter ("import os" +:+ String newline "x = 1") = false
  /\ parseScript unit (fun _ _ _ => "64") ex_MANTA
       ("import os" +:+ String newline "x = 1") None
     = inr (terminated ("import os" +:+ String newline "x = 1"), []).
Proof.
  split; [reflexivity |]. split; [reflexivity |].
  apply parseScript_no_delimiter; reflexivity.
Defined.

Lemma parseScript_total_witness :
  Z.of_nat (String.length ("res = $RES$" +:+ String newline "id = $ID")) < 2 ^ 31
  /\ exists text err,
       parseScript unit (fun _ _ _ => "64") ex_MANTA
         ("res = $RES$" +:+ String newline "id = $ID") (Some ()) = inr (text, err).
Proof.
  split; [reflexivity |]. apply parseScript_total. reflexivity.
Defined.

Lemma parseLine_unterminated_variable_witness :
  Z.of_nat (String.length ("price: 5" +:+ "$" +:+ " each")) < 2 ^ 31
  /\ has_delimiter "price: 5" = false
  /\ has_delimiter " each" = false
  /\ parseLine unit (fun _ _ _ => "64") ex_MANTA
       ("price: 5" +:+ "$" +:+ " each") (Some ())
     = inr ("price: 5" +:+ "price: 5" +:+ "$" +:+ " each", [])
  /\ (parseLine unit (fun _ _ _ => "64") ex_MANTA
        ("price: 5" +:+ "$" +:+ " each") (Some ())
      = inr ("price: 5" +:+ "$" +:+ " each", [])
      <-> "price: 5" = "").
Proof.
  split; [reflexivity |]. split; [reflexivity |]. split; [reflexivity |].
  apply parseLine_unterminated_variable; reflexivity.
Defined.

Lemma parseLine_substitutes_first_variable_witness :
  Z.of_nat (String.length ("res = " +:+ "$" +:+ "RES" +:+ "$" +:+ " # $ID$")) < 2 ^ 31
  /\ has_delimiter "res = " = false
  /\ has_delimiter "RES" = false
  /\ exists res log,
       parseLine unit (fun _ _ _ => "64") ex_MANTA " # $ID$" (Some ()) = inr (res, log)
       /\ parseLine unit (fun _ _ _ => "64") ex_MANTA
            ("res = " +:+ "$" +:+ "RES" +:+ "$" +:+ " # $ID$") (Some ())
          = inr ("res = "
                 +:+ (getRealValue unit (fun _ _ _ => "64") ex_MANTA "RES" (Some ())).1
                 +:+ res,
                 (getRealValue unit (fun _ _ _ => "64") ex_MANTA "RES" (Some ())).2
                 ++ log).
Proof.
  split; [reflexivity |]. split; [reflexivity |]. split; [reflexivity |].
  apply parseLine_substitutes_first_variable; reflexivity.
Defined.

Lemma parseLine_null_modifier_data_witness :
  "RES" <> "ID"
  /\ has_delimiter "res = " = false
  /\ has_delimiter "RES" = false
  /\ Z.of_nat (String.length ("res = " +:+ "$" +:+ "RES" +:+ "$" +:+ " # $ID$")) < 2 ^ 31
  /\ exists res log,
       parseLine unit (fun _ _ _ => "64") ex_MANTA " # $ID$" None = inr (res, log)
       /\ parseLine unit (fun _ _ _ => "64") ex_MANTA
            ("res = " +:+ "$" +:+ "RES" +:+ "$" +:+ " # $ID$") None
          = inr ("res = " +:+ "ERROR - INVALID MODIFIER DATA" +:+ res,
                 "Fluid Error -- Invalid modifier data." :: log).
Proof.
  split; [discriminate |]. split; [reflexivity |]. split; [reflexivity |].
  split; [reflexivity |].
  apply parseLine_null_modifier_data; [discriminate | reflexivity..].
Defined.

Lemma updateParticlesFromUni_PB02_reads_records_witness :
  magic_readable ex_positions = true
  /\ has_magic ex_positions "PB02"
  /\ header_sane ex_positions ex_indeterminate = true
  /\ header_count ex_positions ex_indeterminate = Z.of_nat 2
  /\ (0 < 2)%nat
  /\ (2 * 16 <= length (gz_rest (uni_payload ex_positions)))%nat
  /\ Z.of_nat 2 <= numChunksOf (Z.of_nat 2) PARTICLE_CHUNK * PARTICLE_CHUNK
  /\ exists data,
       updateParticlesFromUni ex_MANTA (Some ex_positions) false false ex_indeterminate
       = Returned (gz_status ex_positions =? Z_OK) (set_dataPointer false data ex_MANTA)
       /\ length data = 2%nat
       /\ forall i, (i < 2)%nat ->
            data !! i
            = Some (decode_pData (record_bytes 16 (gz_rest (uni_payload ex_positions)) i)).
Proof.
  assert (H1 : magic_readable ex_positions = true) by reflexivity.
  assert (H2 : has_magic ex_positions "PB02") by reflexivity.
  assert (H3 : header_sane ex_positions ex_indeterminate = true) by reflexivity.
  assert (H4 : header_count ex_positions ex_indeterminate = Z.of_nat 2) by reflexivity.
  assert (H5 : (0 < 2)%nat) by lia.
  assert (H6 : (2 * 16 <= length (gz_rest (uni_payload ex_positions)))%nat)
    by (vm_compute; lia).
  assert (H7 : Z.of_nat 2 <= numChunksOf (Z.of_nat 2) PARTICLE_CHUNK * PARTICLE_CHUNK)
    by (vm_compute; discriminate).
  repeat (split; [assumption |]).
  exact (updateParticlesFromUni_PB02_reads_records ex_MANTA ex_positions false false
           ex_indeterminate 2 H1 H2 H3 H4 H5 H6 H7).
Defined.

Lemma updateParticlesFromUni_PD01_velocities_witness :
  magic_readable ex_velocities = true
  /\ has_magic ex_velocities "PD01"
  /\ header_sane ex_velocities ex_indeterminate = true
  /\ header_count ex_velocities ex_indeterminate = Z.of_nat 2
  /\ (0 < 2)%nat
  /\ (2 * 12 <= length (gz_rest (uni_payload ex_velocities)))%nat
  /\ Z.of_nat 2 <= numChunksOf (Z.of_nat 2) PARTICLE_CHUNK * PARTICLE_CHUNK
  /\ exists vel,
       updateParticlesFromUni ex_MANTA (Some ex_velocities) true true ex_indeterminate
       = Returned (gz_status ex_velocities =? Z_OK) (set_velocityPointer true vel ex_MANTA)
       /\ length vel = 2%nat
       /\ forall i, (i < 2)%nat ->
            vel !! i
            = Some (mk_pVel (decode_float3
                               (record_bytes 12 (gz_rest (uni_payload ex_velocities)) i))).
Proof.
  assert (H1 : magic_readable ex_velocities = true) by reflexivity.
  assert (H2 : has_magic ex_velocities "PD01") by reflexivity.
  assert (H3 : header_sane ex_velocities ex_indeterminate = true) by reflexivity.
  assert (H4 : header_count ex_velocities ex_indeterminate = Z.of_nat 2) by reflexivity.
  assert (H5 : (0 < 2)%nat) by lia.
  assert (H6 : (2 * 12 <= length (gz_rest (uni_payload ex_velocities)))%nat)
    by (vm_compute; lia).
  assert (H7 : Z.of_nat 2 <= numChunksOf (Z.of_nat 2) PARTICLE_CHUNK * PARTICLE_CHUNK)
    by (vm_compute; discriminate).
  repeat (split; [assumption |]).
  exact (updateParticlesFromUni_PD01_velocities ex_MANTA ex_velocities true
           ex_indeterminate 2 H1 H2 H3 H4 H5 H6 H7).
Defined.

Lemma updateParticlesFromUni_PD01_life_witness :
  magic_readable ex_life = true
  /\ has_magic ex_life "PD01"
  /\ header_sane ex_life ex_indeterminate = true
  /\ header_count ex_life ex_indeterminate = Z.of_nat 3
  /\ (0 < 3)%nat
  /\ (3 * 4 <= length (gz_rest (uni_payload ex_life)))%nat
  /\ Z.of_nat 3 <= numChunksOf (Z.of_nat 3) PARTICLE_CHUNK * PARTICLE_CHUNK
  /\ exists life,
       updateParticlesFromUni ex_MANTA (Some ex_life) true false ex_indeterminate
       = Returned (gz_status ex_life =? Z_OK) (set_mSndParticleLife life ex_MANTA)
       /\ length life = 3%nat
       /\ forall i, (i < 3)%nat ->
            life !! i = Some (float_at (record_bytes 4 (gz_rest (uni_payload ex_life)) i) 0).
Proof.
  assert (H1 : magic_readable ex_life = true) by reflexivity.
  assert (H2 : has_magic ex_life "PD01") by reflexivity.
  assert (H3 : header_sane ex_life ex_indeterminate = true) by reflexivity.
  assert (H4 : header_count ex_life ex_indeterminate = Z.of_nat 3) by reflexivity.
  assert (H5 : (0 < 3)%nat) by lia.
  assert (H6 : (3 * 4 <= length (gz_rest (uni_payload ex_life)))%nat)
    by (vm_compute; lia).
  assert (H7 : Z.of_nat 3 <= numChunksOf (Z.of_nat 3) PARTICLE_CHUNK * PARTICLE_CHUNK)
    by (vm_compute; discriminate).
  repeat (split; [assumption |]).
  exact (updateParticlesFromUni_PD01_life ex_MANTA ex_life ex_indeterminate 3
           H1 H2 H3 H4 H5 H6 H7).
Defined.

Lemma updateParticlesFromUni_PD01_life_of_FLIP_witness :
  magic_readable ex_life = true
  /\ has_magic ex_life "PD01"
  /\ header_sane ex_life ex_indeterminate = true
  /\ header_count ex_life ex_indeterminate <> 0
  /\ updateParticlesFromUni ex_MANTA (Some ex_life) false false ex_indeterminate
     = Thrown NullPointer.
Proof.
  assert (H1 : magic_readable ex_life = true) by reflexivity.
  assert (H2 : has_magic ex_life "PD01") by reflexivity.
  assert (H3 : header_sane ex_life ex_indeterminate = true) by reflexivity.
  assert (H4 : header_count ex_life ex_indeterminate <> 0) by (vm_compute; discriminate).
  repeat (split; [assumption |]).
  exact (updateParticlesFromUni_PD01_life_of_FLIP ex_MANTA ex_life ex_indeterminate
           H1 H2 H3 H4).
Defined.

Lemma updateMeshFromUni_MD01_velocities_witness :
  magic_readable ex_mesh_velocities = true
  /\ has_magic ex_mesh_velocities "MD01"
  /\ header_sane ex_mesh_velocities ex_indeterminate = true
  /\ header_count ex_mesh_velocities ex_indeterminate = Z.of_nat 2
  /\ (0 < 2)%nat
  /\ mMeshVelocities ex_MANTA_speed = Some []
  /\ (2 * 12 <= length (gz_rest (uni_payload ex_mesh_velocities)))%nat
  /\ exists vel,
       updateMeshFromUni ex_MANTA_speed (Some ex_mesh_velocities) ex_indeterminate
       = Returned (gz_status ex_mesh_velocities =? Z_OK)
           (set_mMeshVelocities (Some vel) ex_MANTA_speed)
       /\ length vel = 2%nat
       /\ forall i, (i < 2)%nat ->
            vel !! i
            = Some (mk_pVel (decode_float3
                      (record_bytes 12 (gz_rest (uni_payload ex_mesh_velocities)) i))).
Proof.
  assert (H1 : magic_readable ex_mesh_velocities = true) by reflexivity.
  assert (H2 : has_magic ex_mesh_velocities "MD01") by reflexivity.
  assert (H3 : header_sane ex_mesh_velocities ex_indeterminate = true) by reflexivity.
  assert (H4 : header_count ex_mesh_velocities ex_indeterminate = Z.of_nat 2)
    by reflexivity.
  assert (H5 : (0 < 2)%nat) by lia.
  assert (H6 : mMeshVelocities ex_MANTA_speed = Some []) by reflexivity.
  assert (H7 : (2 * 12 <= length (gz_rest (uni_payload ex_mesh_velocities)))%nat)
    by (vm_compute; lia).
  repeat (split; [assumption |]).
  exact (updateMeshFromUni_MD01_velocities ex_MANTA_speed ex_mesh_velocities
           ex_indeterminate 2 [] H1 H2 H3 H4 H5 H6 H7).
Defined.

Lemma updateGridFromUni_reads_payload_witness :
  magic_readable ex_grid_file = true
  /\ has_magic ex_grid_file "MNT3"
  /\ grid_header_dims ex_grid_file (replicate 16 Byte.xff)
     = expected_res ex_MANTA false
  /\ (expected_res ex_MANTA false).1.1 * (expected_res ex_MANTA false).1.2
       * (expected_res ex_MANTA false).2 = Z.of_nat 2
  /\ 4 * Z.of_nat 2 < 2 ^ 31
  /\ length ex_grid = (4 * 2)%nat
  /\ (4 * 2 <= length (drop 292 (gz_rest ex_grid_file)))%nat
  /\ updateGridFromUni ex_MANTA (Some ex_grid_file)
       ex_grid false (replicate 16 Byte.xff)
     = (gz_status ex_grid_file =? Z_OK,
        take (4 * 2) (drop 292 (gz_rest ex_grid_file))).
Proof.
  set (f := grid_file "MNT3" [1; 1; 2; 0] [5; 6]).
  assert (H1 : magic_readable ex_grid_file = true) by reflexivity.
  assert (H2 : has_magic ex_grid_file "MNT3") by reflexivity.
  assert (H3 : grid_header_dims ex_grid_file (replicate 16 Byte.xff) = expected_res ex_MANTA false)
    by reflexivity.
  assert (H4 : (expected_res ex_MANTA false).1.1 * (expected_res ex_MANTA false).1.2
               * (expected_res ex_MANTA false).2 = Z.of_nat 2) by reflexivity.
  assert (H5 : 4 * Z.of_nat 2 < 2 ^ 31) by reflexivity.
  assert (H6 : length ex_grid = (4 * 2)%nat) by reflexivity.
  assert (H7 : (4 * 2 <= length (drop 292 (gz_rest ex_grid_file)))%nat) by (vm_compute; lia).
  repeat (split; [assumption |]).
  exact (updateGridFromUni_reads_payload ex_MANTA ex_grid_file ex_grid false (replicate 16 Byte.xff)
           2 H1 H2 H3 H4 H5 H6 H7).
Defined.

Lemma updateGridFromRaw_reads_file_witness :
  0 < expectedBytes ex_MANTA false
  /\ length ex_grid = Z.to_nat (expectedBytes ex_MANTA false)
  /\ (Z.to_nat (expectedBytes ex_MANTA false)
      <= length (gz_rest ex_raw_file))%nat
  /\ updateGridFromRaw false ex_MANTA (Some ex_raw_file)
       ex_grid false
     = Returned (gz_status ex_raw_file =? Z_OK)
         (take (Z.to_nat (expectedBytes ex_MANTA false))
            (gz_rest ex_raw_file)).
Proof.
  assert (H1 : 0 < expectedBytes ex_MANTA false) by reflexivity.
  assert (H2 : length ex_grid = Z.to_nat (expectedBytes ex_MANTA false)) by reflexivity.
  assert (H3 : (Z.to_nat (expectedBytes ex_MANTA false)
                <= length (gz_rest ex_raw_file))%nat)
    by (vm_compute; lia).
  repeat (split; [assumption |]).
  exact (updateGridFromRaw_reads_file false ex_MANTA ex_raw_file
           ex_grid false H1 H2 H3).
Defined.

Lemma updateMeshFromBobj_reads_mesh_witness :
  (0 < 1)%nat /\ (0 < 1)%nat /\ Z.of_nat 1 < 2 ^ 31 /\ Z.of_nat 1 < 2 ^ 31
  /\ length ex_vertex = (1 * 12)%nat /\ length ex_normal = (1 * 12)%nat
  /\ length ex_triangle = (1 * 12)%nat
  /\ Z.of_nat 1 <= numChunksOf (Z.of_nat 1) NODE_CHUNK * NODE_CHUNK
  /\ Z.of_nat 1 <= numChunksOf (Z.of_nat 1) TRIANGLE_CHUNK * TRIANGLE_CHUNK
  /\ exists nodes tris,
       updateMeshFromBobj ex_MANTA
         (Some (mk_gzFile (mem_words [Z.of_nat 1] ++ ex_vertex ++ mem_words [Z.of_nat 1]
                           ++ ex_normal ++ mem_words [Z.of_nat 1] ++ ex_triangle) Z_OK))
         [] [] []
       = Returned (Z_OK =? Z_OK) (set_mMeshTriangles tris (set_mMeshNodes nodes ex_MANTA))
       /\ length nodes = 1%nat /\ length tris = 1%nat
       /\ (forall i, (i < 1)%nat ->
             nodes !! i = Some (mk_Node (decode_float3 (record_bytes 12 ex_vertex i))
                                        (decode_float3 (record_bytes 12 ex_normal i))))
       /\ (forall i, (i < 1)%nat ->
             tris !! i = Some (mk_Triangle (decode_int3 (record_bytes 12 ex_triangle i)))).
Proof.
  assert (H1 : (0 < 1)%nat) by lia.
  assert (H2 : Z.of_nat 1 < 2 ^ 31) by reflexivity.
  assert (H3 : length ex_vertex = (1 * 12)%nat) by reflexivity.
  assert (H4 : length ex_normal = (1 * 12)%nat) by reflexivity.
  assert (H5 : length ex_triangle = (1 * 12)%nat) by reflexivity.
  assert (H6 : Z.of_nat 1 <= numChunksOf (Z.of_nat 1) NODE_CHUNK * NODE_CHUNK)
    by (vm_compute; discriminate).
  assert (H7 : Z.of_nat 1 <= numChunksOf (Z.of_nat 1) TRIANGLE_CHUNK * TRIANGLE_CHUNK)
    by (vm_compute; discriminate).
  repeat (split; [assumption |]).
  exact (updateMeshFromBobj_reads_mesh ex_MANTA Z_OK 1 1 ex_vertex ex_normal ex_triangle
           [] [] [] H1 H1 H2 H2 H3 H4 H5 H6 H7).
Defined.

Lemma updateMeshFromBobj_more_normals_than_vertices_witness :
  (0 < 1)%nat /\ (1 < 2)%nat /\ Z.of_nat 1 < NODE_CHUNK /\ Z.of_nat 2 < 2 ^ 31
  /\ length ex_vertex = (1 * 12)%nat /\ ex_normal ++ ex_normal <> []
  /\ Z.of_nat 1 <= numChunksOf (Z.of_nat 1) NODE_CHUNK * NODE_CHUNK
  /\ updateMeshFromBobj ex_MANTA
       (Some (mk_gzFile (mem_words [Z.of_nat 1] ++ ex_vertex ++ mem_words [Z.of_nat 2]
                         ++ ex_normal ++ ex_normal) Z_OK))
       [] [] []
     = Thrown OutOfRange.
Proof.
  assert (H1 : (0 < 1)%nat) by lia.
  assert (H2 : (1 < 2)%nat) by lia.
  assert (H3 : Z.of_nat 1 < NODE_CHUNK) by reflexivity.
  assert (H4 : Z.of_nat 2 < 2 ^ 31) by reflexivity.
  assert (H5 : length ex_vertex = (1 * 12)%nat) by reflexivity.
  assert (H6 : ex_normal ++ ex_normal <> []) by discriminate.
  assert (H7 : Z.of_nat 1 <= numChunksOf (Z.of_nat 1) NODE_CHUNK * NODE_CHUNK)
    by (vm_compute; discriminate).
  repeat (split; [assumption |]).
  exact (updateMeshFromBobj_more_normals_than_vertices ex_MANTA Z_OK 1 2 ex_vertex
           (ex_normal ++ ex_normal) [] [] [] H1 H2 H3 H4 H5 H6 H7).
Defined.

Lemma updateFlipStructures_velocities_only_witness :
  true = true /\ false = false
  /\ null_mFlipParticleData ex_allocated = false
  /\ null_mFlipParticleVelocity ex_allocated = false
  /\ BLI_exists ex_disk_velocities "pp_0001.uni" = false
  /\ BLI_exists ex_disk_velocities "pVel_0001.uni" = true
  /\ updateParticlesFromFile ex_disk_velocities
       (set_mFlipParticleVelocity [] (set_mFlipParticleData [] ex_MANTA))
       "pVel_0001.uni" false true ex_indeterminate
     = Returned true ex_MANTA
  /\ updateFlipStructures false ex_disk_velocities ex_MANTA ex_allocated true false
       "pp_0001.uni" "pVel_0001.uni" ex_indeterminate ex_indeterminate
     = Thrown AssertionFailure
  /\ updateFlipStructures true ex_disk_velocities ex_MANTA ex_allocated true false
       "pp_0001.uni" "pVel_0001.uni" ex_indeterminate ex_indeterminate
     = Returned false ex_MANTA.
Proof.
  assert (H1 : BLI_exists ex_disk_velocities "pp_0001.uni" = false) by reflexivity.
  assert (H2 : BLI_exists ex_disk_velocities "pVel_0001.uni" = true) by reflexivity.
  assert (H3 : updateParticlesFromFile ex_disk_velocities
                 (set_mFlipParticleVelocity [] (set_mFlipParticleData [] ex_MANTA))
                 "pVel_0001.uni" false true ex_indeterminate
               = Returned true ex_MANTA) by (vm_compute; reflexivity).
  do 4 (split; [reflexivity |]). do 3 (split; [assumption |]).
  exact (updateFlipStructures_velocities_only ex_disk_velocities ex_MANTA ex_allocated
           true false "pp_0001.uni" "pVel_0001.uni" ex_indeterminate ex_indeterminate
           true ex_MANTA eq_refl eq_refl eq_refl eq_refl H1 H2 H3).
Defined.

Lemma updateFlipStructures_reads_frame_witness :
  null_mFlipParticleData ex_allocated = false
  /\ null_mFlipParticleVelocity ex_allocated = false
  /\ BLI_exists ex_disk ("pp_0001" +:+ ".uni") = true
  /\ BLI_exists ex_disk ("pVel_0001" +:+ ".uni") = true
  /\ BLI_gzopen ex_disk ("pp_0001" +:+ ".uni") = Some ex_positions
  /\ BLI_gzopen ex_disk ("pVel_0001" +:+ ".uni") = Some ex_velocities
  /\ gz_status ex_positions = Z_OK /\ gz_status ex_velocities = Z_OK
  /\ magic_readable ex_positions = true /\ has_magic ex_positions "PB02"
  /\ header_sane ex_positions ex_indeterminate = true
  /\ header_count ex_positions ex_indeterminate = Z.of_nat 2
  /\ (0 < 2)%nat /\ (2 * 16 <= length (gz_rest (uni_payload ex_positions)))%nat
  /\ Z.of_nat 2 <= numChunksOf (Z.of_nat 2) PARTICLE_CHUNK * PARTICLE_CHUNK
  /\ magic_readable ex_velocities = true /\ has_magic ex_velocities "PD01"
  /\ header_sane ex_velocities ex_indeterminate = true
  /\ header_count ex_velocities ex_indeterminate = Z.of_nat 2
  /\ (2 * 12 <= length (gz_rest (uni_payload ex_velocities)))%nat
  /\ exists data vel,
       updateFlipStructures false ex_disk ex_MANTA ex_allocated true false
         ("pp_0001" +:+ ".uni") ("pVel_0001" +:+ ".uni") ex_indeterminate ex_indeterminate
       = Returned true (set_mFlipParticleVelocity vel (set_mFlipParticleData data ex_MANTA))
       /\ length data = 2%nat /\ length vel = 2%nat
       /\ (forall i, (i < 2)%nat ->
             data !! i
             = Some (decode_pData (record_bytes 16 (gz_rest (uni_payload ex_positions)) i)))
       /\ (forall i, (i < 2)%nat ->
             vel !! i
             = Some (mk_pVel (decode_float3
                       (record_bytes 12 (gz_rest (uni_payload ex_velocities)) i)))).
Proof.
  assert (E1 : BLI_exists ex_disk ("pp_0001" +:+ ".uni") = true) by reflexivity.
  assert (E2 : BLI_exists ex_disk ("pVel_0001" +:+ ".uni") = true) by reflexivity.
  assert (O1 : BLI_gzopen ex_disk ("pp_0001" +:+ ".uni") = Some ex_positions)
    by reflexivity.
  assert (O2 : BLI_gzopen ex_disk ("pVel_0001" +:+ ".uni") = Some ex_velocities)
    by reflexivity.
  assert (S1 : gz_status ex_positions = Z_OK) by reflexivity.
  assert (S2 : gz_status ex_velocities = Z_OK) by reflexivity.
  assert (P1 : magic_readable ex_positions = true) by reflexivity.
  assert (P2 : has_magic ex_positions "PB02") by reflexivity.
  assert (P3 : header_sane ex_positions ex_indeterminate = true) by reflexivity.
  assert (P4 : header_count ex_positions ex_indeterminate = Z.of_nat 2) by reflexivity.
  assert (P5 : (0 < 2)%nat) by lia.
  assert (P6 : (2 * 16 <= length (gz_rest (uni_payload ex_positions)))%nat)
    by (vm_compute; lia).
  assert (P7 : Z.of_nat 2 <= numChunksOf (Z.of_nat 2) PARTICLE_CHUNK * PARTICLE_CHUNK)
    by (vm_compute; discriminate).
  assert (V1 : magic_readable ex_velocities = true) by reflexivity.
  assert (V2 : has_magic ex_velocities "PD01") by reflexivity.
  assert (V3 : header_sane ex_velocities ex_indeterminate = true) by reflexivity.
  assert (V4 : header_count ex_velocities ex_indeterminate = Z.of_nat 2) by reflexivity.
  assert (V6 : (2 * 12 <= length (gz_rest (uni_payload ex_velocities)))%nat)
    by (vm_compute; lia).
  do 2 (split; [reflexivity |]). repeat (split; [assumption |]).
  exact (updateFlipStructures_reads_frame false ex_disk ex_MANTA ex_allocated
           "pp_0001" "pVel_0001"
           ex_positions ex_velocities ex_indeterminate ex_indeterminate 2 2
           eq_refl eq_refl E1 E2 O1 O2 S1 S2 P1 P2 P3 P4 P5 P6 P7 V1 V2 V3 V4 P5 V6 P7).
Defined.

Lemma writeNoise_without_noise_witness :
  true && false = false
  /\ writeNoise unit (fun py _ => (py, 0)) false ex_MANTA true false
       ex_path "uni" false 1 ()
     = if false then Returned false () else Thrown AssertionFailure.
Proof.
  split; [reflexivity |].
  exact (writeNoise_without_noise unit (fun py _ => (py, 0)) false ex_MANTA true false
           ex_path "uni" false 1 () eq_refl).
Defined.

Lemma readConfiguration_empty_file_witness :
  domain_ok ex_domain = true
  /\ readConfiguration ex_domain true (Some (mk_gzFile [] Z_OK)) 0
     = (Z_OK =? Z_OK, restored ex_domain ex_domain).
Proof.
  split; [reflexivity |]. apply readConfiguration_empty_file. reflexivity.
Defined.

(** ** Chunk loops on a stream that runs dry *)

(** The inner loop inside the destination does not throw. *)
Lemma copy_loop_in_range {T : Type} kstep (store : list byte -> Z -> T -> T)
    (n : nat) buffer (j : nat) k (dest : list T) :
  (j + n <= length dest)%nat ->
  exists dest', copy_loop kstep store n buffer (Z.of_nat j) k dest = inr dest'
    /\ length dest' = length dest.
Proof.
  revert j k dest. induction n as [| n IH]; intros j k dest Hn.
  - by exists dest.
  - cbn [copy_loop]. rewrite Nat2Z.id.
    destruct (lookup_lt_is_Some_2 dest j) as [x ->]; [lia |].
    replace (Z.of_nat j + 1) with (Z.of_nat (S j)) by lia.
    destruct (IH (S j) (k + kstep) (<[j := store buffer k x]> dest))
      as (dest' & -> & Hlen); [rewrite length_insert; lia |].
    exists dest'. split; [done |]. by rewrite Hlen, length_insert.
Qed.

Section ChunkLoopDry.

Context {T : Type}.
Context (CHUNK recSize kstep : Z).
Context (store : list byte -> Z -> T -> T).

Hypothesis CHUNK_pos : 0 < CHUNK.
Hypothesis recSize_pos : 0 < recSize.
Hypothesis chunk_fits : CHUNK * recSize < 2 ^ 31.

(** A stream that holds no more than [k] full chunks, under a loop that
    still has more than [k] chunks to make for more than [k] full chunks of
    records: a read returns 0 at chunk [k] at the latest, and the loop
    runs its [return false]. *)
Lemma chunk_loop_dry (k n : nat) (N todo : nat) gzf buffer dest :
  (todo <= N)%nat -> Z.of_nat N < 2 ^ 31 ->
  (N - todo + k * Z.to_nat CHUNK <= length dest)%nat ->
  (k < n)%nat -> (k * Z.to_nat CHUNK < todo)%nat ->
  (length (gz_rest gzf) <= k * Z.to_nat CHUNK * Z.to_nat recSize)%nat ->
  exists dest',
    chunk_loop CHUNK recSize kstep store n (Z.of_nat N) (Z.of_nat todo) gzf buffer dest
    = Aborted dest'.
Proof.
  set (C := Z.to_nat CHUNK). set (rs := Z.to_nat recSize).
  assert (HC : (0 < C)%nat) by (unfold C; lia).
  assert (Hrs : (0 < rs)%nat) by (unfold rs; lia).
  intros Htodo HN. revert n todo gzf buffer dest Htodo.
  induction k as [| k IH]; intros n todo gzf buffer dest Htodo Hdest Hn Hk Hdata.
  - destruct n as [| n]; [lia |]. exists dest.
    apply chunk_loop_read_zero; [lia |].
    assert (Hempty : gz_rest gzf = []) by (apply nil_length_inv; lia).
    destruct gzf as [rest status]. cbn [gz_rest] in Hempty. subst rest.
    rewrite gzread_empty. cbn [snd].
    assert (Hlen : 0 <= (if Z.of_nat todo <? CHUNK then Z.of_nat todo else CHUNK)
                        * recSize < 2 ^ 31).
    { destruct (Z.of_nat todo <? CHUNK) eqn:E;
        [apply Z.ltb_lt in E | apply Z.ltb_ge in E]; nia. }
    rewrite Z.mod_small by lia.
    destruct (2 ^ 31 <=? _) eqn:E; [apply Z.leb_le in E; lia | reflexivity].
  - destruct n as [| n]; [lia |].
    assert (Htodo_C : (C < todo)%nat) by (fold C in Hk; nia).
    cbn [chunk_loop].
    rewrite (proj2 (Z.ltb_lt 0 (Z.of_nat todo))) by lia.
    rewrite (proj2 (Z.ltb_ge (Z.of_nat todo) CHUNK)) by (unfold C in Htodo_C; lia).
    rewrite gzread_fits by lia.
    destruct (Z.of_nat (length (take (Z.to_nat (CHUNK * recSize)) (gz_rest gzf))) =? 0);
      [by exists dest |].
    assert (Hstart : CLAMP (Z.of_nat N - Z.of_nat todo) 0 (Z.of_nat N)
                     = Z.of_nat (N - todo)).
    { unfold CLAMP.
      rewrite (proj2 (Z.ltb_ge (Z.of_nat N - Z.of_nat todo) 0)) by lia.
      rewrite (proj2 (Z.ltb_ge (Z.of_nat N) (Z.of_nat N - Z.of_nat todo))) by lia.
      lia. }
    rewrite Hstart.
    assert (Hend : CLAMP (Z.of_nat (N - todo) + CHUNK) 0 (Z.of_nat N)
                   = Z.of_nat (N - todo + C)).
    { unfold CLAMP.
      rewrite (proj2 (Z.ltb_ge (Z.of_nat (N - todo) + CHUNK) 0)) by lia.
      rewrite (proj2 (Z.ltb_ge (Z.of_nat N) (Z.of_nat (N - todo) + CHUNK)))
        by (unfold C in Htodo_C; lia).
      unfold C. lia. }
    rewrite Hend.
    replace (Z.to_nat (Z.of_nat (N - todo + C) - Z.of_nat (N - todo))) with C by lia.
    destruct (copy_loop_in_range kstep store C
                (overwrite (take (Z.to_nat (CHUNK * recSize)) (gz_rest gzf)) buffer)
                (N - todo) 0 dest) as (dest1 & -> & Hlen1).
    { fold C in Hdest. lia. }
    replace (Z.of_nat todo - CHUNK) with (Z.of_nat (todo - C)) by (unfold C; lia).
    apply IH.
    + lia.
    + rewrite Hlen1. fold C in Hdest. lia.
    + lia.
    + fold C in Hk. lia.
    + cbn [gz_rest]. rewrite length_drop. fold C rs in Hdata.
      replace (Z.to_nat (CHUNK * recSize)) with (C * rs)%nat by (unfold C, rs; nia).
      lia.
Qed.

(** The same from the boolean test, for a loop that starts at the first
    record. *)
Lemma chunk_loop_runs_dry (k : nat) (numChunks N : Z) gzf buffer dest :
  0 <= N < 2 ^ 31 ->
  runs_dry CHUNK recSize numChunks N (gz_rest gzf) k = true ->
  (k * Z.to_nat CHUNK <= length dest)%nat ->
  exists dest',
    chunk_loop CHUNK recSize kstep store (Z.to_nat numChunks) N N gzf buffer dest
    = Aborted dest'.
Proof.
  intros HN Hdry Hdest. unfold runs_dry in Hdry.
  apply andb_true_iff in Hdry as [Hdry Hdata].
  apply andb_true_iff in Hdry as [Hk HkN].
  apply Z.ltb_lt in Hk, HkN. apply Z.leb_le in Hdata.
  rewrite <- (Z2Nat.id N) by lia.
  apply chunk_loop_dry with (k := k); [lia | lia | lia | lia | nia | nia].
Qed.

End ChunkLoopDry.

(** A snapshot whose payload runs dry: the call returns false, whichever
    of the three chunk loops reads it. *)
Lemma updateParticlesFromUni_runs_dry m gzf isSecondarySys isVelData u recSize (k : nat) :
  magic_readable gzf = true ->
  header_sane gzf u = true ->
  particle_record_size (file_magic_of gzf) isSecondarySys isVelData = Some recSize ->
  runs_dry PARTICLE_CHUNK recSize (numChunksOf (header_count gzf u) PARTICLE_CHUNK)
    (header_count gzf u) (gz_rest (uni_payload gzf)) k = true ->
  exists m', updateParticlesFromUni m (Some gzf) isSecondarySys isVelData u
             = Returned false m'.
Proof.
  intros Hread Hsane Hsize Hdry.
  pose proof (header_count_range gzf u) as Hrange.
  assert (Hpos : 0 <= Z.of_nat k * PARTICLE_CHUNK < header_count gzf u).
  { unfold runs_dry in Hdry. apply andb_true_iff in Hdry as [Hdry _].
    apply andb_true_iff in Hdry as [_ HkN]. apply Z.ltb_lt in HkN.
    unfold PARTICLE_CHUNK in *. lia. }
  set (N := Z.to_nat (header_count gzf u)).
  assert (HN : header_count gzf u = Z.of_nat N) by (unfold N; lia).
  assert (Hk : (k * Z.to_nat PARTICLE_CHUNK <= N)%nat)
    by (unfold N, PARTICLE_CHUNK in *; lia).
  clearbody N.
  rewrite updateParticlesFromUni_unfold, Hread, Hsane, HN. cbn [negb].
  rewrite HN in Hdry, Hpos, Hrange.
  unfold particle_record_size in Hsize.
  assert (H01 : streq (file_magic_of gzf) "PB01" = false).
  { destruct (streq (file_magic_of gzf) "PB02") eqn:E02.
    - apply (streq_other _ "PB02"); [done | vm_compute; discriminate].
    - destruct (streq (file_magic_of gzf) "PD01") eqn:ED1; [| done].
      apply (streq_other _ "PD01"); [done | vm_compute; discriminate]. }
  rewrite H01.
  destruct (Z.of_nat N =? 0) eqn:E; [apply Z.eqb_eq in E; lia | clear E].
  unfold read_particles.
  destruct (streq (file_magic_of gzf) "PB02").
  { injection Hsize as <-. rewrite resize_nat.
    destruct (chunk_loop_runs_dry PARTICLE_CHUNK 16 1 store_pData
                ltac:(reflexivity) ltac:(reflexivity) ltac:(reflexivity)
                k (numChunksOf (Z.of_nat N) PARTICLE_CHUNK)
                (Z.of_nat N) (uni_payload gzf) (i_chunk u)
                (take N (dataPointer m isSecondarySys)
                 ++ replicate (N - length (dataPointer m isSecondarySys)) pData_zero))
      as (dest' & ->); [lia | done | by rewrite resize_length |].
    by eexists. }
  destruct (streq (file_magic_of gzf) "PD01"); [| done]. cbn [andb] in *.
  destruct isVelData.
  { injection Hsize as <-. rewrite resize_nat.
    destruct (chunk_loop_runs_dry PARTICLE_CHUNK 12 1 store_pVel
                ltac:(reflexivity) ltac:(reflexivity) ltac:(reflexivity)
                k (numChunksOf (Z.of_nat N) PARTICLE_CHUNK)
                (Z.of_nat N) (uni_payload gzf) (i_chunk u)
                (take N (velocityPointer m isSecondarySys)
                 ++ replicate (N - length (velocityPointer m isSecondarySys)) pVel_zero))
      as (dest' & ->); [lia | done | by rewrite resize_length |].
    by eexists. }
  destruct isSecondarySys; [| done].
  injection Hsize as <-. cbn [lifePointer]. rewrite resize_nat.
  destruct (chunk_loop_runs_dry PARTICLE_CHUNK 4 1 store_life
              ltac:(reflexivity) ltac:(reflexivity) ltac:(reflexivity)
              k (numChunksOf (Z.of_nat N) PARTICLE_CHUNK)
              (Z.of_nat N) (uni_payload gzf) (i_chunk u)
              (take N (mSndParticleLife m)
               ++ replicate (N - length (mSndParticleLife m)) 0))
    as (dest' & ->); [lia | done | by rewrite resize_length |].
  by eexists.
Qed.

(** A mesh file whose vertices run dry: the call returns false. *)
Lemma updateMeshFromBobj_vertices_run_dry m gzf bufferVerts bufferNormals
    bufferTriangles (k : nat) :
  gz_rest gzf <> [] ->
  runs_dry NODE_CHUNK 12 (numChunksOf (bobj_vertex_count gzf) NODE_CHUNK)
    (bobj_vertex_count gzf) (drop 4 (gz_rest gzf)) k = true ->
  exists m', updateMeshFromBobj m (Some gzf) bufferVerts bufferNormals bufferTriangles
             = Returned false m'.
Proof.
  intros Hnonempty Hdry.
  pose proof (to_int32_range
                (le_decode (take 4 (drop (Z.to_nat (4 * 0))
                   (overwrite (take 4 (gz_rest gzf)) (encode_int 0)))))) as Hrange.
  fold (int_at (overwrite (take 4 (gz_rest gzf)) (encode_int 0)) 0) in Hrange.
  fold (bobj_vertex_count gzf) in Hrange.
  assert (Hpos : 0 <= Z.of_nat k * NODE_CHUNK < bobj_vertex_count gzf).
  { unfold runs_dry in Hdry. apply andb_true_iff in Hdry as [Hdry _].
    apply andb_true_iff in Hdry as [_ HkN]. apply Z.ltb_lt in HkN.
    unfold NODE_CHUNK in *. lia. }
  set (V := Z.to_nat (bobj_vertex_count gzf)).
  assert (HV : bobj_vertex_count gzf = Z.of_nat V) by (unfold V; lia).
  assert (HkV : (k * Z.to_nat NODE_CHUNK <= V)%nat) by (unfold V, NODE_CHUNK in *; lia).
  clearbody V.
  unfold updateMeshFromBobj.
  rewrite (gzread_fits gzf (encode_int 0) 4) by const_len.
  change (Z.to_nat 4) with 4%nat.
  cbv beta iota zeta.
  destruct (Z.of_nat (length (take 4 (gz_rest gzf))) =? 0) eqn:E.
  { apply Z.eqb_eq in E. rewrite length_take in E.
    destruct (gz_rest gzf); [done | cbn in E; lia]. }
  fold (bobj_vertex_count gzf). rewrite HV. rewrite HV in Hdry, Hpos.
  destruct (Z.of_nat V =? 0) eqn:E0; [apply Z.eqb_eq in E0; lia |].
  rewrite resize_nat.
  destruct (chunk_loop_runs_dry NODE_CHUNK 12 3 store_vertex
              ltac:(reflexivity) ltac:(reflexivity) ltac:(reflexivity)
              k (numChunksOf (Z.of_nat V) NODE_CHUNK)
              (Z.of_nat V)
              (mk_gzFile (drop 4 (gz_rest gzf)) (gz_status gzf)) bufferVerts
              (take V (mMeshNodes m) ++ replicate (V - length (mMeshNodes m)) Node_zero))
    as (dest' & ->); [lia | done | by rewrite resize_length |].
  by eexists.
Qed.

Lemma is_int32_nat (V : nat) : Z.of_nat V < 2 ^ 31 -> is_int32 (Z.of_nat V) = true.
Proof.
  intros HV. unfold is_int32. apply andb_true_iff. rewrite Z.leb_le, Z.ltb_lt.
  assert (0 < 2 ^ 31) by reflexivity. lia.
Qed.

Lemma runs_dry_bounds CHUNK recSize numChunks N payload (k : nat) :
  0 < CHUNK ->
  runs_dry CHUNK recSize numChunks N payload k = true ->
  0 <= Z.of_nat k * CHUNK < N /\ Z.of_nat k < numChunks.
Proof.
  intros HC Hdry. unfold runs_dry in Hdry. apply andb_true_iff in Hdry as [Hdry _].
  apply andb_true_iff in Hdry as [Hk HkN]. apply Z.ltb_lt in Hk, HkN. nia.
Qed.

(** A mesh file whose vertices are complete and whose normals run dry:
    the call returns false. *)
Lemma updateMeshFromBobj_normals_run_dry m status (V : nat) (Nn : Z) vb nb
    bufferVerts bufferNormals bufferTriangles (k : nat) :
  (0 < V)%nat -> Z.of_nat V < 2 ^ 31 -> length vb = (V * 12)%nat ->
  Z.of_nat V <= numChunksOf (Z.of_nat V) NODE_CHUNK * NODE_CHUNK ->
  is_int32 Nn = true -> Z.of_nat k * NODE_CHUNK <= Z.of_nat V ->
  runs_dry NODE_CHUNK 12 (numChunksOf (Z.of_nat V) NODE_CHUNK) Nn nb k = true ->
  exists m',
    updateMeshFromBobj m
      (Some (mk_gzFile (mem_words [Z.of_nat V] ++ vb ++ mem_words [Nn] ++ nb) status))
      bufferVerts bufferNormals bufferTriangles
    = Returned false m'.
Proof.
  intros HV HV31 Hvb HchunksV HNint HkV Hdry.
  pose proof (is_int32_nat V HV31) as HVint.
  destruct (runs_dry_bounds NODE_CHUNK _ _ _ _ _ eq_refl Hdry) as [HkN Hk].
  assert (HNn31 : 0 <= Nn < 2 ^ 31).
  { unfold is_int32 in HNint. apply andb_true_iff in HNint as [_ H].
    apply Z.ltb_lt in H. lia. }
  assert (HVnz : (Z.of_nat V =? 0) = false) by (apply Z.eqb_neq; lia).
  assert (HNnz : (Nn =? 0) = false) by (apply Z.eqb_neq; lia).
  unfold updateMeshFromBobj.
  (* vertices *)
  rewrite gzread_count by done. cbv beta iota zeta.
  rewrite (int_at_count _ HVint), HVnz, resize_nat. cbn [negb Z.eqb].
  set (ncV := Z.to_nat (numChunksOf (Z.of_nat V) NODE_CHUNK)) in *.
  assert (HminV : (V `min` (ncV * Z.to_nat NODE_CHUNK) = V)%nat)
    by (unfold ncV, NODE_CHUNK in *; lia).
  set (nodes0 := take V (mMeshNodes m) ++ replicate (V - length (mMeshNodes m)) Node_zero).
  set (R1 := mem_words [Nn] ++ nb).
  destruct (chunk_loop_spec NODE_CHUNK 12 3 store_vertex put_vertex
              ltac:(reflexivity) ltac:(reflexivity) ltac:(reflexivity)
              store_vertex_put ncV V V (mk_gzFile (vb ++ R1) status) bufferVerts nodes0)
    as (gzf1 & nodes1 & -> & Hlen1 & Hrest1 & Hstatus1 & _);
    [lia | apply resize_length | lia | cbn [gz_rest]; rewrite length_app; lia |].
  rewrite HminV in Hrest1. cbn [gz_rest gz_status] in Hrest1, Hstatus1.
  change (Z.to_nat 12) with 12%nat in Hrest1.
  rewrite <- Hvb, drop_app_length in Hrest1.
  destruct gzf1 as [rest1 status1]. cbn [gz_rest gz_status] in Hrest1, Hstatus1.
  subst rest1 status1. unfold R1.
  (* normals *)
  rewrite gzread_count by done. cbv beta iota zeta.
  rewrite (int_at_count _ HNint), HNnz.
  unfold getNumVertices. cbn [mMeshNodes set_mMeshNodes negb].
  rewrite Hlen1, HVnz.
  destruct (chunk_loop_runs_dry NODE_CHUNK 12 3 store_normal
              ltac:(reflexivity) ltac:(reflexivity) ltac:(reflexivity)
              k (numChunksOf (Z.of_nat V) NODE_CHUNK) Nn
              (mk_gzFile nb status) bufferNormals nodes1)
    as (dest' & Hloop); [lia | done | unfold NODE_CHUNK in *; lia |].
  fold ncV in Hloop. rewrite Hloop.
  by eexists.
Qed.

(** A mesh file whose vertices and normals are complete and whose
    triangles run dry: the call returns false. *)
Lemma updateMeshFromBobj_triangles_run_dry m status (V : nat) (W : Z) vb nb tb
    bufferVerts bufferNormals bufferTriangles (k : nat) :
  (0 < V)%nat -> Z.of_nat V < 2 ^ 31 ->
  length vb = (V * 12)%nat -> length nb = (V * 12)%nat ->
  Z.of_nat V <= numChunksOf (Z.of_nat V) NODE_CHUNK * NODE_CHUNK ->
  is_int32 W = true ->
  runs_dry TRIANGLE_CHUNK 12 (numChunksOf W TRIANGLE_CHUNK) W tb k = true ->
  exists m',
    updateMeshFromBobj m
      (Some (mk_gzFile (mem_words [Z.of_nat V] ++ vb ++ mem_words [Z.of_nat V] ++ nb
                        ++ mem_words [W] ++ tb) status))
      bufferVerts bufferNormals bufferTriangles
    = Returned false m'.
Proof.
  intros HV HV31 Hvb Hnb HchunksV HWint Hdry.
  pose proof (is_int32_nat V HV31) as HVint.
  destruct (runs_dry_bounds TRIANGLE_CHUNK _ _ _ _ _ eq_refl Hdry) as [HkW Hk].
  assert (HW31 : 0 <= W < 2 ^ 31).
  { unfold is_int32 in HWint. apply andb_true_iff in HWint as [_ H].
    apply Z.ltb_lt in H. lia. }
  assert (HVnz : (Z.of_nat V =? 0) = false) by (apply Z.eqb_neq; lia).
  assert (HWnz : (W =? 0) = false) by (apply Z.eqb_neq; lia).
  set (Wn := Z.to_nat W).
  assert (HWn : W = Z.of_nat Wn) by (unfold Wn; lia).
  assert (HkWn : (k * Z.to_nat TRIANGLE_CHUNK <= Wn)%nat)
    by (unfold Wn, TRIANGLE_CHUNK in *; lia).
  clearbody Wn.
  set (ncV := Z.to_nat (numChunksOf (Z.of_nat V) NODE_CHUNK)) in *.
  assert (HminV : (V `min` (ncV * Z.to_nat NODE_CHUNK) = V)%nat)
    by (unfold ncV, NODE_CHUNK in *; lia).
  unfold updateMeshFromBobj.
  (* vertices *)
  rewrite gzread_count by done. cbv beta iota zeta.
  rewrite (int_at_count _ HVint), HVnz, resize_nat. cbn [negb Z.eqb].
  fold ncV.
  set (nodes0 := take V (mMeshNodes m) ++ replicate (V - length (mMeshNodes m)) Node_zero).
  set (R1 := mem_words [Z.of_nat V] ++ nb ++ mem_words [W] ++ tb).
  destruct (chunk_loop_spec NODE_CHUNK 12 3 store_vertex put_vertex
              ltac:(reflexivity) ltac:(reflexivity) ltac:(reflexivity)
              store_vertex_put ncV V V (mk_gzFile (vb ++ R1) status) bufferVerts nodes0)
    as (gzf1 & nodes1 & -> & Hlen1 & Hrest1 & Hstatus1 & _);
    [lia | apply resize_length | lia | cbn [gz_rest]; rewrite length_app; lia |].
  rewrite HminV in Hrest1. cbn [gz_rest gz_status] in Hrest1, Hstatus1.
  change (Z.to_nat 12) with 12%nat in Hrest1.
  rewrite <- Hvb, drop_app_length in Hrest1.
  destruct gzf1 as [rest1 status1]. cbn [gz_rest gz_status] in Hrest1, Hstatus1.
  subst rest1 status1. unfold R1.
  (* normals *)
  rewrite gzread_count by done. cbv beta iota zeta.
  rewrite (int_at_count _ HVint), HVnz.
  unfold getNumVertices. cbn [mMeshNodes set_mMeshNodes].
  rewrite Hlen1, HVnz.
  set (R2 := mem_words [W] ++ tb).
  destruct (chunk_loop_spec NODE_CHUNK 12 3 store_normal put_normal
              ltac:(reflexivity) ltac:(reflexivity) ltac:(reflexivity)
              store_normal_put ncV V V (mk_gzFile (nb ++ R2) status) bufferNormals nodes1)
    as (gzf2 & nodes2 & -> & Hlen2 & Hrest2 & Hstatus2 & _);
    [lia | done | lia | cbn [gz_rest]; rewrite length_app; lia |].
  rewrite HminV in Hrest2. cbn [gz_rest gz_status] in Hrest2, Hstatus2.
  change (Z.to_nat 12) with 12%nat in Hrest2.
  rewrite <- Hnb, drop_app_length in Hrest2.
  destruct gzf2 as [rest2 status2]. cbn [gz_rest gz_status] in Hrest2, Hstatus2.
  subst rest2 status2. unfold R2.
  (* triangles *)
  rewrite gzread_count by done. cbv beta iota zeta.
  rewrite (int_at_count _ HWint), HWnz.
  cbn [mMeshTriangles set_mMeshNodes negb].
  rewrite HWn in Hdry |- *. rewrite resize_nat.
  destruct (chunk_loop_runs_dry TRIANGLE_CHUNK 12 3 store_triangle
              ltac:(reflexivity) ltac:(reflexivity) ltac:(reflexivity)
              k (numChunksOf (Z.of_nat Wn) TRIANGLE_CHUNK) (Z.of_nat Wn)
              (mk_gzFile tb status) bufferTriangles
              (take Wn (mMeshTriangles m)
               ++ replicate (Wn - length (mMeshTriangles m)) Triangle_zero))
    as (dest' & ->); [lia | done | by rewrite resize_length |].
  by eexists.
Qed.

(** C6, amended: a read that returns 0 aborts the whole read.  In every
    iteration of every chunk loop it makes the loop run its [return false].
    [updateParticlesFromUni] returns false whenever the payload runs dry
    under one of its three chunk loops (PB02 data, PD01 velocities, PD01
    life times), at the first chunk or at a later one.  So does
    [updateMeshFromBobj] when the vertices run dry, when the normals run dry
    after complete vertices, and when the triangles run dry after complete
    vertices and normals.  [updateGridFromRaw] returns false, in debug and
    in release builds, with the grid as it was.  A raw-grid read that
    returns a count that is neither 0 nor [expectedBytes] fails the
    assertion in a debug build. *)
Theorem zero_read_returns_false {T : Type} CHUNK recSize kstep
    (store : list byte -> Z -> T -> T) (n : nat) N todo gzf buffer (dest : list T)
    m gzfP isSecondarySys isVelData u recSizeP (kP : nat)
    gzfV (kV : nat)
    statusM (V : nat) vb nb (Nn : Z) nb_dry (kN : nat) (W : Z) tb_dry (kT : nat)
    bufferVerts bufferNormals bufferTriangles
    ndebug gzf0 gzf1 grid isNoise :
  (* a chunk read that returns 0 *)
  0 < todo ->
  (gzread gzf buffer ((if todo <? CHUNK then todo else CHUNK) * recSize)).2 = 0 ->
  (* a particle snapshot whose payload runs dry *)
  magic_readable gzfP = true -> header_sane gzfP u = true ->
  particle_record_size (file_magic_of gzfP) isSecondarySys isVelData = Some recSizeP ->
  runs_dry PARTICLE_CHUNK recSizeP (numChunksOf (header_count gzfP u) PARTICLE_CHUNK)
    (header_count gzfP u) (gz_rest (uni_payload gzfP)) kP = true ->
  (* a mesh file whose vertices run dry *)
  gz_rest gzfV <> [] ->
  runs_dry NODE_CHUNK 12 (numChunksOf (bobj_vertex_count gzfV) NODE_CHUNK)
    (bobj_vertex_count gzfV) (drop 4 (gz_rest gzfV)) kV = true ->
  (* complete vertices and normals *)
  (0 < V)%nat -> Z.of_nat V < 2 ^ 31 ->
  length vb = (V * 12)%nat -> length nb = (V * 12)%nat ->
  Z.of_nat V <= numChunksOf (Z.of_nat V) NODE_CHUNK * NODE_CHUNK ->
  (* normals that run dry *)
  is_int32 Nn = true -> Z.of_nat kN * NODE_CHUNK <= Z.of_nat V ->
  runs_dry NODE_CHUNK 12 (numChunksOf (Z.of_nat V) NODE_CHUNK) Nn nb_dry kN = true ->
  (* triangles that run dry *)
  is_int32 W = true ->
  runs_dry TRIANGLE_CHUNK 12 (numChunksOf W TRIANGLE_CHUNK) W tb_dry kT = true ->
  (* raw grid files *)
  (gzread gzf0 grid (expectedBytes m isNoise)).2 = 0 ->
  (gzread gzf1 grid (expectedBytes m isNoise)).2 <> 0 ->
  (gzread gzf1 grid (expectedBytes m isNoise)).2 <> expectedBytes m isNoise ->
  chunk_loop CHUNK recSize kstep store (S n) N todo gzf buffer dest = Aborted dest
  /\ (exists m', updateParticlesFromUni m (Some gzfP) isSecondarySys isVelData u
                 = Returned false m')
  /\ (exists m', updateMeshFromBobj m (Some gzfV) bufferVerts bufferNormals
                   bufferTriangles = Returned false m')
  /\ (exists m',
        updateMeshFromBobj m
          (Some (mk_gzFile (mem_words [Z.of_nat V] ++ vb ++ mem_words [Nn] ++ nb_dry)
                   statusM))
          bufferVerts bufferNormals bufferTriangles = Returned false m')
  /\ (exists m',
        updateMeshFromBobj m
          (Some (mk_gzFile (mem_words [Z.of_nat V] ++ vb ++ mem_words [Z.of_nat V] ++ nb
                            ++ mem_words [W] ++ tb_dry) statusM))
          bufferVerts bufferNormals bufferTriangles = Returned false m')
  /\ updateGridFromRaw ndebug m (Some gzf0) grid isNoise = Returned false grid
  /\ updateGridFromRaw false m (Some gzf1) grid isNoise = Thrown AssertionFailure.
Proof.
  intros Htodo Hzero HreadP HsaneP HsizeP HdryP HnonemptyV HdryV
    HV HV31 Hvb Hnb HchunksV HNint HkN HdryN HWint HdryT Hzero0 Hnonzero1 Hshort1.
  split; [by apply chunk_loop_read_zero |].
  split; [by apply updateParticlesFromUni_runs_dry with recSizeP kP |].
  split; [by apply updateMeshFromBobj_vertices_run_dry with kV |].
  split; [by apply updateMeshFromBobj_normals_run_dry with kN |].
  split; [by apply updateMeshFromBobj_triangles_run_dry with kT |].
  split.
  - rewrite updateGridFromRaw_unfold. cbv zeta. rewrite Hzero0.
    cbn [Z.eqb]. by rewrite gzread_zero_buffer.
  - rewrite updateGridFromRaw_unfold. cbv zeta.
    destruct (_.2 =? 0) eqn:E; [apply Z.eqb_eq in E; done |].
    destruct (expectedBytes m isNoise =? _) eqn:E'; [apply Z.eqb_eq in E'; done |].
    reflexivity.
Qed.

Lemma zero_read_returns_false_witness :
  chunk_loop PARTICLE_CHUNK 16 1 store_pData 1 2 2 (mk_gzFile [] Z_OK)
    (i_chunk ex_indeterminate) [pData_zero; pData_zero]
  = Aborted [pData_zero; pData_zero]
  /\ (exists m', updateParticlesFromUni ex_MANTA (Some ex_velocities_dry)
                   true true ex_indeterminate = Returned false m')
  /\ (exists m', updateMeshFromBobj ex_MANTA (Some (mk_gzFile (mem_words [2]) Z_OK))
                   [] [] [] = Returned false m')
  /\ (exists m',
        updateMeshFromBobj ex_MANTA
          (Some (mk_gzFile (mem_words [Z.of_nat 1] ++ ex_vertex ++ mem_words [1] ++ [])
                   Z_OK))
          [] [] [] = Returned false m')
  /\ (exists m',
        updateMeshFromBobj ex_MANTA
          (Some (mk_gzFile (mem_words [Z.of_nat 1] ++ ex_vertex ++ mem_words [Z.of_nat 1]
                            ++ ex_normal ++ mem_words [2] ++ []) Z_OK))
          [] [] [] = Returned false m')
  /\ updateGridFromRaw true ex_MANTA (Some (mk_gzFile [] Z_OK)) ex_grid false
     = Returned false ex_grid
  /\ updateGridFromRaw false ex_MANTA (Some short_raw_file) ex_grid false
     = Thrown AssertionFailure.
Proof.
  apply (zero_read_returns_false PARTICLE_CHUNK 16 1 store_pData 0 2 2
           (mk_gzFile [] Z_OK) (i_chunk ex_indeterminate) [pData_zero; pData_zero]
           ex_MANTA ex_velocities_dry true true ex_indeterminate 12 1
           (mk_gzFile (mem_words [2]) Z_OK) 0
           Z_OK 1 ex_vertex ex_normal 1 [] 0 2 [] 0 [] [] []
           true (mk_gzFile [] Z_OK) short_raw_file ex_grid false).
  - reflexivity.
  - vm_compute; reflexivity.
  - vm_compute; reflexivity.
  - vm_compute; reflexivity.
  - vm_compute; reflexivity.
  - vm_compute; reflexivity.
  - vm_compute; discriminate.
  - vm_compute; reflexivity.
  - lia.
  - reflexivity.
  - reflexivity.
  - reflexivity.
  - vm_compute; discriminate.
  - reflexivity.
  - vm_compute; discriminate.
  - vm_compute; reflexivity.
  - reflexivity.
  - vm_compute; reflexivity.
  - vm_compute; reflexivity.
  - vm_compute; discriminate.
  - vm_compute; discriminate.
Defined.
